(** * n8n-nodes-ping: the polling engine of the Ping and Server Check nodes

    A shallow embedding of the four node implementations of the package

    - [PingTrigger]         nodes/Ping/PingTrigger.node.ts, first class
                            (display name 'Ping Trigger'),
    - [ServerCheckTrigger]  nodes/Ping/PingTrigger.node.ts, second class
                            (display name 'Server Check Trigger'),
    - [Ping]                nodes/Ping/ping.d.ts, second document: the
                            [execute] node with display name 'Ping',
    - [ServerCheck]         the [execute] node with display name
                            'Server Check',

    followed by the properties of the probe, aggregation, debounce and
    trigger logic.

    Modelling conventions.
    - Counters and option values that the engine types as [number] and
      the nodes use as whole numbers (numberOfPings, failureThreshold,
      timeout, consecutiveFailures, millisecond differences of
      [Date.now()]) are [Z]; wrap-around does not exist in JavaScript and
      the loss of precision above 2^53 is not modelled.
    - Measured ping times and latency thresholds are rationals [Q]: the
      arithmetic of the code is carried out exactly, without the rounding
      of IEEE doubles.  The values [Infinity] and [NaN], which the code
      produces on purpose, are kept ([JS.number]).
    - Everything the code obtains from outside (the ping library, the
      network, the URL parser, the clock, the conversion of a number in a
      template literal) is a field of a [World] record, one per poll cycle
      or per input item.
    - [workflowStaticData] is an explicit value threaded through [poll].
    - A thrown exception is the [Throw] case of [Completion]. *)

From Stdlib Require Import ZArith QArith Qround String Ascii List Bool Lia Lqa DecimalString.
From Stdlib Require PrimFloat.
Import ListNotations.

Local Open Scope string_scope.
Local Open Scope Z_scope.

(** ** JavaScript values *)

Module JS.

(** The numbers the code can hold in a [number] variable. *)
Inductive number : Type :=
| Fin (q : Q)
| PosInfinity
| NegInfinity
| NaN.

Definition Qltb (x y : Q) : bool := negb (Qle_bool y x).

(** [x < y] *)
Definition lt (x y : number) : bool :=
  match x, y with
  | NaN, _ | _, NaN => false
  | _, NegInfinity => false
  | PosInfinity, _ => false
  | NegInfinity, _ => true
  | Fin _, PosInfinity => true
  | Fin a, Fin b => Qltb a b
  end.

(** [x / y] for finite operands. *)
Definition div (x y : Q) : number :=
  if Qeq_bool y 0 then
    if Qeq_bool x 0 then NaN
    else if Qltb x 0 then NegInfinity else PosInfinity
  else Fin (x / y).

(** [x * k] for a positive finite constant [k]. *)
Definition scale (x : number) (k : Q) : number :=
  match x with
  | Fin q => Fin (q * k)
  | other => other
  end.

(** Decimal numeral of an integer, as [String(n)] gives it. *)
Definition Z_toString (z : Z) : string := NilZero.string_of_int (Z.to_int z).

Fixpoint zeros (n : nat) : string :=
  match n with
  | O => ""
  | S k => String "0" (zeros k)
  end.

Definition padStart (width : nat) (s : string) : string :=
  zeros (width - String.length s) ++ s.

Definition pow10 (digits : nat) : Z := 10 ^ Z.of_nat digits.

(** [Number.prototype.toFixed] on a finite number below 10^21: the
    integer [n] with [n / 10^digits] nearest to [|x|] (the larger one on a
    tie), printed with [digits] decimals, after the sign. *)
Definition toFixed (digits : nat) (x : Q) : string :=
  let negative := Qltb x 0 in
  let ax := if negative then Qopp x else x in
  let n := Qfloor (ax * inject_Z (pow10 digits) + (1 # 2)) in
  let whole := Z_toString (n / pow10 digits) in
  let frac := padStart digits (Z_toString (n mod pow10 digits)) in
  (if negative then "-" else "")
    ++ whole
    ++ match digits with O => "" | S _ => "." ++ frac end.

Definition number_toFixed (digits : nat) (x : number) : string :=
  match x with
  | Fin q => toFixed digits q
  | PosInfinity => "Infinity"
  | NegInfinity => "-Infinity"
  | NaN => "NaN"
  end.

(** [v ?? d] *)
Definition nullish {A : Type} (v : option A) (d : A) : A :=
  match v with
  | Some a => a
  | None => d
  end.

(** What a function body can do besides returning. *)
Inductive Error : Type :=
| NodeOperationError (message : string)
| TypeError (message : string).

Definition message (e : Error) : string :=
  match e with
  | NodeOperationError m => m
  | TypeError m => m
  end.

Inductive Completion (A : Type) : Type :=
| Normal (a : A)
| Throw (e : Error).
Arguments Normal {A} a.
Arguments Throw {A} e.

Definition bind {A B : Type} (c : Completion A) (k : A -> Completion B)
  : Completion B :=
  match c with
  | Normal a => k a
  | Throw e => Throw e
  end.

End JS.

Notation "'await' x <- c ;; k" := (JS.bind c (fun x => k))
  (at level 61, x name, c at next level, right associativity).

(** ** The persisted per-node state, [getWorkflowStaticData('node')] *)

Module StaticData.

Record t : Type := mk {
  previousStatus : option bool;
  consecutiveFailures : option Z
}.

(** The object before the first poll of a node. *)
Definition empty : t := mk None None.

(** [(workflowStaticData.consecutiveFailures as number) || 0] *)
Definition readConsecutiveFailures (sd : t) : Z :=
  match consecutiveFailures sd with
  | Some n => n
  | None => 0
  end.

End StaticData.

(** ** The debounce step shared, line for line, by both trigger nodes

    PingTrigger.node.ts, 'Ping Trigger' [poll], "Update consecutive
    failures counter" and "Determine if host is considered offline", and
    the same two blocks of the 'Server Check Trigger' [poll]. *)

Module Debounce.

(** [let n = consecutiveFailures; if (!reachable) n++; else n = 0;] *)
Definition newConsecutiveFailures (reachable : bool) (consecutiveFailures : Z) : Z :=
  if negb reachable then consecutiveFailures + 1 else 0.

(** [newConsecutiveFailures >= failureThreshold] *)
Definition isOffline (newConsecutiveFailures failureThreshold : Z) : bool :=
  failureThreshold <=? newConsecutiveFailures.

(** [!isOffline && reachable] *)
Definition currentStatus (newConsecutiveFailures failureThreshold : Z)
           (reachable : bool) : bool :=
  negb (isOffline newConsecutiveFailures failureThreshold) && reachable.

Definition statusName (status : bool) : string :=
  if status then "online" else "offline".

End Debounce.

(** ** The ping library, as declared in ping.d.ts *)

Module PingLib.

(** [PingResponse], the fields the nodes read.  [time] is the reading
    that [parseFloat(result.time)] extracts: [None] when it is [NaN]
    (the library reports the string 'unknown' for a host that did not
    answer). *)
Record PingResponse : Type := mkResponse {
  alive : bool;
  time : option Q;
  output : string;
  numeric_host : string
}.

(** [parseFloat(result.time as string) || 0] *)
Definition parsedTime (result : PingResponse) : Q :=
  match time result with
  | Some q => if Qeq_bool q 0 then 0%Q else q
  | None => 0%Q
  end.

(** The number of answered attempts among [results]. *)
Definition aliveCount (results : list PingResponse) : Z :=
  Z.of_nat (length (filter alive results)).

(** The indices [0 .. numberOfPings - 1] of a [for] loop, for a whole
    number of pings.  (The option is a JavaScript number: for a fraction
    such as 2.5 the loop runs for [i] = 0, 1, 2; the loop on doubles is
    [Double.pingLoop].) *)
Definition attempts (numberOfPings : Z) : list nat :=
  seq 0 (Z.to_nat numberOfPings).

End PingLib.

(** ** 'Ping Trigger': PingTrigger.node.ts, first class *)

Module PingTrigger.
Import PingLib.

Module Options.
Record t : Type := mk {
  timeout : option Z;
  numberOfPings : option Z;
  failureThreshold : option Z;
  includeRawOutput : option bool
}.
(** The collection's default, [{}]. *)
Definition default : t := mk None None None None.
End Options.

Module Params.
Record t : Type := mk {
  host : string;
  triggerMode : string;
  latencyThreshold : Q;
  options : Options.t
}.
End Params.

(** What a cycle finds outside the node.  The model covers the cycles in
    which every call of the ping library resolves with a response; a call
    that rejects makes [poll] reject, which is not modelled. *)
Record World : Type := mkWorld {
  (** [ping.promise.probe(host, { timeout })], by attempt. *)
  probe : string -> Z -> nat -> PingResponse;
  (** [new Date().toISOString()] *)
  now : string;
  (** a number inside a template literal *)
  Number_toString : Q -> string
}.

(** The variables of the ping loop. *)
Record Stats : Type := mkStats {
  successCount : Z;
  totalTime : Q;
  minTime : JS.number;
  maxTime : Q;
  lastOutput : string;
  numericHost : string
}.

Definition initialStats : Stats :=
  mkStats 0 0%Q JS.PosInfinity 0%Q "" "".

(** One iteration of the loop body. *)
Definition pingStep (s : Stats) (result : PingResponse) : Stats :=
  if alive result then
    let time := parsedTime result in
    mkStats (successCount s + 1)
            (totalTime s + time)%Q
            (if JS.lt (JS.Fin time) (minTime s) then JS.Fin time else minTime s)
            (if JS.Qltb (maxTime s) time then time else maxTime s)
            (output result)
            (numeric_host result)
  else
    mkStats (successCount s) (totalTime s) (minTime s) (maxTime s)
            (output result) (numeric_host result).

(** [for (let i = 0; i < numberOfPings; i++) { ... }] *)
Definition pingLoop (w : World) (host : string) (timeout numberOfPings : Z) : Stats :=
  fold_left pingStep (map (probe w host timeout) (attempts numberOfPings)) initialStats.

Definition isAlive (s : Stats) : bool := 0 <? successCount s.

(** [successCount > 0 ? totalTime / successCount : 0] *)
Definition avgTime (s : Stats) : Q :=
  if 0 <? successCount s then (totalTime s / inject_Z (successCount s))%Q else 0%Q.

(** [((numberOfPings - successCount) / numberOfPings) * 100] *)
Definition packetLoss (numberOfPings : Z) (s : Stats) : JS.number :=
  JS.scale (JS.div (inject_Z (numberOfPings - successCount s)) (inject_Z numberOfPings))
           100%Q.

Module Details.
Record t : Type := mk {
  numericHost : string;
  pingsAttempted : Z;
  pingsSuccessful : Z;
  pingsFailed : Z;
  minTime : string;
  maxTime : string;
  consecutiveFailures : Z;
  failureThreshold : Z;
  rawOutput : option string
}.
Definition set_rawOutput (d : t) (v : string) : t :=
  mk (numericHost d) (pingsAttempted d) (pingsSuccessful d) (pingsFailed d)
     (minTime d) (maxTime d) (consecutiveFailures d) (failureThreshold d) (Some v).
End Details.

Module Output.
Record t : Type := mk {
  host : string;
  alive : bool;
  status : string;
  responseTime : string;
  responseTimeMs : Q;
  packetLoss : string;
  packetLossPercent : JS.number;
  timestamp : string;
  triggerReason : string;
  details : Details.t;
  previousStatus : option string;
  newStatus : option string;
  latencyThreshold : option Q
}.
Definition set_details (o : t) (v : Details.t) : t :=
  mk (host o) (alive o) (status o) (responseTime o) (responseTimeMs o)
     (packetLoss o) (packetLossPercent o) (timestamp o) (triggerReason o)
     v (previousStatus o) (newStatus o) (latencyThreshold o).
Definition set_triggerReason (o : t) (v : string) : t :=
  mk (host o) (alive o) (status o) (responseTime o) (responseTimeMs o)
     (packetLoss o) (packetLossPercent o) (timestamp o) v
     (details o) (previousStatus o) (newStatus o) (latencyThreshold o).
Definition set_previousStatus (o : t) (v : string) : t :=
  mk (host o) (alive o) (status o) (responseTime o) (responseTimeMs o)
     (packetLoss o) (packetLossPercent o) (timestamp o) (triggerReason o)
     (details o) (Some v) (newStatus o) (latencyThreshold o).
Definition set_newStatus (o : t) (v : string) : t :=
  mk (host o) (alive o) (status o) (responseTime o) (responseTimeMs o)
     (packetLoss o) (packetLossPercent o) (timestamp o) (triggerReason o)
     (details o) (previousStatus o) (Some v) (latencyThreshold o).
Definition set_latencyThreshold (o : t) (v : Q) : t :=
  mk (host o) (alive o) (status o) (responseTime o) (responseTimeMs o)
     (packetLoss o) (packetLossPercent o) (timestamp o) (triggerReason o)
     (details o) (previousStatus o) (newStatus o) (Some v).
End Output.

(** [`${x.toFixed(2)} ms`] *)
Definition ms (x : Q) : string := JS.toFixed 2 x ++ " ms".

(** "Build output data" *)
Definition buildOutput (w : World) (host : string) (numberOfPings failureThreshold : Z)
           (includeRawOutput : bool) (s : Stats)
           (newConsecutiveFailures : Z) (currentStatus : bool) : Output.t :=
  let avgTime := avgTime s in
  let packetLoss := packetLoss numberOfPings s in
  let outputData :=
    Output.mk
      host
      (isAlive s)
      (Debounce.statusName currentStatus)
      (if JS.Qltb 0 avgTime then ms avgTime else "N/A")
      avgTime
      (JS.number_toFixed 1 packetLoss ++ "%")
      packetLoss
      (now w)
      ""
      (Details.mk
         (numericHost s)
         numberOfPings
         (successCount s)
         (numberOfPings - successCount s)
         (match minTime s with
          | JS.PosInfinity => "N/A"
          | other => JS.number_toFixed 2 other ++ " ms"
          end)
         (if JS.Qltb 0 (maxTime s) then ms (maxTime s) else "N/A")
         newConsecutiveFailures
         failureThreshold
         None)
      None None None in
  if includeRawOutput
  then Output.set_details outputData
         (Details.set_rawOutput (Output.details outputData) (lastOutput s))
  else outputData.

(** "Determine if we should trigger based on mode": the [switch], giving
    [shouldTrigger] and the updated [outputData]. *)
Definition trigger (w : World) (triggerMode : string) (latencyThreshold : Q)
           (previousStatus : option bool) (currentStatus : bool) (s : Stats)
           (outputData : Output.t) : bool * Output.t :=
  if String.eqb triggerMode "statusChange" then
    match previousStatus with
    | Some previous =>
        if negb (Bool.eqb previous currentStatus) then
          (true,
           Output.set_newStatus
             (Output.set_previousStatus
                (Output.set_triggerReason outputData
                   (if currentStatus then "Host came online" else "Host went offline"))
                (Debounce.statusName previous))
             (Debounce.statusName currentStatus))
        else (false, outputData)
    | None => (true, Output.set_triggerReason outputData "Initial status check")
    end
  else if String.eqb triggerMode "everyPoll" then
    (true, Output.set_triggerReason outputData "Scheduled poll")
  else if String.eqb triggerMode "onlyOffline" then
    if negb currentStatus
    then (true, Output.set_triggerReason outputData "Host is offline")
    else (false, outputData)
  else if String.eqb triggerMode "onlyOnline" then
    if currentStatus
    then (true, Output.set_triggerReason outputData "Host is online")
    else (false, outputData)
  else if String.eqb triggerMode "highLatency" then
    if isAlive s && JS.Qltb latencyThreshold (avgTime s) then
      (true,
       Output.set_latencyThreshold
         (Output.set_triggerReason outputData
            ("High latency detected (" ++ JS.toFixed 2 (avgTime s) ++ "ms > "
               ++ Number_toString w latencyThreshold ++ "ms threshold)"))
         latencyThreshold)
    else (false, outputData)
  else (false, outputData).

(** [async poll()]: the new static data and the emitted item, [None] for
    [return null]. *)
Definition poll (p : Params.t) (w : World) (workflowStaticData : StaticData.t)
  : JS.Completion (StaticData.t * option Output.t) :=
  let host := Params.host p in
  let triggerMode := Params.triggerMode p in
  let options := Params.options p in
  let timeout := JS.nullish (Options.timeout options) 10 in
  let numberOfPings := JS.nullish (Options.numberOfPings options) 3 in
  let includeRawOutput := JS.nullish (Options.includeRawOutput options) false in
  let previousStatus := StaticData.previousStatus workflowStaticData in
  let consecutiveFailures := StaticData.readConsecutiveFailures workflowStaticData in
  let failureThreshold := JS.nullish (Options.failureThreshold options) 2 in
  let s := pingLoop w host timeout numberOfPings in
  let newConsecutiveFailures :=
    Debounce.newConsecutiveFailures (isAlive s) consecutiveFailures in
  let currentStatus :=
    Debounce.currentStatus newConsecutiveFailures failureThreshold (isAlive s) in
  let outputData :=
    buildOutput w host numberOfPings failureThreshold includeRawOutput s
                newConsecutiveFailures currentStatus in
  let '(shouldTrigger, outputData) :=
    trigger w triggerMode (Params.latencyThreshold p) previousStatus currentStatus s
            outputData in
  let workflowStaticData :=
    StaticData.mk (Some currentStatus) (Some newConsecutiveFailures) in
  JS.Normal (workflowStaticData, if shouldTrigger then Some outputData else None).

(** Successive poll cycles of one node: the engine hands the static data
    of each cycle to the next one. *)
Fixpoint cycles (p : Params.t) (ws : list World) (sd : StaticData.t)
  : JS.Completion (StaticData.t * list (option Output.t)) :=
  match ws with
  | [] => JS.Normal (sd, [])
  | w :: rest =>
      await r <- poll p w sd ;;
      await r' <- cycles p rest (fst r) ;;
      JS.Normal (fst r', snd r :: snd r')
  end.

End PingTrigger.

(** ** What the HTTP, TCP and DNS checks see of the outside *)

Module Net.

(** The fields of a WHATWG [URL] object that the checks read. *)
Module URL.
Record t : Type := mk {
  protocol : string;
  hostname : string;
  port : string;
  pathname : string;
  search : string
}.
End URL.

(** [parsedUrl.port || (isHttps ? 443 : 80)] is a string or a number. *)
Inductive Port : Type :=
| PortString (s : string)
| PortNumber (n : Z).

Module RequestOptions.
Record t : Type := mk {
  (** [httpModule]: [true] for [https], [false] for [http] *)
  secure : bool;
  method : string;
  hostname : string;
  port : Port;
  path : string;
  timeout : Z;
  rejectUnauthorized : bool
}.
End RequestOptions.

(** The first event of a request: the response callback, 'timeout' or
    'error'; [elapsed] is [Date.now() - startTime] in the handler. *)
Inductive HttpOutcome : Type :=
| HttpResponse (statusCode : option Z) (statusMessage : string) (elapsed : Z)
| HttpTimeout
| HttpError (message : string) (elapsed : Z).

(** The first event of a socket: 'connect', 'timeout' or 'error'. *)
Inductive TcpOutcome : Type :=
| TcpConnect (elapsed : Z)
| TcpTimeout (elapsed : Z)
| TcpError (message : string) (elapsed : Z).

(** Whichever comes first: the timer or the callback of [dns.lookup]. *)
Inductive DnsOutcome : Type :=
| DnsTimer
| DnsError (message : string) (elapsed : Z)
| DnsAddress (address : string) (family : Z) (elapsed : Z).

(** What a check finds outside the node.  The model covers the checks
    whose calls into Node are accepted: [http.request], [socket.setTimeout]
    and [socket.connect] throw on arguments outside their ranges (the
    [RangeError] of a port outside 0..65535, for one), and the check then
    rejects; only the [TypeError] of the URL constructor is modelled. *)
Record World : Type := mkWorld {
  (** [new URL(url)]: [None] when the constructor throws *)
  URL_parse : string -> option URL.t;
  http_request : RequestOptions.t -> HttpOutcome;
  (** [socket.setTimeout(timeout); socket.connect(port, host)] *)
  tcp_connect : Z -> string -> Z -> TcpOutcome;
  (** [dns.lookup(domain, cb)] raced against [setTimeout(.., timeout)] *)
  dns_lookup : string -> Z -> DnsOutcome;
  (** [new Date().toISOString()] *)
  now : string;
  (** a number inside a template literal *)
  Number_toString : Q -> string
}.

(** The [requestOptions] object built by both [executeHttpCheck]s. *)
Definition requestOptions (parsedUrl : URL.t) (method : string) (timeout : Z)
  : RequestOptions.t :=
  let isHttps := String.eqb (URL.protocol parsedUrl) "https:" in
  RequestOptions.mk
    isHttps
    method
    (URL.hostname parsedUrl)
    (if String.eqb (URL.port parsedUrl) ""
     then PortNumber (if isHttps then 443 else 80)
     else PortString (URL.port parsedUrl))
    (URL.pathname parsedUrl ++ URL.search parsedUrl)
    timeout
    false.

(** The message of the [TypeError] of [new URL]. *)
Definition invalidURL : JS.Error := JS.TypeError "Invalid URL".

End Net.

(** ** 'Server Check Trigger': PingTrigger.node.ts, second class *)

Module ServerCheckTrigger.
Import Net.

Record CheckResult : Type := mkResult {
  reachable : bool;
  responseTimeMs : Z;
  error : option string;
  statusCode : option Z;
  resolvedIp : option string
}.

(** [executeHttpCheck(url, method, timeout)], with the list of the
    requests it issued. *)
Definition executeHttpCheck (w : World) (url method : string) (timeout : Z)
  : list RequestOptions.t * JS.Completion CheckResult :=
  match URL_parse w url with
  | None => ([], JS.Throw invalidURL)
  | Some parsedUrl =>
      let requestOptions := requestOptions parsedUrl method timeout in
      ([requestOptions],
       JS.Normal
         match http_request w requestOptions with
         | HttpResponse statusCode _ responseTime =>
             mkResult true responseTime None statusCode None
         | HttpTimeout =>
             mkResult false timeout (Some "Connection timeout") None None
         | HttpError message responseTime =>
             mkResult false responseTime (Some message) None None
         end)
  end.

(** [executeTcpCheck(host, port, timeout)] *)
Definition executeTcpCheck (w : World) (host : string) (port timeout : Z)
  : JS.Completion CheckResult :=
  JS.Normal
    match tcp_connect w port host timeout with
    | TcpConnect responseTime => mkResult true responseTime None None None
    | TcpTimeout responseTime =>
        mkResult false responseTime (Some "Connection timeout") None None
    | TcpError message responseTime =>
        mkResult false responseTime (Some message) None None
    end.

(** [executeDnsCheck(domain, timeout)] *)
Definition executeDnsCheck (w : World) (domain : string) (timeout : Z)
  : JS.Completion CheckResult :=
  JS.Normal
    match dns_lookup w domain timeout with
    | DnsTimer => mkResult false timeout (Some "DNS lookup timeout") None None
    | DnsError message responseTime =>
        mkResult false responseTime (Some message) None None
    | DnsAddress address _ responseTime =>
        mkResult true responseTime None None (Some address)
    end.

Module Options.
Record t : Type := mk {
  timeout : option Z;
  failureThreshold : option Z
}.
Definition default : t := mk None None.
End Options.

Module Params.
Record t : Type := mk {
  checkType : string;
  triggerMode : string;
  url : string;
  httpMethod : string;
  host : string;
  port : Z;
  domain : string;
  latencyThreshold : Q;
  options : Options.t
}.
End Params.

Module Details.
Record t : Type := mk {
  consecutiveFailures : Z;
  failureThreshold : Z
}.
End Details.

Module Output.
Record t : Type := mk {
  checkType : string;
  target : string;
  reachable : bool;
  status : string;
  responseTimeMs : Z;
  responseTime : string;
  timestamp : string;
  triggerReason : string;
  details : Details.t;
  error : option string;
  statusCode : option Z;
  resolvedIp : option string;
  previousStatus : option string;
  newStatus : option string;
  latencyThreshold : option Q
}.
Definition set_triggerReason (o : t) (v : string) : t :=
  mk (checkType o) (target o) (reachable o) (status o) (responseTimeMs o)
     (responseTime o) (timestamp o) v (details o) (error o) (statusCode o)
     (resolvedIp o) (previousStatus o) (newStatus o) (latencyThreshold o).
Definition set_previousStatus (o : t) (v : string) : t :=
  mk (checkType o) (target o) (reachable o) (status o) (responseTimeMs o)
     (responseTime o) (timestamp o) (triggerReason o) (details o) (error o)
     (statusCode o) (resolvedIp o) (Some v) (newStatus o) (latencyThreshold o).
Definition set_newStatus (o : t) (v : string) : t :=
  mk (checkType o) (target o) (reachable o) (status o) (responseTimeMs o)
     (responseTime o) (timestamp o) (triggerReason o) (details o) (error o)
     (statusCode o) (resolvedIp o) (previousStatus o) (Some v) (latencyThreshold o).
Definition set_latencyThreshold (o : t) (v : Q) : t :=
  mk (checkType o) (target o) (reachable o) (status o) (responseTimeMs o)
     (responseTime o) (timestamp o) (triggerReason o) (details o) (error o)
     (statusCode o) (resolvedIp o) (previousStatus o) (newStatus o) (Some v).
End Output.

(** "Perform the check based on type": [None] is the [default:] branch,
    which leaves [poll] with [return null]. *)
Definition performCheck (p : Params.t) (w : World) (timeout : Z)
  : JS.Completion (option (string * CheckResult)) :=
  let checkType := Params.checkType p in
  if String.eqb checkType "http" then
    let url := Params.url p in
    let method := Params.httpMethod p in
    await checkResult <- snd (executeHttpCheck w url method timeout) ;;
    JS.Normal (Some (url, checkResult))
  else if String.eqb checkType "tcp" then
    let host := Params.host p in
    let port := Params.port p in
    await checkResult <- executeTcpCheck w host port timeout ;;
    JS.Normal (Some (host ++ ":" ++ JS.Z_toString port, checkResult))
  else if String.eqb checkType "dns" then
    let domain := Params.domain p in
    await checkResult <- executeDnsCheck w domain timeout ;;
    JS.Normal (Some (domain, checkResult))
  else JS.Normal None.

(** A property that [if (x)] takes as present. *)
Definition truthyString (v : option string) : option string :=
  match v with
  | Some s => if String.eqb s "" then None else Some s
  | None => None
  end.

Definition truthyNumber (v : option Z) : option Z :=
  match v with
  | Some n => if n =? 0 then None else Some n
  | None => None
  end.

(** "Build output data" *)
Definition buildOutput (w : World) (checkType target : string) (failureThreshold : Z)
           (checkResult : CheckResult) (newConsecutiveFailures : Z)
           (currentStatus : bool) : Output.t :=
  Output.mk
    checkType
    target
    (reachable checkResult)
    (Debounce.statusName currentStatus)
    (responseTimeMs checkResult)
    (JS.Z_toString (responseTimeMs checkResult) ++ " ms")
    (now w)
    ""
    (Details.mk newConsecutiveFailures failureThreshold)
    (truthyString (error checkResult))
    (truthyNumber (statusCode checkResult))
    (truthyString (resolvedIp checkResult))
    None None None.

(** "Determine if we should trigger based on mode" *)
Definition trigger (w : World) (triggerMode : string) (latencyThreshold : Q)
           (previousStatus : option bool) (currentStatus : bool)
           (checkResult : CheckResult) (outputData : Output.t) : bool * Output.t :=
  if String.eqb triggerMode "statusChange" then
    match previousStatus with
    | Some previous =>
        if negb (Bool.eqb previous currentStatus) then
          (true,
           Output.set_newStatus
             (Output.set_previousStatus
                (Output.set_triggerReason outputData
                   (if currentStatus then "Server came online"
                    else "Server went offline"))
                (Debounce.statusName previous))
             (Debounce.statusName currentStatus))
        else (false, outputData)
    | None => (true, Output.set_triggerReason outputData "Initial status check")
    end
  else if String.eqb triggerMode "everyPoll" then
    (true, Output.set_triggerReason outputData "Scheduled poll")
  else if String.eqb triggerMode "onlyOffline" then
    if negb currentStatus
    then (true, Output.set_triggerReason outputData "Server is offline")
    else (false, outputData)
  else if String.eqb triggerMode "onlyOnline" then
    if currentStatus
    then (true, Output.set_triggerReason outputData "Server is online")
    else (false, outputData)
  else if String.eqb triggerMode "highLatency" then
    if reachable checkResult
       && JS.Qltb latencyThreshold (inject_Z (responseTimeMs checkResult)) then
      (true,
       Output.set_latencyThreshold
         (Output.set_triggerReason outputData
            ("High latency detected (" ++ JS.Z_toString (responseTimeMs checkResult)
               ++ "ms > " ++ Number_toString w latencyThreshold ++ "ms threshold)"))
         latencyThreshold)
    else (false, outputData)
  else (false, outputData).

(** [async poll()] *)
Definition poll (p : Params.t) (w : World) (workflowStaticData : StaticData.t)
  : JS.Completion (StaticData.t * option Output.t) :=
  let checkType := Params.checkType p in
  let triggerMode := Params.triggerMode p in
  let options := Params.options p in
  let timeout := JS.nullish (Options.timeout options) 10 * 1000 in
  let failureThreshold := JS.nullish (Options.failureThreshold options) 2 in
  let previousStatus := StaticData.previousStatus workflowStaticData in
  let consecutiveFailures := StaticData.readConsecutiveFailures workflowStaticData in
  await checked <- performCheck p w timeout ;;
  match checked with
  | None => JS.Normal (workflowStaticData, None)
  | Some (target, checkResult) =>
      let newConsecutiveFailures :=
        Debounce.newConsecutiveFailures (reachable checkResult) consecutiveFailures in
      let currentStatus :=
        Debounce.currentStatus newConsecutiveFailures failureThreshold
                               (reachable checkResult) in
      let outputData :=
        buildOutput w checkType target failureThreshold checkResult
                    newConsecutiveFailures currentStatus in
      let '(shouldTrigger, outputData) :=
        trigger w triggerMode (Params.latencyThreshold p) previousStatus currentStatus
                checkResult outputData in
      let workflowStaticData :=
        StaticData.mk (Some currentStatus) (Some newConsecutiveFailures) in
      JS.Normal (workflowStaticData, if shouldTrigger then Some outputData else None)
  end.

Fixpoint cycles (p : Params.t) (ws : list World) (sd : StaticData.t)
  : JS.Completion (StaticData.t * list (option Output.t)) :=
  match ws with
  | [] => JS.Normal (sd, [])
  | w :: rest =>
      await r <- poll p w sd ;;
      await r' <- cycles p rest (fst r) ;;
      JS.Normal (fst r', snd r :: snd r')
  end.

End ServerCheckTrigger.

(** ** 'Ping': the [execute] node of the ping package (class [Ping],
    the second document of nodes/Ping/ping.d.ts) *)

Module Ping.
Import PingLib.

Module Options.
Record t : Type := mk {
  timeout : option Z;
  numberOfPings : option Z;
  includeDetails : option bool
}.
Definition default : t := mk None None None.
End Options.

Module Params.
Record t : Type := mk {
  host : string;
  options : Options.t
}.
End Params.

Record World : Type := mkWorld {
  probe : string -> Z -> nat -> PingResponse;
  now : string
}.

(** The variables of the ping loop. *)
Record Stats : Type := mkStats {
  pingResults : list PingResponse;
  successCount : Z;
  totalTime : Q;
  minTime : JS.number;
  maxTime : Q
}.

Definition initialStats : Stats := mkStats [] 0 0%Q JS.PosInfinity 0%Q.

Definition pingStep (s : Stats) (result : PingResponse) : Stats :=
  let pingResults := (pingResults s ++ [result])%list in
  if alive result then
    let time := parsedTime result in
    mkStats pingResults
            (successCount s + 1)
            (totalTime s + time)%Q
            (if JS.lt (JS.Fin time) (minTime s) then JS.Fin time else minTime s)
            (if JS.Qltb (maxTime s) time then time else maxTime s)
  else
    mkStats pingResults (successCount s) (totalTime s) (minTime s) (maxTime s).

Definition pingLoop (w : World) (host : string) (timeout numberOfPings : Z) : Stats :=
  fold_left pingStep (map (probe w host timeout) (attempts numberOfPings)) initialStats.

(** [successCount > 0 ? totalTime / successCount : 0] *)
Definition avgTime (s : Stats) : Q :=
  if 0 <? successCount s then (totalTime s / inject_Z (successCount s))%Q else 0%Q.

(** [((numberOfPings - successCount) / numberOfPings) * 100] *)
Definition packetLoss (numberOfPings : Z) (s : Stats) : JS.number :=
  JS.scale (JS.div (inject_Z (numberOfPings - successCount s)) (inject_Z numberOfPings))
           100%Q.

Definition ms (x : Q) : string := JS.toFixed 2 x ++ " ms".

Module Details.
Record t : Type := mk {
  numericHost : string;
  pingsAttempted : Z;
  pingsSuccessful : Z;
  pingsFailed : Z;
  averageTime : string;
  minTime : string;
  maxTime : string;
  output : string
}.
End Details.

Module Output.
Record t : Type := mk {
  host : string;
  alive : bool;
  status : string;
  responseTime : option Q;
  packetLoss : string;
  timestamp : string;
  details : option Details.t
}.
End Output.

(** The record pushed by the [catch] block under [continueOnFail()]. *)
Module Failure.
Record t : Type := mk {
  host : string;
  alive : bool;
  status : string;
  error : string;
  timestamp : string
}.
End Failure.

Inductive Json : Type :=
| Result (outputData : Output.t)
| Failed (record : Failure.t).

Record Item : Type := mkItem {
  json : Json;
  pairedItem : nat
}.

(** Reading [lastResult.alive] when [pingResults] is empty. *)
Definition undefinedLastResult : JS.Error :=
  JS.TypeError "Cannot read properties of undefined (reading 'alive')".

(** The body of the [try] block for one input item. *)
Definition executeItem (p : Params.t) (w : World) : JS.Completion Output.t :=
  let host := Params.host p in
  let options := Params.options p in
  let timeout := JS.nullish (Options.timeout options) 10 in
  let numberOfPings := JS.nullish (Options.numberOfPings options) 1 in
  let includeDetails := JS.nullish (Options.includeDetails options) true in
  if String.eqb host "" then
    JS.Throw (JS.NodeOperationError "Host is required")
  else
    let s := pingLoop w host timeout numberOfPings in
    let avgTime := avgTime s in
    let packetLoss := packetLoss numberOfPings s in
    match last (map Some (pingResults s)) None with
    | None => JS.Throw undefinedLastResult
    | Some lastResult =>
        JS.Normal
          (Output.mk
             host
             (alive lastResult)
             (if alive lastResult then "reachable" else "unreachable")
             (time lastResult)
             (JS.number_toFixed 1 packetLoss ++ "%")
             (now w)
             (if includeDetails then
                Some (Details.mk
                        (numeric_host lastResult)
                        numberOfPings
                        (successCount s)
                        (numberOfPings - successCount s)
                        (if JS.Qltb 0 avgTime then ms avgTime else "N/A")
                        (match minTime s with
                         | JS.PosInfinity => "N/A"
                         | other => JS.number_toFixed 2 other ++ " ms"
                         end)
                        (if JS.Qltb 0 (maxTime s) then ms (maxTime s) else "N/A")
                        (output lastResult))
              else None))
    end.

(** The loop over the input items: [i] is the index of the first one. *)
Fixpoint executeFrom (continueOnFail : bool) (i : nat) (items : list (Params.t * World))
  : JS.Completion (list Item) :=
  match items with
  | [] => JS.Normal []
  | (p, w) :: rest =>
      match executeItem p w with
      | JS.Normal outputData =>
          await returnData <- executeFrom continueOnFail (S i) rest ;;
          JS.Normal (mkItem (Result outputData) i :: returnData)
      | JS.Throw error =>
          if continueOnFail then
            await returnData <- executeFrom continueOnFail (S i) rest ;;
            JS.Normal
              (mkItem (Failed (Failure.mk (Params.host p) false "error"
                                          (JS.message error) (now w))) i
                 :: returnData)
          else JS.Throw error
      end
  end.

(** [async execute()] *)
Definition execute (continueOnFail : bool) (items : list (Params.t * World))
  : JS.Completion (list (list Item)) :=
  await returnData <- executeFrom continueOnFail 0 items ;;
  JS.Normal [returnData].

End Ping.

(** ** 'Server Check': the [execute] node of the server-check package
    (class [Ping] with display name 'Server Check') *)

Module ServerCheck.
Import Net.

Module Options.
Record t : Type := mk {
  timeout : option Z
}.
Definition default : t := mk None.
End Options.

Module Params.
Record t : Type := mk {
  checkType : string;
  url : string;
  httpMethod : string;
  (** [None]: the parameter is not set on the node *)
  acceptAnyStatus : option bool;
  host : string;
  port : Z;
  domain : string;
  options : Options.t
}.
End Params.

(** [description.properties], 'Accept Any Status Code': [default: true]. *)
Definition acceptAnyStatus_default : bool := true.

(** [node.getNodeParameter('acceptAnyStatus', itemIndex)]: the engine
    falls back on the default of the description. *)
Definition getAcceptAnyStatus (p : Params.t) : bool :=
  JS.nullish (Params.acceptAnyStatus p) acceptAnyStatus_default.

Module Output.
Record t : Type := mk {
  checkType : string;
  url : option string;
  method : option string;
  host : option string;
  port : option Z;
  domain : option string;
  reachable : bool;
  status : string;
  statusCode : option Z;
  statusMessage : option string;
  error : option string;
  resolvedIp : option string;
  ipFamily : option string;
  responseTimeMs : Z;
  responseTime : string;
  timestamp : string
}.
End Output.

Definition httpOutput (w : World) (url method : string) (reachable : bool)
           (statusCode : option Z) (statusMessage error : option string)
           (responseTimeMs : Z) (responseTime : string) : Output.t :=
  Output.mk "http" (Some url) (Some method) None None None
            reachable (Debounce.statusName reachable)
            statusCode statusMessage error None None
            responseTimeMs responseTime (now w).

Definition tcpOutput (w : World) (host : string) (port : Z) (reachable : bool)
           (error : option string) (responseTimeMs : Z) (responseTime : string)
  : Output.t :=
  Output.mk "tcp" None None (Some host) (Some port) None
            reachable (Debounce.statusName reachable)
            None None error None None
            responseTimeMs responseTime (now w).

Definition dnsOutput (w : World) (domain : string) (reachable : bool)
           (error resolvedIp ipFamily : option string)
           (responseTimeMs : Z) (responseTime : string) : Output.t :=
  Output.mk "dns" None None None None (Some domain)
            reachable (Debounce.statusName reachable)
            None None error resolvedIp ipFamily
            responseTimeMs responseTime (now w).

Definition ms (n : Z) : string := JS.Z_toString n ++ " ms".

(** [executeHttpCheck(node, itemIndex, timeout)], with the list of the
    requests it issued. *)
Definition executeHttpCheck (p : Params.t) (w : World) (timeout : Z)
  : list RequestOptions.t * JS.Completion Output.t :=
  let url := Params.url p in
  let method := Params.httpMethod p in
  let acceptAnyStatus := getAcceptAnyStatus p in
  if String.eqb url "" then
    ([], JS.Throw (JS.NodeOperationError "URL is required"))
  else
    match URL_parse w url with
    | None => ([], JS.Throw invalidURL)
    | Some parsedUrl =>
        let requestOptions := requestOptions parsedUrl method timeout in
        ([requestOptions],
         JS.Normal
           match http_request w requestOptions with
           | HttpResponse code statusMessage responseTime =>
               let statusCode := match code with Some n => n | None => 0 end in
               let isReachable :=
                 if acceptAnyStatus then true
                 else (200 <=? statusCode) && (statusCode <? 400) in
               httpOutput w url method isReachable (Some statusCode)
                          (Some statusMessage) None responseTime (ms responseTime)
           | HttpTimeout =>
               httpOutput w url method false None None (Some "Connection timeout")
                          timeout (ms timeout ++ " (timeout)")
           | HttpError message responseTime =>
               httpOutput w url method false None None (Some message)
                          responseTime (ms responseTime)
           end)
    end.

(** [executeTcpCheck(node, itemIndex, timeout)] *)
Definition executeTcpCheck (p : Params.t) (w : World) (timeout : Z)
  : JS.Completion Output.t :=
  let host := Params.host p in
  let port := Params.port p in
  if String.eqb host "" then
    JS.Throw (JS.NodeOperationError "Host is required")
  else
    JS.Normal
      match tcp_connect w port host timeout with
      | TcpConnect responseTime =>
          tcpOutput w host port true None responseTime (ms responseTime)
      | TcpTimeout responseTime =>
          tcpOutput w host port false (Some "Connection timeout")
                    responseTime (ms responseTime ++ " (timeout)")
      | TcpError message responseTime =>
          tcpOutput w host port false (Some message) responseTime (ms responseTime)
      end.

(** [executeDnsCheck(node, itemIndex, timeout)] *)
Definition executeDnsCheck (p : Params.t) (w : World) (timeout : Z)
  : JS.Completion Output.t :=
  let domain := Params.domain p in
  if String.eqb domain "" then
    JS.Throw (JS.NodeOperationError "Domain is required")
  else
    JS.Normal
      match dns_lookup w domain timeout with
      | DnsTimer =>
          dnsOutput w domain false (Some "DNS lookup timeout") None None
                    timeout (ms timeout ++ " (timeout)")
      | DnsError message responseTime =>
          dnsOutput w domain false (Some message) None None
                    responseTime (ms responseTime)
      | DnsAddress address family responseTime =>
          dnsOutput w domain true None (Some address)
                    (Some ("IPv" ++ JS.Z_toString family))
                    responseTime (ms responseTime)
      end.

(** The record pushed by the [catch] block under [continueOnFail()]. *)
Module Failure.
Record t : Type := mk {
  reachable : bool;
  status : string;
  error : string;
  timestamp : string
}.
End Failure.

Inductive Json : Type :=
| Result (result : Output.t)
| Failed (record : Failure.t).

Record Item : Type := mkItem {
  json : Json;
  pairedItem : nat
}.

(** The body of the [try] block for one input item. *)
Definition executeItem (p : Params.t) (w : World) : JS.Completion Output.t :=
  let checkType := Params.checkType p in
  let options := Params.options p in
  let timeout := JS.nullish (Options.timeout options) 10 * 1000 in
  if String.eqb checkType "http" then snd (executeHttpCheck p w timeout)
  else if String.eqb checkType "tcp" then executeTcpCheck p w timeout
  else if String.eqb checkType "dns" then executeDnsCheck p w timeout
  else JS.Throw (JS.NodeOperationError ("Unknown check type: " ++ checkType)).

Fixpoint executeFrom (continueOnFail : bool) (i : nat) (items : list (Params.t * World))
  : JS.Completion (list Item) :=
  match items with
  | [] => JS.Normal []
  | (p, w) :: rest =>
      match executeItem p w with
      | JS.Normal result =>
          await returnData <- executeFrom continueOnFail (S i) rest ;;
          JS.Normal (mkItem (Result result) i :: returnData)
      | JS.Throw error =>
          if continueOnFail then
            await returnData <- executeFrom continueOnFail (S i) rest ;;
            JS.Normal
              (mkItem (Failed (Failure.mk false "error" (JS.message error) (now w))) i
                 :: returnData)
          else JS.Throw error
      end
  end.

(** [async execute()] *)
Definition execute (continueOnFail : bool) (items : list (Params.t * World))
  : JS.Completion (list (list Item)) :=
  await returnData <- executeFrom continueOnFail 0 items ;;
  JS.Normal [returnData].

End ServerCheck.

(** ** The specification's vocabulary

    Definitions that follow the words of the specification; the theorems
    below compare them with the functions translated from the source. *)

Module Spec.

(** "if aggregate indicates reachable, reset consecutiveFailures to 0;
    else increment by 1" *)
Definition counterAfter (reachable : bool) (consecutiveFailures : Z) : Z :=
  if reachable then 0 else consecutiveFailures + 1.

(** "debouncedStatus = (consecutiveFailures < failureThreshold) AND
    reachable_this_cycle" *)
Definition debouncedStatus (consecutiveFailures failureThreshold : Z)
           (reachable : bool) : bool :=
  (consecutiveFailures <? failureThreshold) && reachable.

(** "packetLossPct = 100 * (attempts - successCount) / attempts" *)
Definition packetLossPct (attempts successCount : Z) : Q :=
  (100 * inject_Z (attempts - successCount) / inject_Z attempts)%Q.

(** "2xx-3xx only" *)
Definition is2xx3xx (statusCode : Z) : Prop := 200 <= statusCode < 400.

(** "statusChange: fires when previousStatus is absent OR when
    previousStatus != currentStatus; reason text distinguishes came
    online / went offline / initial check": what a cycle emits, as
    [triggerReason], [previousStatus] and [newStatus]; [subject] is
    'Host' or 'Server'. *)
Definition statusChange (subject : string) (previous : option bool) (current : bool)
           (emitted : option (string * option string * option string)) : Prop :=
  match previous with
  | None => emitted = Some ("Initial status check", None, None)
  | Some before =>
      if Bool.eqb before current then emitted = None
      else emitted
           = Some (subject ++ (if current then " came online" else " went offline"),
                   Some (Debounce.statusName before),
                   Some (Debounce.statusName current))
  end.

(** The closed enumeration of trigger modes. *)
Definition knownTriggerMode (triggerMode : string) : bool :=
  existsb (String.eqb triggerMode)
          ["statusChange"; "everyPoll"; "onlyOffline"; "onlyOnline"; "highLatency"].

(** The closed enumeration of check types of the server check nodes. *)
Definition knownCheckType (checkType : string) : bool :=
  existsb (String.eqb checkType) ["http"; "tcp"; "dns"].

End Spec.

(** Names for the values a poll cycle of 'Ping Trigger' computes from its
    parameters: the local variables [timeout], [numberOfPings],
    [failureThreshold] and the result of the ping loop. *)

Module PingCycle.
Import PingTrigger.

Definition timeout (p : Params.t) : Z :=
  JS.nullish (Options.timeout (Params.options p)) 10.

Definition numberOfPings (p : Params.t) : Z :=
  JS.nullish (Options.numberOfPings (Params.options p)) 3.

Definition failureThreshold (p : Params.t) : Z :=
  JS.nullish (Options.failureThreshold (Params.options p)) 2.

Definition stats (p : Params.t) (w : World) : Stats :=
  pingLoop w (Params.host p) (timeout p) (numberOfPings p).

(** [isAlive], the raw reachability of the cycle *)
Definition reachable (p : Params.t) (w : World) : bool := isAlive (stats p w).

(** The responses of the attempts of the cycle, in order. *)
Definition responses (p : Params.t) (w : World) : list PingLib.PingResponse :=
  map (probe w (Params.host p) (timeout p)) (PingLib.attempts (numberOfPings p)).

(** The counter the cycle stores, in the specification's words. *)
Definition counter (p : Params.t) (w : World) (sd : StaticData.t) : Z :=
  Spec.counterAfter (reachable p w) (StaticData.readConsecutiveFailures sd).

(** The debounced status of the cycle, in the specification's words. *)
Definition status (p : Params.t) (w : World) (sd : StaticData.t) : bool :=
  Spec.debouncedStatus (counter p w sd) (failureThreshold p) (reachable p w).

(** [outputData] before the [switch] *)
Definition built (p : Params.t) (w : World) (sd : StaticData.t) : Output.t :=
  buildOutput w (Params.host p) (numberOfPings p) (failureThreshold p)
              (JS.nullish (Options.includeRawOutput (Params.options p)) false)
              (stats p w) (counter p w sd) (status p w sd).

(** [shouldTrigger] and [outputData] after the [switch] *)
Definition decision (p : Params.t) (w : World) (sd : StaticData.t) : bool * Output.t :=
  trigger w (Params.triggerMode p) (Params.latencyThreshold p)
          (StaticData.previousStatus sd) (status p w sd) (stats p w) (built p w sd).

(** The item the cycle emits, if any. *)
Definition emitted (p : Params.t) (w : World) (sd : StaticData.t) : option Output.t :=
  if fst (decision p w sd) then Some (snd (decision p w sd)) else None.

(** The fields of an item that the 'statusChange' case sets. *)
Definition change (o : Output.t) : string * option string * option string :=
  (Output.triggerReason o, Output.previousStatus o, Output.newStatus o).

End PingCycle.

(** The same for 'Server Check Trigger'. *)

Module ServerCycle.
Import ServerCheckTrigger.

Definition timeout (p : Params.t) : Z :=
  JS.nullish (Options.timeout (Params.options p)) 10 * 1000.

Definition failureThreshold (p : Params.t) : Z :=
  JS.nullish (Options.failureThreshold (Params.options p)) 2.

(** The cycle carries out its check, on [target], and obtains
    [checkResult]. *)
Definition checked (p : Params.t) (w : Net.World) (target : string)
           (checkResult : CheckResult) : Prop :=
  performCheck p w (timeout p) = JS.Normal (Some (target, checkResult)).

Definition counter (r : CheckResult) (sd : StaticData.t) : Z :=
  Spec.counterAfter (reachable r) (StaticData.readConsecutiveFailures sd).

Definition status (p : Params.t) (r : CheckResult) (sd : StaticData.t) : bool :=
  Spec.debouncedStatus (counter r sd) (failureThreshold p) (reachable r).

(** [outputData] before the [switch] *)
Definition built (p : Params.t) (w : Net.World) (target : string) (r : CheckResult)
           (sd : StaticData.t) : Output.t :=
  buildOutput w (Params.checkType p) target (failureThreshold p) r
              (counter r sd) (status p r sd).

(** [shouldTrigger] and [outputData] after the [switch] *)
Definition decision (p : Params.t) (w : Net.World) (target : string) (r : CheckResult)
           (sd : StaticData.t) : bool * Output.t :=
  trigger w (Params.triggerMode p) (Params.latencyThreshold p)
          (StaticData.previousStatus sd) (status p r sd) r (built p w target r sd).

(** The item the cycle emits, if any. *)
Definition emitted (p : Params.t) (w : Net.World) (target : string) (r : CheckResult)
           (sd : StaticData.t) : option Output.t :=
  if fst (decision p w target r sd) then Some (snd (decision p w target r sd)) else None.

(** The fields of an item that the 'statusChange' case sets. *)
Definition change (o : Output.t) : string * option string * option string :=
  (Output.triggerReason o, Output.previousStatus o, Output.newStatus o).

End ServerCycle.

(** The same for the 'Ping' node. *)

Module PingItem.
Import Ping.

Definition timeout (p : Params.t) : Z :=
  JS.nullish (Options.timeout (Params.options p)) 10.

Definition numberOfPings (p : Params.t) : Z :=
  JS.nullish (Options.numberOfPings (Params.options p)) 1.

Definition stats (p : Params.t) (w : World) : Stats :=
  pingLoop w (Params.host p) (timeout p) (numberOfPings p).

(** The responses of the attempts for the item, in order. *)
Definition responses (p : Params.t) (w : World) : list PingLib.PingResponse :=
  map (probe w (Params.host p) (timeout p)) (PingLib.attempts (numberOfPings p)).

End PingItem.

(** ** Concrete monitors and worlds, used to run the nodes *)

Module Scenario.

(** A reply after 25.3 ms, and no reply. *)
Definition reply : PingLib.PingResponse :=
  PingLib.mkResponse true (Some (253 # 10)) "64 bytes from 93.184.216.34" "93.184.216.34".

Definition slowReply : PingLib.PingResponse :=
  PingLib.mkResponse true (Some (500 # 1)) "64 bytes from 93.184.216.34" "93.184.216.34".

Definition noReply : PingLib.PingResponse :=
  PingLib.mkResponse false None "Request timed out" "".

(** The numeral of a threshold: the thresholds used below are whole
    numbers of milliseconds. *)
Definition printNumber (q : Q) : string :=
  match Qden q with
  | 1%positive => JS.Z_toString (Qnum q)
  | _ => JS.toFixed 3 q
  end.

(** A cycle in which every attempt gets [r]. *)
Definition pingWorld (r : PingLib.PingResponse) : PingTrigger.World :=
  PingTrigger.mkWorld (fun _ _ _ => r) "2024-01-15T10:30:00.000Z" printNumber.

Definition hostUp : PingTrigger.World := pingWorld reply.
Definition hostSlow : PingTrigger.World := pingWorld slowReply.
Definition hostDown : PingTrigger.World := pingWorld noReply.

(** A 'Ping Trigger' on [host] with the given mode and options and the
    default latency threshold of the description. *)
Definition pingMonitor (host triggerMode : string) (options : PingTrigger.Options.t)
  : PingTrigger.Params.t :=
  PingTrigger.Params.mk host triggerMode (100 # 1) options.

Definition threshold (k : Z) : PingTrigger.Options.t :=
  PingTrigger.Options.mk None None (Some k) None.

(** An input item of the 'Ping' node for which every attempt gets [r]. *)
Definition pingItemWorld (r : PingLib.PingResponse) : Ping.World :=
  Ping.mkWorld (fun _ _ _ => r) "2024-01-15T10:30:00.000Z".

Definition pingItem (host : string) (numberOfPings : Z) : Ping.Params.t :=
  Ping.Params.mk host (Ping.Options.mk None (Some numberOfPings) None).

(** The static data left by a cycle that found the host online. *)
Definition online : StaticData.t := StaticData.mk (Some true) (Some 0).

(** The static data after three failed cycles. *)
Definition failedThrice : StaticData.t := StaticData.mk (Some false) (Some 3).

(** [new URL('https://example.com')] *)
Definition exampleURL : Net.URL.t := Net.URL.mk "https:" "example.com" "" "/" "".

(** A network on which every request gets [http], every connection
    [tcp] and every lookup [dns]; URLs parse unless empty. *)
Definition network (http : Net.HttpOutcome) (tcp : Net.TcpOutcome) (dns : Net.DnsOutcome)
  : Net.World :=
  Net.mkWorld
    (fun url => if String.eqb url "" then None else Some exampleURL)
    (fun _ => http) (fun _ _ _ => tcp) (fun _ _ => dns)
    "2024-01-15T10:30:00.000Z" printNumber.

Definition serverUp : Net.World :=
  network (Net.HttpResponse (Some 200) "OK" 145) (Net.TcpConnect 23)
          (Net.DnsAddress "93.184.216.34" 4 12).

Definition serverSlow : Net.World :=
  network (Net.HttpResponse (Some 200) "OK" 2500) (Net.TcpConnect 2500)
          (Net.DnsAddress "93.184.216.34" 4 2500).

Definition serverError : Net.World :=
  network (Net.HttpResponse (Some 500) "Internal Server Error" 80) (Net.TcpConnect 23)
          (Net.DnsAddress "93.184.216.34" 4 12).

Definition serverDown : Net.World :=
  network Net.HttpTimeout (Net.TcpTimeout 10000) Net.DnsTimer.

(** A 'Server Check Trigger' of the given check type and mode, with
    the default latency threshold of the description. *)
Definition serverMonitor (checkType triggerMode : string)
           (options : ServerCheckTrigger.Options.t) : ServerCheckTrigger.Params.t :=
  ServerCheckTrigger.Params.mk checkType triggerMode "https://example.com" "GET"
                               "vpn.example.com" 443 "example.com" (1000 # 1) options.

Definition serverThreshold (k : Z) : ServerCheckTrigger.Options.t :=
  ServerCheckTrigger.Options.mk None (Some k).

Definition httpUp : ServerCheckTrigger.CheckResult :=
  ServerCheckTrigger.mkResult true 145 None (Some 200) None.

Definition httpDown : ServerCheckTrigger.CheckResult :=
  ServerCheckTrigger.mkResult false 10000 (Some "Connection timeout") None None.

(** An input item of the 'Server Check' node. *)
Definition serverCheck (checkType url : string) (acceptAnyStatus : option bool)
  : ServerCheck.Params.t :=
  ServerCheck.Params.mk checkType url "GET" acceptAnyStatus "vpn.example.com" 443
                        "example.com" ServerCheck.Options.default.

(** A 'Server Check Trigger' and a 'Server Check' item whose target
    parameters are all left at their default, the empty string. *)
Definition blankMonitor (checkType : string) : ServerCheckTrigger.Params.t :=
  ServerCheckTrigger.Params.mk checkType "everyPoll" "" "GET" "" 443 "" (1000 # 1)
                               ServerCheckTrigger.Options.default.

Definition blankCheck (checkType : string) : ServerCheck.Params.t :=
  ServerCheck.Params.mk checkType "" "GET" None "" 443 "" ServerCheck.Options.default.

(** Options that the specification calls invalid: timeout 0, no ping,
    failure threshold 0. *)
Definition invalidOptions : PingTrigger.Options.t :=
  PingTrigger.Options.mk (Some 0) (Some 0) (Some 0) None.

(** The network as it is for an empty target of a trigger check: the
    URL constructor refuses the empty URL, a connection to the empty host
    gets no answer, and [dns.lookup] of the empty name calls back at once,
    without error and without an address ([null], which stands here as the
    empty string: the node reads it only through [if (checkResult.resolvedIp)]). *)
Definition blankTargets : Net.World :=
  network Net.HttpTimeout (Net.TcpTimeout 10000) (Net.DnsAddress "" 4 0).

(** A host that answers the first two pings of a cycle and no later one,
    for 'Ping Trigger' and for 'Ping'. *)
Definition flakyReplies (attempt : nat) : PingLib.PingResponse :=
  match attempt with
  | 0%nat | 1%nat => reply
  | _ => noReply
  end.

Definition hostFlaky : PingTrigger.World :=
  PingTrigger.mkWorld (fun _ _ => flakyReplies) "2024-01-15T10:30:00.000Z" printNumber.

Definition flakyItemWorld : Ping.World :=
  Ping.mkWorld (fun _ _ => flakyReplies) "2024-01-15T10:30:00.000Z".

(** A reply whose [time] does not parse as a number. *)
Definition untimedReply : PingLib.PingResponse :=
  PingLib.mkResponse true None "64 bytes from 93.184.216.34" "93.184.216.34".

(** The reasons of a run of cycles, [None] where nothing was emitted. *)
Definition pingReasons (outs : list (option PingTrigger.Output.t)) : list (option string) :=
  map (option_map PingTrigger.Output.triggerReason) outs.

Definition pingStatuses (outs : list (option PingTrigger.Output.t)) : list (option string) :=
  map (option_map PingTrigger.Output.status) outs.

Definition serverReasons (outs : list (option ServerCheckTrigger.Output.t))
  : list (option string) :=
  map (option_map ServerCheckTrigger.Output.triggerReason) outs.

End Scenario.

(** ** The invariant of the ping loops *)

Module Aggregate.

(** What the loop variables [successCount], [totalTime], [minTime] and
    [maxTime] satisfy after any number of iterations: without an answered
    attempt [minTime] is still [Infinity] and [totalTime] is 0; with one,
    [minTime] is finite and [minTime * successCount <= totalTime <=
    maxTime * successCount]. *)
Definition bounded (successCount : Z) (totalTime : Q) (minTime : JS.number) (maxTime : Q)
  : Prop :=
  0 <= successCount
  /\ (totalTime <= maxTime * inject_Z successCount)%Q
  /\ match minTime with
     | JS.PosInfinity => successCount = 0 /\ (totalTime == 0)%Q
     | JS.Fin m => 0 < successCount /\ (m * inject_Z successCount <= totalTime)%Q
     | _ => False
     end.

(** The readings of the answered attempts among [results], in order: the
    values that the loop body gives to [time]. *)
Definition readings (results : list PingLib.PingResponse) : list Q :=
  map PingLib.parsedTime (filter PingLib.alive results).

(** What [minTime] and [maxTime] are after the loop has seen the readings
    [times]: [minTime] is [Infinity] when there is none and else one of
    them, below all of them; [maxTime] is 0 or one of them, and above all
    of them.  Only comparisons are involved, no arithmetic. *)
Definition extremes (times : list Q) (minTime : JS.number) (maxTime : Q) : Prop :=
  match minTime with
  | JS.PosInfinity => times = []
  | JS.Fin m => In m times /\ forall t, In t times -> (m <= t)%Q
  | _ => False
  end
  /\ (maxTime = 0%Q \/ In maxTime times)
  /\ (0 <= maxTime)%Q
  /\ forall t, In t times -> (t <= maxTime)%Q.

End Aggregate.

(** ** The items of a run of [execute], one by one *)

Module Batch.

(** [f] applied to the elements of [l] with their indices, from [i] on. *)
Fixpoint indexed {A B : Type} (f : nat -> A -> B) (i : nat) (l : list A) : list B :=
  match l with
  | [] => []
  | a :: rest => f i a :: indexed f (S i) rest
  end.

(** The error of the first element on which [run] throws, if any. *)
Fixpoint firstError {A B : Type} (run : A -> JS.Completion B) (l : list A)
  : option JS.Error :=
  match l with
  | [] => None
  | a :: rest =>
      match run a with
      | JS.Throw e => Some e
      | JS.Normal _ => firstError run rest
      end
  end.

(** What the 'Ping' node returns for the input item [i] when it does not
    give up: the result, or the record of the [catch] block. *)
Definition pingRecord (i : nat) (item : Ping.Params.t * Ping.World) : Ping.Item :=
  Ping.mkItem
    match Ping.executeItem (fst item) (snd item) with
    | JS.Normal outputData => Ping.Result outputData
    | JS.Throw error =>
        Ping.Failed (Ping.Failure.mk (Ping.Params.host (fst item)) false "error"
                                     (JS.message error) (Ping.now (snd item)))
    end
    i.

(** The same for the 'Server Check' node. *)
Definition serverRecord (i : nat) (item : ServerCheck.Params.t * Net.World)
  : ServerCheck.Item :=
  ServerCheck.mkItem
    match ServerCheck.executeItem (fst item) (snd item) with
    | JS.Normal result => ServerCheck.Result result
    | JS.Throw error =>
        ServerCheck.Failed (ServerCheck.Failure.mk false "error" (JS.message error)
                                                   (Net.now (snd item)))
    end
    i.

End Batch.

(** ** The aggregation in double precision

    The ping loop of 'Ping Trigger' ([poll], from [let successCount = 0]
    to [const packetLoss]) and of 'Ping' once more, this time on IEEE
    doubles, as JavaScript computes it: [numberOfPings] is any number, the
    loop variable [i] is a number that is incremented while it is below
    [numberOfPings], and sums, quotient and product are rounded.  The
    loop is run with fuel; [None] means that the fuel did not suffice. *)

Module Double.
Import PrimFloat.
Local Open Scope float_scope.

(** What the loop reads of a [PingResponse]: [alive], and
    [parseFloat(result.time)], which is [NaN] when it does not parse. *)
Record Reply : Type := mkReply {
  alive : bool;
  time : float
}.

Record Stats : Type := mkStats {
  successCount : float;
  totalTime : float;
  minTime : float;
  maxTime : float
}.

Definition initialStats : Stats := mkStats 0 0 infinity 0.

(** [x || 0]: [NaN], [0] and [-0] are falsy. *)
Definition orZero (x : float) : float :=
  if is_nan x || (x =? 0) then 0 else x.

(** One iteration of the loop body. *)
Definition pingStep (s : Stats) (result : Reply) : Stats :=
  if alive result then
    let time := orZero (time result) in
    mkStats (successCount s + 1)
            (totalTime s + time)
            (if time <? minTime s then time else minTime s)
            (if maxTime s <? time then time else maxTime s)
  else s.

(** [for (let i = 0; i < numberOfPings; i++) { ... }], from the value [i]
    of the loop variable and the attempt number [k] on. *)
Fixpoint pingLoopFrom (fuel : nat) (probe : nat -> Reply) (numberOfPings i : float)
         (k : nat) (s : Stats) : option Stats :=
  if i <? numberOfPings then
    match fuel with
    | O => None
    | S fuel' =>
        pingLoopFrom fuel' probe numberOfPings (i + 1) (S k) (pingStep s (probe k))
    end
  else Some s.

Definition pingLoop (fuel : nat) (probe : nat -> Reply) (numberOfPings : float)
  : option Stats :=
  pingLoopFrom fuel probe numberOfPings 0 0%nat initialStats.

(** [successCount > 0 ? totalTime / successCount : 0] *)
Definition avgTime (s : Stats) : float :=
  if 0 <? successCount s then totalTime s / successCount s else 0.

(** [((numberOfPings - successCount) / numberOfPings) * 100] *)
Definition packetLoss (numberOfPings : float) (s : Stats) : float :=
  ((numberOfPings - successCount s) / numberOfPings) * 100.

(** The expression of the specification,
    [100 * (attempts - successCount) / attempts], in doubles. *)
Definition packetLossPct (attempts successCount : float) : float :=
  100 * (attempts - successCount) / attempts.





End Double.

(** * Properties *)

(** ** The debounce step *)

Lemma newConsecutiveFailures_spec (reachable : bool) (c : Z) :
  Debounce.newConsecutiveFailures reachable c = Spec.counterAfter reachable c.
Proof. destruct reachable; reflexivity. Qed.

Lemma currentStatus_spec (n k : Z) (reachable : bool) :
  Debounce.currentStatus n k reachable = Spec.debouncedStatus n k reachable.
Proof.
  unfold Debounce.currentStatus, Debounce.isOffline, Spec.debouncedStatus.
  f_equal. destruct (Z.leb_spec k n), (Z.ltb_spec n k); simpl; trivial; lia.
Qed.

Lemma counterAfter_nonneg (reachable : bool) (c : Z) :
  0 <= c -> 0 <= Spec.counterAfter reachable c.
Proof. destruct reachable; simpl; lia. Qed.

(** After a reachable cycle the counter is 0, below every threshold of at
    least 1; after an unreachable one the conjunction is false. *)
Lemma debouncedStatus_collapses (reachable : bool) (c k : Z) :
  1 <= k ->
  Spec.debouncedStatus (Spec.counterAfter reachable c) k reachable = reachable.
Proof.
  intros Hk. unfold Spec.debouncedStatus.
  destruct reachable; simpl; [|apply andb_false_r].
  destruct (Z.ltb_spec 0 k); trivial; lia.
Qed.

(** A threshold below 1 keeps the status false whatever the cycle saw,
    as long as the counter is not negative. *)
Lemma debouncedStatus_threshold_below_one (reachable : bool) (c k : Z) :
  k <= 0 -> 0 <= c ->
  Spec.debouncedStatus (Spec.counterAfter reachable c) k reachable = false.
Proof.
  intros Hk Hc. unfold Spec.debouncedStatus.
  pose proof (counterAfter_nonneg reachable c Hc).
  destruct (Z.ltb_spec (Spec.counterAfter reachable c) k); simpl; trivial; lia.
Qed.

(** ** One poll cycle, unfolded *)

Lemma PingTrigger_poll_unfold (p : PingTrigger.Params.t) (w : PingTrigger.World)
      (sd : StaticData.t) :
  PingTrigger.poll p w sd =
  JS.Normal (StaticData.mk (Some (PingCycle.status p w sd)) (Some (PingCycle.counter p w sd)),
             PingCycle.emitted p w sd).
Proof.
  unfold PingTrigger.poll, PingCycle.emitted, PingCycle.decision, PingCycle.built,
    PingCycle.status, PingCycle.counter.
  rewrite <- !currentStatus_spec, <- !newConsecutiveFailures_spec.
  unfold PingCycle.reachable, PingCycle.stats, PingCycle.failureThreshold,
    PingCycle.numberOfPings, PingCycle.timeout.
  destruct (PingTrigger.trigger _ _ _ _ _ _ _) as [shouldTrigger outputData]; reflexivity.
Qed.

Lemma ServerCheckTrigger_poll_unfold (p : ServerCheckTrigger.Params.t) (w : Net.World)
      (sd : StaticData.t) (target : string) (r : ServerCheckTrigger.CheckResult) :
  ServerCycle.checked p w target r ->
  ServerCheckTrigger.poll p w sd =
  JS.Normal (StaticData.mk (Some (ServerCycle.status p r sd)) (Some (ServerCycle.counter r sd)),
             ServerCycle.emitted p w target r sd).
Proof.
  unfold ServerCycle.checked, ServerCycle.timeout. intros Hchecked.
  unfold ServerCheckTrigger.poll. rewrite Hchecked. cbn [JS.bind].
  unfold ServerCycle.emitted, ServerCycle.decision, ServerCycle.built,
    ServerCycle.status, ServerCycle.counter.
  rewrite <- !currentStatus_spec, <- !newConsecutiveFailures_spec.
  unfold ServerCycle.failureThreshold.
  destruct (ServerCheckTrigger.trigger _ _ _ _ _ _ _) as [shouldTrigger outputData];
    reflexivity.
Qed.

(** ** The trigger decision *)

(** Case analysis on the chain of string comparisons of a [switch]. *)
Ltac switch_cases :=
  repeat match goal with
         | |- context [String.eqb ?a ?b] => destruct (String.eqb a b)
         | |- context [match ?o with Some _ => _ | None => _ end] => destruct o
         | |- context [if ?b then _ else _] => destruct b
         end.

(** The [switch] touches [triggerReason], [previousStatus], [newStatus]
    and [latencyThreshold] only. *)
Lemma PingTrigger_trigger_keeps (w : PingTrigger.World) (mode : string) (thr : Q)
      (previous : option bool) (current : bool) (s : PingTrigger.Stats)
      (o : PingTrigger.Output.t) :
  let o' := snd (PingTrigger.trigger w mode thr previous current s o) in
  PingTrigger.Output.host o' = PingTrigger.Output.host o
  /\ PingTrigger.Output.alive o' = PingTrigger.Output.alive o
  /\ PingTrigger.Output.status o' = PingTrigger.Output.status o
  /\ PingTrigger.Output.responseTime o' = PingTrigger.Output.responseTime o
  /\ PingTrigger.Output.responseTimeMs o' = PingTrigger.Output.responseTimeMs o
  /\ PingTrigger.Output.packetLoss o' = PingTrigger.Output.packetLoss o
  /\ PingTrigger.Output.packetLossPercent o' = PingTrigger.Output.packetLossPercent o
  /\ PingTrigger.Output.details o' = PingTrigger.Output.details o.
Proof.
  unfold PingTrigger.trigger. switch_cases; cbn; repeat split.
Qed.

Lemma ServerCheckTrigger_trigger_keeps (w : Net.World) (mode : string) (thr : Q)
      (previous : option bool) (current : bool) (r : ServerCheckTrigger.CheckResult)
      (o : ServerCheckTrigger.Output.t) :
  let o' := snd (ServerCheckTrigger.trigger w mode thr previous current r o) in
  ServerCheckTrigger.Output.target o' = ServerCheckTrigger.Output.target o
  /\ ServerCheckTrigger.Output.reachable o' = ServerCheckTrigger.Output.reachable o
  /\ ServerCheckTrigger.Output.status o' = ServerCheckTrigger.Output.status o
  /\ ServerCheckTrigger.Output.responseTimeMs o' = ServerCheckTrigger.Output.responseTimeMs o
  /\ ServerCheckTrigger.Output.details o' = ServerCheckTrigger.Output.details o.
Proof.
  unfold ServerCheckTrigger.trigger. switch_cases; cbn; repeat split.
Qed.

(** A trigger mode outside the enumeration matches no [case]. *)
Lemma PingTrigger_trigger_unknown_mode (w : PingTrigger.World) (mode : string) (thr : Q)
      (previous : option bool) (current : bool) (s : PingTrigger.Stats)
      (o : PingTrigger.Output.t) :
  Spec.knownTriggerMode mode = false ->
  PingTrigger.trigger w mode thr previous current s o = (false, o).
Proof.
  unfold Spec.knownTriggerMode, PingTrigger.trigger. cbn [existsb].
  repeat (destruct (String.eqb mode _); [discriminate|]). reflexivity.
Qed.

Lemma ServerCheckTrigger_trigger_unknown_mode (w : Net.World) (mode : string) (thr : Q)
      (previous : option bool) (current : bool) (r : ServerCheckTrigger.CheckResult)
      (o : ServerCheckTrigger.Output.t) :
  Spec.knownTriggerMode mode = false ->
  ServerCheckTrigger.trigger w mode thr previous current r o = (false, o).
Proof.
  unfold Spec.knownTriggerMode, ServerCheckTrigger.trigger. cbn [existsb].
  repeat (destruct (String.eqb mode _); [discriminate|]). reflexivity.
Qed.

(** What an emitted item of 'Ping Trigger' reports. *)
Lemma PingTrigger_emitted_fields (p : PingTrigger.Params.t) (w : PingTrigger.World)
      (sd : StaticData.t) (o : PingTrigger.Output.t) :
  PingCycle.emitted p w sd = Some o ->
  PingTrigger.Output.alive o = PingCycle.reachable p w
  /\ PingTrigger.Output.status o = Debounce.statusName (PingCycle.status p w sd)
  /\ PingTrigger.Details.consecutiveFailures (PingTrigger.Output.details o)
     = PingCycle.counter p w sd
  /\ PingTrigger.Details.failureThreshold (PingTrigger.Output.details o)
     = PingCycle.failureThreshold p.
Proof.
  unfold PingCycle.emitted. destruct (fst _); [|discriminate].
  intros [= <-]. unfold PingCycle.decision.
  destruct (PingTrigger_trigger_keeps w (PingTrigger.Params.triggerMode p)
              (PingTrigger.Params.latencyThreshold p) (StaticData.previousStatus sd)
              (PingCycle.status p w sd) (PingCycle.stats p w) (PingCycle.built p w sd))
    as (_ & Ha & Hs & _ & _ & _ & _ & Hd).
  rewrite Ha, Hs, Hd. unfold PingCycle.built, PingTrigger.buildOutput.
  destruct (JS.nullish _ _); cbn; repeat split.
Qed.

(** What an emitted item of 'Server Check Trigger' reports. *)
Lemma ServerCheckTrigger_emitted_fields (p : ServerCheckTrigger.Params.t) (w : Net.World)
      (sd : StaticData.t) (target : string) (r : ServerCheckTrigger.CheckResult)
      (o : ServerCheckTrigger.Output.t) :
  ServerCycle.emitted p w target r sd = Some o ->
  ServerCheckTrigger.Output.reachable o = ServerCheckTrigger.reachable r
  /\ ServerCheckTrigger.Output.status o = Debounce.statusName (ServerCycle.status p r sd)
  /\ ServerCheckTrigger.Details.consecutiveFailures (ServerCheckTrigger.Output.details o)
     = ServerCycle.counter r sd
  /\ ServerCheckTrigger.Details.failureThreshold (ServerCheckTrigger.Output.details o)
     = ServerCycle.failureThreshold p.
Proof.
  unfold ServerCycle.emitted. destruct (fst _); [|discriminate].
  intros [= <-]. unfold ServerCycle.decision.
  destruct (ServerCheckTrigger_trigger_keeps w (ServerCheckTrigger.Params.triggerMode p)
              (ServerCheckTrigger.Params.latencyThreshold p) (StaticData.previousStatus sd)
              (ServerCycle.status p r sd) r (ServerCycle.built p w target r sd))
    as (_ & Ha & Hs & _ & Hd).
  rewrite Ha, Hs, Hd. cbn. repeat split.
Qed.

(** ** The counter over successive cycles *)

Lemma PingTrigger_cycles_counter (p : PingTrigger.Params.t) (ws : list PingTrigger.World) :
  forall sd sd' outs,
    PingTrigger.cycles p ws sd = JS.Normal (sd', outs) ->
    0 <= StaticData.readConsecutiveFailures sd ->
    0 <= StaticData.readConsecutiveFailures sd'.
Proof.
  induction ws as [|w ws IH]; intros sd sd' outs; cbn [PingTrigger.cycles].
  - intros [= <- _]; trivial.
  - rewrite PingTrigger_poll_unfold. cbn [JS.bind fst snd].
    destruct (PingTrigger.cycles p ws _) as [[sd1 outs1]|e] eqn:Hrest; [|discriminate].
    cbn [JS.bind fst snd]. intros [= <- _] Hsd.
    apply (IH _ _ _ Hrest). cbn. now apply counterAfter_nonneg.
Qed.

(** The three ways a cycle of 'Server Check Trigger' can go. *)
Lemma ServerCheckTrigger_poll_cases (p : ServerCheckTrigger.Params.t) (w : Net.World)
      (sd : StaticData.t) :
  (exists e, ServerCheckTrigger.poll p w sd = JS.Throw e)
  \/ ServerCheckTrigger.poll p w sd = JS.Normal (sd, None)
  \/ (exists target r, ServerCycle.checked p w target r).
Proof.
  unfold ServerCycle.checked, ServerCycle.timeout, ServerCheckTrigger.poll.
  destruct (ServerCheckTrigger.performCheck p w _) as [[[target r]|]|e].
  - right; right. now exists target, r.
  - right; left. reflexivity.
  - left. now exists e.
Qed.

Lemma ServerCheckTrigger_cycles_counter (p : ServerCheckTrigger.Params.t)
      (ws : list Net.World) :
  forall sd sd' outs,
    ServerCheckTrigger.cycles p ws sd = JS.Normal (sd', outs) ->
    0 <= StaticData.readConsecutiveFailures sd ->
    0 <= StaticData.readConsecutiveFailures sd'.
Proof.
  induction ws as [|w ws IH]; intros sd sd' outs; cbn [ServerCheckTrigger.cycles].
  - intros [= <- _]; trivial.
  - destruct (ServerCheckTrigger_poll_cases p w sd) as [[e He]|[Hnone|(target & r & Hr)]].
    + rewrite He. discriminate.
    + rewrite Hnone. cbn [JS.bind fst snd].
      destruct (ServerCheckTrigger.cycles p ws sd) as [[sd1 outs1]|e] eqn:Hrest;
        [|discriminate].
      cbn [JS.bind fst snd]. intros [= <- _]. apply (IH _ _ _ Hrest).
    + rewrite (ServerCheckTrigger_poll_unfold p w sd target r Hr). cbn [JS.bind fst snd].
      destruct (ServerCheckTrigger.cycles p ws _) as [[sd1 outs1]|e] eqn:Hrest;
        [|discriminate].
      cbn [JS.bind fst snd]. intros [= <- _] Hsd.
      apply (IH _ _ _ Hrest). cbn. now apply counterAfter_nonneg.
Qed.

(** ** C1: the debounce step of a poll cycle *)

(** C1, as stated, fails where the failure threshold is below 1, which
    neither trigger node rejects: with [failureThreshold = 0] a cycle in
    which every ping is answered, after three failed cycles, resets the
    counter to 0 and still stores the debounced status [false]. *)
Lemma C1_counterexample_threshold_zero :
  PingCycle.reachable (Scenario.pingMonitor "example.com" "onlyOnline" (Scenario.threshold 0))
                      Scenario.hostUp = true
  /\ PingTrigger.poll (Scenario.pingMonitor "example.com" "onlyOnline" (Scenario.threshold 0))
                      Scenario.hostUp Scenario.failedThrice
     = JS.Normal (StaticData.mk (Some false) (Some 0), None).
Proof. split; vm_compute; reflexivity. Qed.

(** C1 (amended): for every poll cycle of a trigger node that carries out
    its probe, the stored counter is 0 if the cycle is reachable and the
    old counter plus 1 otherwise; the debounced status, stored as
    [previousStatus] and reported as [status] by an emitted item, is
    [(counter < failureThreshold) AND reachable]; a counter that was not
    negative stays so, and starting from the empty static data it never is;
    and, for a failure threshold of at least 1, a reachable cycle yields
    the debounced status [true] whatever the counter was. *)
Theorem C1_debounce_cycle :
  (forall (p : PingTrigger.Params.t) (w : PingTrigger.World) (sd : StaticData.t),
      let reachable := PingCycle.reachable p w in
      let counter := Spec.counterAfter reachable (StaticData.readConsecutiveFailures sd) in
      let status := Spec.debouncedStatus counter (PingCycle.failureThreshold p) reachable in
      exists out,
        PingTrigger.poll p w sd = JS.Normal (StaticData.mk (Some status) (Some counter), out)
        /\ (forall o, out = Some o ->
              PingTrigger.Output.status o = Debounce.statusName status
              /\ PingTrigger.Details.consecutiveFailures (PingTrigger.Output.details o)
                 = counter)
        /\ (0 <= StaticData.readConsecutiveFailures sd -> 0 <= counter)
        /\ (1 <= PingCycle.failureThreshold p -> reachable = true ->
            status = true /\ counter = 0))
  /\ (forall (p : ServerCheckTrigger.Params.t) (w : Net.World) (sd : StaticData.t)
             (target : string) (r : ServerCheckTrigger.CheckResult),
         ServerCycle.checked p w target r ->
         let reachable := ServerCheckTrigger.reachable r in
         let counter := Spec.counterAfter reachable (StaticData.readConsecutiveFailures sd) in
         let status := Spec.debouncedStatus counter (ServerCycle.failureThreshold p) reachable in
         exists out,
           ServerCheckTrigger.poll p w sd
           = JS.Normal (StaticData.mk (Some status) (Some counter), out)
           /\ (forall o, out = Some o ->
                 ServerCheckTrigger.Output.status o = Debounce.statusName status
                 /\ ServerCheckTrigger.Details.consecutiveFailures
                      (ServerCheckTrigger.Output.details o) = counter)
           /\ (0 <= StaticData.readConsecutiveFailures sd -> 0 <= counter)
           /\ (1 <= ServerCycle.failureThreshold p -> reachable = true ->
               status = true /\ counter = 0))
  /\ (forall (p : PingTrigger.Params.t) (ws : list PingTrigger.World) sd outs,
         PingTrigger.cycles p ws StaticData.empty = JS.Normal (sd, outs) ->
         0 <= StaticData.readConsecutiveFailures sd)
  /\ (forall (p : ServerCheckTrigger.Params.t) (ws : list Net.World) sd outs,
         ServerCheckTrigger.cycles p ws StaticData.empty = JS.Normal (sd, outs) ->
         0 <= StaticData.readConsecutiveFailures sd).
Proof.
  split; [|split; [|split]].
  - intros p w sd reachable counter status.
    exists (PingCycle.emitted p w sd). split; [apply PingTrigger_poll_unfold|].
    split; [|split].
    + intros o Ho. destruct (PingTrigger_emitted_fields p w sd o Ho) as (_ & Hs & Hc & _).
      now split.
    + apply counterAfter_nonneg.
    + intros Hk Hr. subst status counter. rewrite debouncedStatus_collapses by trivial.
      split; [trivial|]. now rewrite Hr.
  - intros p w sd target r Hr reachable counter status.
    exists (ServerCycle.emitted p w target r sd).
    split; [now apply ServerCheckTrigger_poll_unfold|]. split; [|split].
    + intros o Ho.
      destruct (ServerCheckTrigger_emitted_fields p w sd target r o Ho) as (_ & Hs & Hc & _).
      now split.
    + apply counterAfter_nonneg.
    + intros Hk Hreach. subst status counter.
      rewrite debouncedStatus_collapses by trivial. split; [trivial|]. now rewrite Hreach.
  - intros p ws sd outs Hrun.
    apply (PingTrigger_cycles_counter p ws _ _ _ Hrun). cbn. lia.
  - intros p ws sd outs Hrun.
    apply (ServerCheckTrigger_cycles_counter p ws _ _ _ Hrun). cbn. lia.
Qed.

(** The amended C1 at work: with the default threshold 2, an answered
    cycle after three failed ones stores status [true] and counter 0 and
    emits an item that says so, for both nodes, and a run of four cycles
    from the empty static data ends with a counter that is not negative. *)
Lemma C1_debounce_cycle_witness :
  (exists o,
      PingTrigger.poll (Scenario.pingMonitor "example.com" "statusChange" (Scenario.threshold 2))
                       Scenario.hostUp Scenario.failedThrice
      = JS.Normal (StaticData.mk (Some true) (Some 0), Some o)
      /\ PingTrigger.Output.status o = "online"
      /\ PingTrigger.Details.consecutiveFailures (PingTrigger.Output.details o) = 0)
  /\ (exists o,
         ServerCheckTrigger.poll
           (Scenario.serverMonitor "http" "statusChange" (Scenario.serverThreshold 2))
           Scenario.serverUp Scenario.failedThrice
         = JS.Normal (StaticData.mk (Some true) (Some 0), Some o)
         /\ ServerCheckTrigger.Output.status o = "online"
         /\ ServerCheckTrigger.Details.consecutiveFailures
              (ServerCheckTrigger.Output.details o) = 0)
  /\ (exists sd outs,
         PingTrigger.cycles
           (Scenario.pingMonitor "example.com" "statusChange" (Scenario.threshold 2))
           [Scenario.hostDown; Scenario.hostDown; Scenario.hostDown; Scenario.hostUp]
           StaticData.empty
         = JS.Normal (sd, outs)
         /\ 0 <= StaticData.readConsecutiveFailures sd)
  /\ (exists sd outs,
         ServerCheckTrigger.cycles
           (Scenario.serverMonitor "http" "statusChange" (Scenario.serverThreshold 2))
           [Scenario.serverDown; Scenario.serverDown; Scenario.serverDown; Scenario.serverUp]
           StaticData.empty
         = JS.Normal (sd, outs)
         /\ 0 <= StaticData.readConsecutiveFailures sd).
Proof.
  split; [|split; [|split]].
  - destruct (proj1 C1_debounce_cycle
                (Scenario.pingMonitor "example.com" "statusChange" (Scenario.threshold 2))
                Scenario.hostUp Scenario.failedThrice)
      as (out & Hpoll & Hfields & Hnonneg & Hone).
    destruct Hone as [Hstatus Hcounter]; [vm_compute; discriminate | reflexivity |].
    pose proof (Hnonneg ltac:(vm_compute; discriminate)) as Hge.
    destruct out as [o|]; [|vm_compute in Hpoll; discriminate].
    destruct (Hfields o eq_refl) as [Hs Hc].
    exists o. rewrite Hpoll, Hs, Hc, Hstatus, Hcounter. repeat split.
  - destruct (proj1 (proj2 C1_debounce_cycle)
                (Scenario.serverMonitor "http" "statusChange" (Scenario.serverThreshold 2))
                Scenario.serverUp Scenario.failedThrice
                "https://example.com" Scenario.httpUp eq_refl)
      as (out & Hpoll & Hfields & Hnonneg & Hone).
    destruct Hone as [Hstatus Hcounter]; [vm_compute; discriminate | reflexivity |].
    pose proof (Hnonneg ltac:(vm_compute; discriminate)) as Hge.
    destruct out as [o|]; [|vm_compute in Hpoll; discriminate].
    destruct (Hfields o eq_refl) as [Hs Hc].
    exists o. rewrite Hpoll, Hs, Hc, Hstatus, Hcounter. repeat split.
  - eexists _, _.
    assert (Hrun : PingTrigger.cycles
                     (Scenario.pingMonitor "example.com" "statusChange" (Scenario.threshold 2))
                     [Scenario.hostDown; Scenario.hostDown; Scenario.hostDown; Scenario.hostUp]
                     StaticData.empty
                   = JS.Normal (?[sd], ?[outs])) by (vm_compute; reflexivity).
    split; [exact Hrun|].
    exact (proj1 (proj2 (proj2 C1_debounce_cycle)) _ _ _ _ Hrun).
  - eexists _, _.
    assert (Hrun : ServerCheckTrigger.cycles
                     (Scenario.serverMonitor "http" "statusChange"
                                             (Scenario.serverThreshold 2))
                     [Scenario.serverDown; Scenario.serverDown; Scenario.serverDown;
                      Scenario.serverUp]
                     StaticData.empty
                   = JS.Normal (?[sd], ?[outs])) by (vm_compute; reflexivity).
    split; [exact Hrun|].
    exact (proj2 (proj2 (proj2 C1_debounce_cycle)) _ _ _ _ Hrun).
Defined.

(** ** C2: the failure threshold and the first failed cycle *)

(** C2 at its own scenario, on the code: failure threshold 2, mode
    'statusChange', a host that was online, three failed cycles and then
    an answered one.  The first failed cycle already stores and reports
    the status offline, with one failure counted, and fires 'went
    offline'; the second and third fire nothing; the fourth resets the
    counter and fires 'came online'.  The specification has the status
    still online in the first cycle and 'went offline' fired by the
    second.  The same holds for 'Server Check Trigger'. *)
Theorem C2_first_failed_cycle_reports_offline :
  (exists o,
      PingTrigger.poll (Scenario.pingMonitor "example.com" "statusChange" (Scenario.threshold 2))
                       Scenario.hostDown Scenario.online
      = JS.Normal (StaticData.mk (Some false) (Some 1), Some o)
      /\ PingTrigger.Output.status o = "offline"
      /\ PingTrigger.Output.triggerReason o = "Host went offline")
  /\ (exists sd outs,
         PingTrigger.cycles
           (Scenario.pingMonitor "example.com" "statusChange" (Scenario.threshold 2))
           [Scenario.hostDown; Scenario.hostDown; Scenario.hostDown; Scenario.hostUp]
           Scenario.online
         = JS.Normal (sd, outs)
         /\ sd = StaticData.mk (Some true) (Some 0)
         /\ Scenario.pingReasons outs
            = [Some "Host went offline"; None; None; Some "Host came online"])
  /\ (exists sd outs,
         ServerCheckTrigger.cycles
           (Scenario.serverMonitor "http" "statusChange" (Scenario.serverThreshold 2))
           [Scenario.serverDown; Scenario.serverDown; Scenario.serverDown; Scenario.serverUp]
           Scenario.online
         = JS.Normal (sd, outs)
         /\ sd = StaticData.mk (Some true) (Some 0)
         /\ Scenario.serverReasons outs
            = [Some "Server went offline"; None; None; Some "Server came online"]).
Proof.
  split; [|split].
  - eexists. split; [vm_compute; reflexivity|]. split; reflexivity.
  - eexists _, _. split; [vm_compute; reflexivity|]. split; reflexivity.
  - eexists _, _. split; [vm_compute; reflexivity|]. split; reflexivity.
Qed.

(** ** C3: the debounced status is the raw reachability *)

(** C3: for every failure threshold of at least 1, every persisted state
    and every outcome of the probe, the debounced status that a poll cycle
    computes (and stores as [previousStatus], and reports as [status]) is
    the raw reachability of the cycle ([successCount > 0], respectively
    [checkResult.reachable]); the threshold has no influence on it. *)
Theorem C3_status_is_raw_reachability :
  (forall (p : PingTrigger.Params.t) (w : PingTrigger.World) (sd : StaticData.t),
      1 <= PingCycle.failureThreshold p ->
      exists counter out,
        PingTrigger.poll p w sd
        = JS.Normal (StaticData.mk (Some (PingCycle.reachable p w)) (Some counter), out)
        /\ forall o, out = Some o ->
             PingTrigger.Output.status o = Debounce.statusName (PingCycle.reachable p w)
             /\ PingTrigger.Output.alive o = PingCycle.reachable p w)
  /\ (forall (p : ServerCheckTrigger.Params.t) (w : Net.World) (sd : StaticData.t)
             (target : string) (r : ServerCheckTrigger.CheckResult),
         1 <= ServerCycle.failureThreshold p ->
         ServerCycle.checked p w target r ->
         exists counter out,
           ServerCheckTrigger.poll p w sd
           = JS.Normal (StaticData.mk (Some (ServerCheckTrigger.reachable r)) (Some counter),
                        out)
           /\ forall o, out = Some o ->
                ServerCheckTrigger.Output.status o
                = Debounce.statusName (ServerCheckTrigger.reachable r)
                /\ ServerCheckTrigger.Output.reachable o = ServerCheckTrigger.reachable r).
Proof.
  split.
  - intros p w sd Hk.
    exists (PingCycle.counter p w sd), (PingCycle.emitted p w sd).
    assert (Hstatus : PingCycle.status p w sd = PingCycle.reachable p w)
      by now apply debouncedStatus_collapses.
    rewrite PingTrigger_poll_unfold, Hstatus. split; [reflexivity|].
    intros o Ho. destruct (PingTrigger_emitted_fields p w sd o Ho) as (Ha & Hs & _).
    rewrite Hs, Hstatus. now split.
  - intros p w sd target r Hk Hr.
    exists (ServerCycle.counter r sd), (ServerCycle.emitted p w target r sd).
    assert (Hstatus : ServerCycle.status p r sd = ServerCheckTrigger.reachable r)
      by now apply debouncedStatus_collapses.
    rewrite (ServerCheckTrigger_poll_unfold p w sd target r Hr), Hstatus.
    split; [reflexivity|].
    intros o Ho.
    destruct (ServerCheckTrigger_emitted_fields p w sd target r o Ho) as (Ha & Hs & _).
    rewrite Hs, Hstatus. now split.
Qed.

(** C3 at work: with threshold 5 and no failure counted so far, a failed
    cycle stores the status [false] at once, for both nodes. *)
Lemma C3_status_is_raw_reachability_witness :
  (exists counter out,
      PingTrigger.poll (Scenario.pingMonitor "example.com" "everyPoll" (Scenario.threshold 5))
                       Scenario.hostDown Scenario.online
      = JS.Normal (StaticData.mk (Some false) (Some counter), out))
  /\ (exists counter out,
         ServerCheckTrigger.poll
           (Scenario.serverMonitor "http" "everyPoll" (Scenario.serverThreshold 5))
           Scenario.serverDown Scenario.online
         = JS.Normal (StaticData.mk (Some false) (Some counter), out)).
Proof.
  split.
  - destruct (proj1 C3_status_is_raw_reachability
                (Scenario.pingMonitor "example.com" "everyPoll" (Scenario.threshold 5))
                Scenario.hostDown Scenario.online) as (counter & out & Hpoll & _).
    + vm_compute; discriminate.
    + exists counter, out. exact Hpoll.
  - destruct (proj2 C3_status_is_raw_reachability
                (Scenario.serverMonitor "http" "everyPoll" (Scenario.serverThreshold 5))
                Scenario.serverDown Scenario.online
                "https://example.com" Scenario.httpDown) as (counter & out & Hpoll & _).
    + vm_compute; discriminate.
    + reflexivity.
    + exists counter, out. exact Hpoll.
Defined.

(** ** The ping loop *)

Lemma aliveCount_bounds (results : list PingLib.PingResponse) :
  0 <= PingLib.aliveCount results <= Z.of_nat (length results).
Proof.
  unfold PingLib.aliveCount. pose proof (filter_length_le PingLib.alive results). lia.
Qed.

Lemma aliveCount_cons (r : PingLib.PingResponse) (results : list PingLib.PingResponse) :
  PingLib.aliveCount (r :: results)
  = (if PingLib.alive r then 1 else 0) + PingLib.aliveCount results.
Proof.
  unfold PingLib.aliveCount. cbn [filter]. destruct (PingLib.alive r); cbn [length]; lia.
Qed.

Lemma attempts_length (numberOfPings : Z) :
  Z.of_nat (length (PingLib.attempts numberOfPings)) = Z.max 0 numberOfPings.
Proof. unfold PingLib.attempts. rewrite length_seq. lia. Qed.

Section PingTriggerLoop.
Import PingTrigger.

(** [successCount] counts the answered attempts. *)
Lemma PingTrigger_fold_successCount (results : list PingLib.PingResponse) :
  forall s,
    successCount (fold_left pingStep results s)
    = successCount s + PingLib.aliveCount results.
Proof.
  induction results as [|r results IH]; intros s; cbn [fold_left].
  - unfold PingLib.aliveCount; cbn. lia.
  - rewrite IH, aliveCount_cons. unfold pingStep.
    destruct (PingLib.alive r); cbn [successCount]; lia.
Qed.

(** Without an answered attempt the loop leaves [totalTime], [minTime]
    and [maxTime] as they were. *)
Lemma PingTrigger_fold_no_success (results : list PingLib.PingResponse) :
  forall s,
    PingLib.aliveCount results = 0 ->
    totalTime (fold_left pingStep results s) = totalTime s
    /\ minTime (fold_left pingStep results s) = minTime s
    /\ maxTime (fold_left pingStep results s) = maxTime s.
Proof.
  induction results as [|r results IH]; intros s; cbn [fold_left]; [auto|].
  rewrite aliveCount_cons. pose proof (aliveCount_bounds results) as Hb.
  intros H0. destruct (PingLib.alive r) eqn:Hr; [lia|].
  destruct (IH (pingStep s r)) as (Ht & Hmin & Hmax); [lia|].
  rewrite Ht, Hmin, Hmax. unfold pingStep. rewrite Hr. cbn. auto.
Qed.

Lemma PingTrigger_successCount (p : Params.t) (w : World) :
  successCount (PingCycle.stats p w) = PingLib.aliveCount (PingCycle.responses p w).
Proof.
  unfold PingCycle.stats, pingLoop. rewrite PingTrigger_fold_successCount. reflexivity.
Qed.

Lemma PingTrigger_no_success (p : Params.t) (w : World) :
  successCount (PingCycle.stats p w) = 0 ->
  totalTime (PingCycle.stats p w) = 0%Q
  /\ minTime (PingCycle.stats p w) = JS.PosInfinity
  /\ maxTime (PingCycle.stats p w) = 0%Q.
Proof.
  rewrite PingTrigger_successCount. intros H0.
  apply (PingTrigger_fold_no_success _ initialStats H0).
Qed.

End PingTriggerLoop.

Section PingLoop.
Import Ping.

Lemma Ping_fold_successCount (results : list PingLib.PingResponse) :
  forall s,
    successCount (fold_left pingStep results s)
    = successCount s + PingLib.aliveCount results.
Proof.
  induction results as [|r results IH]; intros s; cbn [fold_left].
  - unfold PingLib.aliveCount; cbn. lia.
  - rewrite IH, aliveCount_cons. unfold pingStep.
    destruct (PingLib.alive r); cbn [successCount]; lia.
Qed.

Lemma Ping_fold_no_success (results : list PingLib.PingResponse) :
  forall s,
    PingLib.aliveCount results = 0 ->
    totalTime (fold_left pingStep results s) = totalTime s
    /\ minTime (fold_left pingStep results s) = minTime s
    /\ maxTime (fold_left pingStep results s) = maxTime s.
Proof.
  induction results as [|r results IH]; intros s; cbn [fold_left]; [auto|].
  rewrite aliveCount_cons. pose proof (aliveCount_bounds results) as Hb.
  intros H0. destruct (PingLib.alive r) eqn:Hr; [lia|].
  destruct (IH (pingStep s r)) as (Ht & Hmin & Hmax); [lia|].
  rewrite Ht, Hmin, Hmax. unfold pingStep. rewrite Hr. cbn. auto.
Qed.

(** [pingResults] collects the responses in order. *)
Lemma Ping_fold_pingResults (results : list PingLib.PingResponse) :
  forall s, pingResults (fold_left pingStep results s) = (pingResults s ++ results)%list.
Proof.
  induction results as [|r results IH]; intros s; cbn [fold_left].
  - now rewrite app_nil_r.
  - rewrite IH. unfold pingStep.
    destruct (PingLib.alive r); cbn [pingResults]; now rewrite <- app_assoc.
Qed.

Lemma Ping_successCount (p : Params.t) (w : World) :
  successCount (PingItem.stats p w) = PingLib.aliveCount (PingItem.responses p w).
Proof.
  unfold PingItem.stats, pingLoop. rewrite Ping_fold_successCount. reflexivity.
Qed.

Lemma Ping_no_success (p : Params.t) (w : World) :
  successCount (PingItem.stats p w) = 0 ->
  totalTime (PingItem.stats p w) = 0%Q
  /\ minTime (PingItem.stats p w) = JS.PosInfinity
  /\ maxTime (PingItem.stats p w) = 0%Q.
Proof.
  rewrite Ping_successCount. intros H0.
  apply (Ping_fold_no_success _ initialStats H0).
Qed.

End PingLoop.

(** ** C4: latency fields when no attempt is answered *)

(** C4, as stated, fails for 'Ping Trigger': when the three pings of a
    cycle all fail, the emitted item carries the average latency in
    [responseTimeMs] as the number 0. *)
Lemma C4_counterexample_responseTimeMs_zero :
  PingTrigger.successCount
    (PingCycle.stats (Scenario.pingMonitor "example.com" "everyPoll" PingTrigger.Options.default)
                     Scenario.hostDown) = 0
  /\ exists sd o,
      PingTrigger.poll (Scenario.pingMonitor "example.com" "everyPoll" PingTrigger.Options.default)
                       Scenario.hostDown StaticData.empty
      = JS.Normal (sd, Some o)
      /\ PingTrigger.Output.responseTimeMs o = 0%Q.
Proof.
  split; [reflexivity|]. eexists _, _. split; [vm_compute; reflexivity|reflexivity].
Qed.

(** C4 (amended): when every attempt of an aggregation fails
    ([successCount = 0]), the formatted latency fields of the output are
    the sentinel 'N/A' (never a formatted 0 or 'Infinity'): for an item
    emitted by 'Ping Trigger' these are [responseTime], [details.minTime]
    and [details.maxTime], for the 'Ping' node [details.averageTime],
    [details.minTime] and [details.maxTime]; the numeric field
    [responseTimeMs] of 'Ping Trigger' is the number 0. *)
Theorem C4_no_success_latency_fields :
  (forall (p : PingTrigger.Params.t) (w : PingTrigger.World) (sd sd' : StaticData.t)
          (o : PingTrigger.Output.t),
      PingTrigger.successCount (PingCycle.stats p w) = 0 ->
      PingTrigger.poll p w sd = JS.Normal (sd', Some o) ->
      PingTrigger.Output.responseTime o = "N/A"
      /\ PingTrigger.Details.minTime (PingTrigger.Output.details o) = "N/A"
      /\ PingTrigger.Details.maxTime (PingTrigger.Output.details o) = "N/A"
      /\ PingTrigger.Output.responseTimeMs o = 0%Q)
  /\ (forall (p : Ping.Params.t) (w : Ping.World) (o : Ping.Output.t) (d : Ping.Details.t),
         Ping.successCount (PingItem.stats p w) = 0 ->
         Ping.executeItem p w = JS.Normal o ->
         Ping.Output.details o = Some d ->
         Ping.Details.averageTime d = "N/A"
         /\ Ping.Details.minTime d = "N/A"
         /\ Ping.Details.maxTime d = "N/A").
Proof.
  split.
  - intros p w sd sd' o H0. rewrite PingTrigger_poll_unfold. intros [= _ Hemit].
    destruct (PingTrigger_no_success p w H0) as (Ht & Hmin & Hmax).
    unfold PingCycle.emitted in Hemit. destruct (fst _); [|discriminate].
    injection Hemit as <-. unfold PingCycle.decision.
    destruct (PingTrigger_trigger_keeps w (PingTrigger.Params.triggerMode p)
                (PingTrigger.Params.latencyThreshold p) (StaticData.previousStatus sd)
                (PingCycle.status p w sd) (PingCycle.stats p w) (PingCycle.built p w sd))
      as (_ & _ & _ & Hrt & Hms & _ & _ & Hd).
    rewrite Hrt, Hms, Hd.
    unfold PingCycle.built, PingTrigger.buildOutput, PingTrigger.avgTime.
    rewrite H0, Hmin, Hmax. destruct (JS.nullish _ _); cbn; repeat split.
  - intros p w o d H0. destruct (Ping_no_success p w H0) as (Ht & Hmin & Hmax).
    unfold Ping.executeItem. destruct (String.eqb _ ""); [discriminate|].
    fold (PingItem.timeout p) (PingItem.numberOfPings p). fold (PingItem.stats p w).
    destruct (last _ None) as [lastResult|]; [|discriminate].
    intros [= <-]. cbn [Ping.Output.details].
    destruct (JS.nullish _ true); [|discriminate].
    intros [= <-]. unfold Ping.avgTime. rewrite H0, Hmin, Hmax. cbn. repeat split.
Qed.

(** The amended C4 at work: three unanswered pings, in a 'Ping Trigger'
    cycle and in a 'Ping' item. *)
Lemma C4_no_success_latency_fields_witness :
  (exists sd' o,
      PingTrigger.poll (Scenario.pingMonitor "example.com" "everyPoll" PingTrigger.Options.default)
                       Scenario.hostDown StaticData.empty
      = JS.Normal (sd', Some o)
      /\ PingTrigger.Output.responseTime o = "N/A")
  /\ (exists o d,
         Ping.executeItem (Scenario.pingItem "example.com" 3)
                          (Scenario.pingItemWorld Scenario.noReply)
         = JS.Normal o
         /\ Ping.Output.details o = Some d
         /\ Ping.Details.averageTime d = "N/A").
Proof.
  split.
  - eexists _, _. split; [vm_compute; reflexivity|].
    refine (proj1 (proj1 C4_no_success_latency_fields
                     (Scenario.pingMonitor "example.com" "everyPoll"
                                           PingTrigger.Options.default)
                     Scenario.hostDown StaticData.empty _ _ _ _));
      [reflexivity | vm_compute; reflexivity].
  - eexists _, _. split; [vm_compute; reflexivity|]. split; [reflexivity|].
    refine (proj1 (proj2 C4_no_success_latency_fields
                     (Scenario.pingItem "example.com" 3)
                     (Scenario.pingItemWorld Scenario.noReply) _ _ _ _ _));
      [reflexivity | vm_compute; reflexivity | reflexivity].
Defined.

(** ** C5: the 'statusChange' mode *)

Lemma PingTrigger_statusChange (p : PingTrigger.Params.t) (w : PingTrigger.World)
      (sd : StaticData.t) :
  PingTrigger.Params.triggerMode p = "statusChange" ->
  Spec.statusChange "Host" (StaticData.previousStatus sd) (PingCycle.status p w sd)
                       (option_map PingCycle.change (PingCycle.emitted p w sd)).
Proof.
  intros Hmode. unfold PingCycle.emitted, PingCycle.decision, PingTrigger.trigger.
  rewrite Hmode. cbn [String.eqb Ascii.eqb Bool.eqb]. unfold Spec.statusChange.
  destruct (StaticData.previousStatus sd) as [before|].
  - destruct (Bool.eqb before (PingCycle.status p w sd)); cbn [negb fst snd option_map].
    + reflexivity.
    + unfold PingCycle.change. cbn.
      destruct (PingCycle.status p w sd); reflexivity.
  - cbn [fst snd option_map]. unfold PingCycle.change, PingCycle.built,
      PingTrigger.buildOutput.
    destruct (JS.nullish _ _); reflexivity.
Qed.

Lemma ServerCheckTrigger_statusChange (p : ServerCheckTrigger.Params.t) (w : Net.World)
      (sd : StaticData.t) (target : string) (r : ServerCheckTrigger.CheckResult) :
  ServerCheckTrigger.Params.triggerMode p = "statusChange" ->
  Spec.statusChange "Server" (StaticData.previousStatus sd) (ServerCycle.status p r sd)
                       (option_map ServerCycle.change
                                   (ServerCycle.emitted p w target r sd)).
Proof.
  intros Hmode. unfold ServerCycle.emitted, ServerCycle.decision, ServerCheckTrigger.trigger.
  rewrite Hmode. cbn [String.eqb Ascii.eqb Bool.eqb]. unfold Spec.statusChange.
  destruct (StaticData.previousStatus sd) as [before|].
  - destruct (Bool.eqb before (ServerCycle.status p r sd)); cbn [negb fst snd option_map].
    + reflexivity.
    + unfold ServerCycle.change. cbn.
      destruct (ServerCycle.status p r sd); reflexivity.
  - reflexivity.
Qed.

(** C5, as stated for every poll cycle, fails for a cycle of 'Server
    Check Trigger' that does not get as far as its check: with the check
    type 'ftp', in 'statusChange' mode and without stored state, [poll]
    leaves through [default: return null]: nothing fires although
    [previousStatus] is absent, and no baseline is stored, so that the
    next cycle finds the static data empty again. *)
Lemma C5_counterexample_unknown_checkType :
  StaticData.previousStatus StaticData.empty = None
  /\ ServerCheckTrigger.poll
       (Scenario.serverMonitor "ftp" "statusChange" (Scenario.serverThreshold 2))
       Scenario.serverUp StaticData.empty
     = JS.Normal (StaticData.empty, None).
Proof. split; reflexivity. Qed.

(** C5 (amended): in 'statusChange' mode a poll cycle that carries out
    its probe (of 'Server Check Trigger': one whose check type is 'http',
    'tcp' or 'dns' and whose check returns a result) fires with reason
    'Initial status check' when [previousStatus] is absent, fires with
    reason 'came online' or 'went offline' when [previousStatus] differs
    from the debounced status of the cycle, and emits nothing when
    [previousStatus] is present and equal to it; hence of two cycles in a
    row with the same stored status the second never fires. *)
Theorem C5_statusChange_fires_on_change_only :
  (forall (p : PingTrigger.Params.t) (w : PingTrigger.World) (sd : StaticData.t),
      PingTrigger.Params.triggerMode p = "statusChange" ->
      exists current counter out,
        PingTrigger.poll p w sd = JS.Normal (StaticData.mk (Some current) (Some counter), out)
        /\ Spec.statusChange "Host" (StaticData.previousStatus sd) current
                             (option_map PingCycle.change out))
  /\ (forall (p : ServerCheckTrigger.Params.t) (w : Net.World) (sd : StaticData.t)
             (target : string) (r : ServerCheckTrigger.CheckResult),
         ServerCheckTrigger.Params.triggerMode p = "statusChange" ->
         ServerCycle.checked p w target r ->
         exists current counter out,
           ServerCheckTrigger.poll p w sd
           = JS.Normal (StaticData.mk (Some current) (Some counter), out)
           /\ Spec.statusChange "Server" (StaticData.previousStatus sd) current
                                (option_map ServerCycle.change out))
  /\ (forall (p : PingTrigger.Params.t) (w1 w2 : PingTrigger.World)
             (sd sd1 sd2 : StaticData.t) out1 out2,
         PingTrigger.Params.triggerMode p = "statusChange" ->
         PingTrigger.poll p w1 sd = JS.Normal (sd1, out1) ->
         PingTrigger.poll p w2 sd1 = JS.Normal (sd2, out2) ->
         StaticData.previousStatus sd2 = StaticData.previousStatus sd1 ->
         out2 = None)
  /\ (forall (p : ServerCheckTrigger.Params.t) (w1 w2 : Net.World)
             (sd sd1 sd2 : StaticData.t) out1 out2,
         ServerCheckTrigger.Params.triggerMode p = "statusChange" ->
         ServerCheckTrigger.poll p w1 sd = JS.Normal (sd1, out1) ->
         ServerCheckTrigger.poll p w2 sd1 = JS.Normal (sd2, out2) ->
         StaticData.previousStatus sd2 = StaticData.previousStatus sd1 ->
         out2 = None).
Proof.
  split; [|split; [|split]].
  - intros p w sd Hmode.
    exists (PingCycle.status p w sd), (PingCycle.counter p w sd), (PingCycle.emitted p w sd).
    split; [apply PingTrigger_poll_unfold | now apply PingTrigger_statusChange].
  - intros p w sd target r Hmode Hr.
    exists (ServerCycle.status p r sd), (ServerCycle.counter r sd),
      (ServerCycle.emitted p w target r sd).
    split; [now apply ServerCheckTrigger_poll_unfold
           | now apply ServerCheckTrigger_statusChange].
  - intros p w1 w2 sd sd1 sd2 out1 out2 Hmode.
    rewrite !PingTrigger_poll_unfold. intros [= <- _] [= <- <-]. cbn. intros [= Hsame].
    pose proof (PingTrigger_statusChange p w2
                  (StaticData.mk (Some (PingCycle.status p w1 sd))
                                 (Some (PingCycle.counter p w1 sd))) Hmode) as Hout.
    cbn [StaticData.previousStatus Spec.statusChange] in Hout.
    rewrite Hsame, Bool.eqb_reflx in Hout.
    destruct (PingCycle.emitted p w2 _); [discriminate|reflexivity].
  - intros p w1 w2 sd sd1 sd2 out1 out2 Hmode _.
    destruct (ServerCheckTrigger_poll_cases p w2 sd1) as [[e He]|[Hnone|(target & r & Hr)]].
    + rewrite He. discriminate.
    + rewrite Hnone. now intros [= _ <-].
    + rewrite (ServerCheckTrigger_poll_unfold p w2 sd1 target r Hr).
      intros [= <- <-]. cbn [StaticData.previousStatus]. intros Hsame.
      pose proof (ServerCheckTrigger_statusChange p w2 sd1 target r Hmode) as Hout.
      rewrite <- Hsame in Hout. cbn [Spec.statusChange] in Hout.
      rewrite Bool.eqb_reflx in Hout.
      destruct (ServerCycle.emitted p w2 target r sd1); [discriminate|reflexivity].
Qed.

(** C5 at work: the first poll of a monitor fires 'Initial status check';
    a second cycle with the same status emits nothing. *)
Lemma C5_statusChange_fires_on_change_only_witness :
  (exists current counter out,
      PingTrigger.poll (Scenario.pingMonitor "example.com" "statusChange" (Scenario.threshold 2))
                       Scenario.hostUp StaticData.empty
      = JS.Normal (StaticData.mk (Some current) (Some counter), out)
      /\ option_map PingCycle.change out = Some ("Initial status check", None, None))
  /\ (exists current counter out,
         ServerCheckTrigger.poll
           (Scenario.serverMonitor "tcp" "statusChange" (Scenario.serverThreshold 2))
           Scenario.serverDown Scenario.online
         = JS.Normal (StaticData.mk (Some current) (Some counter), out)
         /\ option_map ServerCycle.change out
            = Some ("Server went offline", Some "online", Some "offline"))
  /\ PingCycle.emitted (Scenario.pingMonitor "example.com" "statusChange" (Scenario.threshold 2))
                       Scenario.hostUp Scenario.online = None
  /\ ServerCycle.emitted
       (Scenario.serverMonitor "http" "statusChange" (Scenario.serverThreshold 2))
       Scenario.serverUp "https://example.com" Scenario.httpUp Scenario.online = None.
Proof.
  split; [|split; [|split]].
  - destruct (proj1 C5_statusChange_fires_on_change_only
                (Scenario.pingMonitor "example.com" "statusChange" (Scenario.threshold 2))
                Scenario.hostUp StaticData.empty eq_refl)
      as (current & counter & out & Hpoll & Hchange).
    exists current, counter, out. split; [exact Hpoll | exact Hchange].
  - destruct (proj1 (proj2 C5_statusChange_fires_on_change_only)
                (Scenario.serverMonitor "tcp" "statusChange" (Scenario.serverThreshold 2))
                Scenario.serverDown Scenario.online "vpn.example.com:443"
                (ServerCheckTrigger.mkResult false 10000 (Some "Connection timeout") None None)
                eq_refl eq_refl)
      as (current & counter & out & Hpoll & Hchange).
    exists current, counter, out. split; [exact Hpoll|].
    assert (Hcurrent : current = false) by (vm_compute in Hpoll; congruence).
    rewrite Hcurrent in Hchange. exact Hchange.
  - refine (proj1 (proj2 (proj2 C5_statusChange_fires_on_change_only))
              (Scenario.pingMonitor "example.com" "statusChange" (Scenario.threshold 2))
              Scenario.hostUp Scenario.hostUp StaticData.empty Scenario.online Scenario.online
              (PingCycle.emitted
                 (Scenario.pingMonitor "example.com" "statusChange" (Scenario.threshold 2))
                 Scenario.hostUp StaticData.empty)
              _ eq_refl _ _ eq_refl);
      vm_compute; reflexivity.
  - refine (proj2 (proj2 (proj2 C5_statusChange_fires_on_change_only))
              (Scenario.serverMonitor "http" "statusChange" (Scenario.serverThreshold 2))
              Scenario.serverUp Scenario.serverUp StaticData.empty Scenario.online
              Scenario.online
              (ServerCycle.emitted
                 (Scenario.serverMonitor "http" "statusChange" (Scenario.serverThreshold 2))
                 Scenario.serverUp "https://example.com" Scenario.httpUp StaticData.empty)
              _ eq_refl _ _ eq_refl);
      vm_compute; reflexivity.
Defined.

(** ** C6: the 'highLatency' mode *)

Lemma Qltb_lt (x y : Q) : JS.Qltb x y = true <-> (x < y)%Q.
Proof.
  unfold JS.Qltb. rewrite negb_true_iff, <- not_true_iff_false, Qle_bool_iff.
  split; [apply Qnot_le_lt | apply Qlt_not_le].
Qed.

Lemma PingTrigger_highLatency (p : PingTrigger.Params.t) (w : PingTrigger.World)
      (sd : StaticData.t) :
  PingTrigger.Params.triggerMode p = "highLatency" ->
  PingCycle.emitted p w sd <> None
  <-> PingCycle.reachable p w = true
      /\ (PingTrigger.Params.latencyThreshold p < PingTrigger.avgTime (PingCycle.stats p w))%Q.
Proof.
  intros Hmode. unfold PingCycle.emitted, PingCycle.decision, PingTrigger.trigger.
  rewrite Hmode. cbn [String.eqb Ascii.eqb Bool.eqb].
  fold (PingCycle.reachable p w). rewrite <- Qltb_lt, <- andb_true_iff.
  destruct (PingCycle.reachable p w && JS.Qltb _ _); cbn [fst]; split;
    congruence || discriminate.
Qed.

Lemma ServerCheckTrigger_highLatency (p : ServerCheckTrigger.Params.t) (w : Net.World)
      (sd : StaticData.t) (target : string) (r : ServerCheckTrigger.CheckResult) :
  ServerCheckTrigger.Params.triggerMode p = "highLatency" ->
  ServerCycle.emitted p w target r sd <> None
  <-> ServerCheckTrigger.reachable r = true
      /\ (ServerCheckTrigger.Params.latencyThreshold p
          < inject_Z (ServerCheckTrigger.responseTimeMs r))%Q.
Proof.
  intros Hmode. unfold ServerCycle.emitted, ServerCycle.decision, ServerCheckTrigger.trigger.
  rewrite Hmode. cbn [String.eqb Ascii.eqb Bool.eqb].
  rewrite <- Qltb_lt, <- andb_true_iff.
  destruct (ServerCheckTrigger.reachable r && JS.Qltb _ _); cbn [fst]; split;
    congruence || discriminate.
Qed.

(** C6, as stated, fails where the failure threshold is below 1, which
    neither trigger node rejects: with [failureThreshold = 0] the
    debounced status of a cycle is always [false], and an answered cycle
    with an average of 500 ms against a threshold of 100 ms fires all the
    same, in an item whose [status] is 'offline'. *)
Lemma C6_counterexample_fires_with_status_offline :
  exists o,
    PingTrigger.poll (Scenario.pingMonitor "example.com" "highLatency" (Scenario.threshold 0))
                     Scenario.hostSlow Scenario.online
    = JS.Normal (StaticData.mk (Some false) (Some 0), Some o)
    /\ PingTrigger.Output.status o = "offline"
    /\ PingTrigger.Output.triggerReason o
       = "High latency detected (500.00ms > 100ms threshold)".
Proof. eexists. split; [vm_compute; reflexivity|]. split; reflexivity. Qed.

(** C6 (amended): in 'highLatency' mode a poll cycle (of 'Server Check
    Trigger': one that carries out its check) fires if and only if the
    cycle is reachable ([successCount > 0], respectively
    [checkResult.reachable]) and the measured latency strictly exceeds
    [latencyThreshold]; for a failure threshold of at least 1 that is: if
    and only if the debounced status of the cycle is [true] and the
    latency strictly exceeds the threshold, so that no cycle with
    debounced status [false] fires. *)
Theorem C6_highLatency_fires_iff_reachable_and_slow :
  (forall (p : PingTrigger.Params.t) (w : PingTrigger.World) (sd : StaticData.t),
      PingTrigger.Params.triggerMode p = "highLatency" ->
      let latency := PingTrigger.avgTime (PingCycle.stats p w) in
      let threshold := PingTrigger.Params.latencyThreshold p in
      exists current counter out,
        PingTrigger.poll p w sd = JS.Normal (StaticData.mk (Some current) (Some counter), out)
        /\ (out <> None <-> PingCycle.reachable p w = true /\ (threshold < latency)%Q)
        /\ (1 <= PingCycle.failureThreshold p ->
            (out <> None <-> current = true /\ (threshold < latency)%Q)
            /\ (current = false -> out = None)))
  /\ (forall (p : ServerCheckTrigger.Params.t) (w : Net.World) (sd : StaticData.t)
             (target : string) (r : ServerCheckTrigger.CheckResult),
         ServerCheckTrigger.Params.triggerMode p = "highLatency" ->
         ServerCycle.checked p w target r ->
         let latency := inject_Z (ServerCheckTrigger.responseTimeMs r) in
         let threshold := ServerCheckTrigger.Params.latencyThreshold p in
         exists current counter out,
           ServerCheckTrigger.poll p w sd
           = JS.Normal (StaticData.mk (Some current) (Some counter), out)
           /\ (out <> None
               <-> ServerCheckTrigger.reachable r = true /\ (threshold < latency)%Q)
           /\ (1 <= ServerCycle.failureThreshold p ->
               (out <> None <-> current = true /\ (threshold < latency)%Q)
               /\ (current = false -> out = None))).
Proof.
  split.
  - intros p w sd Hmode latency threshold.
    exists (PingCycle.status p w sd), (PingCycle.counter p w sd), (PingCycle.emitted p w sd).
    pose proof (PingTrigger_highLatency p w sd Hmode) as Hfire.
    split; [apply PingTrigger_poll_unfold|]. split; [exact Hfire|].
    intros Hk.
    assert (Hstatus : PingCycle.status p w sd = PingCycle.reachable p w)
      by now apply debouncedStatus_collapses.
    rewrite Hstatus. split; [exact Hfire|].
    intros Hdown. destruct (PingCycle.emitted p w sd) eqn:Hout; [|reflexivity].
    destruct (proj1 Hfire) as [Hup _]; congruence.
  - intros p w sd target r Hmode Hr latency threshold.
    exists (ServerCycle.status p r sd), (ServerCycle.counter r sd),
      (ServerCycle.emitted p w target r sd).
    pose proof (ServerCheckTrigger_highLatency p w sd target r Hmode) as Hfire.
    split; [now apply ServerCheckTrigger_poll_unfold|]. split; [exact Hfire|].
    intros Hk.
    assert (Hstatus : ServerCycle.status p r sd = ServerCheckTrigger.reachable r)
      by now apply debouncedStatus_collapses.
    rewrite Hstatus. split; [exact Hfire|].
    intros Hdown. destruct (ServerCycle.emitted p w target r sd) eqn:Hout; [|reflexivity].
    destruct (proj1 Hfire) as [Hup _]; congruence.
Qed.

(** The amended C6 at work, with the default failure threshold 2: a host
    that answers after 500 ms fires against the threshold of 100 ms, and a
    server that does not answer emits nothing. *)
Lemma C6_highLatency_fires_iff_reachable_and_slow_witness :
  (exists sd out,
      PingTrigger.poll (Scenario.pingMonitor "example.com" "highLatency" (Scenario.threshold 2))
                       Scenario.hostSlow Scenario.online
      = JS.Normal (sd, out)
      /\ out <> None)
  /\ (exists sd out,
         ServerCheckTrigger.poll
           (Scenario.serverMonitor "http" "highLatency" (Scenario.serverThreshold 2))
           Scenario.serverDown Scenario.online
         = JS.Normal (sd, out)
         /\ out = None).
Proof.
  split.
  - destruct (proj1 C6_highLatency_fires_iff_reachable_and_slow
                (Scenario.pingMonitor "example.com" "highLatency" (Scenario.threshold 2))
                Scenario.hostSlow Scenario.online eq_refl)
      as (current & counter & out & Hpoll & Hfire & Hdebounced).
    eexists _, out. split; [exact Hpoll|].
    apply Hfire. split; reflexivity.
  - destruct (proj2 C6_highLatency_fires_iff_reachable_and_slow
                (Scenario.serverMonitor "http" "highLatency" (Scenario.serverThreshold 2))
                Scenario.serverDown Scenario.online "https://example.com" Scenario.httpDown
                eq_refl eq_refl)
      as (current & counter & out & Hpoll & Hfire & Hdebounced).
    eexists _, out. split; [exact Hpoll|].
    apply Hdebounced; [vm_compute; discriminate|].
    vm_compute in Hpoll. congruence.
Defined.

(** ** C7: invalid configurations *)

(** C7, as stated, fails: 'Ping Trigger' with timeout 0, no ping at all,
    failure threshold 0 and a trigger mode outside the enumeration
    completes its cycle without an error, stores the status offline with
    one failure, and returns [null]; with a known mode the same options
    yield an ordinary item. *)
Lemma C7_counterexample_invalid_options_accepted :
  PingTrigger.poll (Scenario.pingMonitor "example.com" "sometimes" Scenario.invalidOptions)
                   Scenario.hostUp StaticData.empty
  = JS.Normal (StaticData.mk (Some false) (Some 1), None)
  /\ exists o,
      PingTrigger.poll (Scenario.pingMonitor "example.com" "everyPoll" Scenario.invalidOptions)
                       Scenario.hostUp StaticData.empty
      = JS.Normal (StaticData.mk (Some false) (Some 1), Some o)
      /\ PingTrigger.Details.pingsAttempted (PingTrigger.Output.details o) = 0
      /\ PingTrigger.Details.failureThreshold (PingTrigger.Output.details o) = 0.
Proof.
  split; [vm_compute; reflexivity|].
  eexists. split; [vm_compute; reflexivity|]. split; reflexivity.
Qed.

Lemma ServerCheck_unknown_checkType (p : ServerCheck.Params.t) (w : Net.World) :
  Spec.knownCheckType (ServerCheck.Params.checkType p) = false ->
  ServerCheck.executeItem p w
  = JS.Throw (JS.NodeOperationError
                ("Unknown check type: " ++ ServerCheck.Params.checkType p)).
Proof.
  unfold Spec.knownCheckType, ServerCheck.executeItem. cbn [existsb].
  repeat (destruct (String.eqb (ServerCheck.Params.checkType p) _); [discriminate|]).
  reflexivity.
Qed.

(** A cycle of 'Ping Trigger' with a number of pings that is not
    positive never enters the loop. *)
Lemma PingTrigger_no_ping (p : PingTrigger.Params.t) (w : PingTrigger.World) :
  PingCycle.numberOfPings p <= 0 ->
  PingCycle.stats p w = PingTrigger.initialStats.
Proof.
  intros Hn. unfold PingCycle.stats, PingTrigger.pingLoop, PingLib.attempts.
  replace (Z.to_nat (PingCycle.numberOfPings p)) with 0%nat by lia. reflexivity.
Qed.

(** C7 (amended): a check type outside the enumeration, given to the
    'Server Check' node, is rejected as a configuration error ('Unknown
    check type: ...', an error record under [continueOnFail]).  The code
    of the trigger nodes checks none of [timeout], [numberOfPings] and
    [failureThreshold]: an absent option stands for the default of the
    description (10, 3, 2) and a given value is used as it is: the
    timeout is handed to the ping library (in 'Server Check Trigger',
    times 1000, to the check), the number of pings bounds the loop and is
    reported as [pingsAttempted], the threshold is compared with the
    counter and reported in [details].  So, with no error raised by the
    node: a cycle of 'Ping Trigger' with a number of pings that is not
    positive sends no ping and is a failed cycle; and a cycle of either
    trigger node that carries out its probe with a threshold that is not
    positive, on a counter that is not negative, has the debounced status
    [false] whatever the probe found.  A trigger mode outside the
    enumeration matches no case: a cycle that carries out its probe
    stores status and counter as always and emits nothing. *)
Theorem C7_invalid_options_are_used_as_given :
  (forall (p : ServerCheck.Params.t) (w : Net.World),
      Spec.knownCheckType (ServerCheck.Params.checkType p) = false ->
      let message := "Unknown check type: " ++ ServerCheck.Params.checkType p in
      ServerCheck.execute false [(p, w)] = JS.Throw (JS.NodeOperationError message)
      /\ ServerCheck.execute true [(p, w)]
         = JS.Normal [[ServerCheck.mkItem
                         (ServerCheck.Failed
                            (ServerCheck.Failure.mk false "error" message (Net.now w)))
                         0%nat]])
  /\ (forall (host triggerMode : string) (latencyThreshold : Q) (w : PingTrigger.World)
             (sd : StaticData.t),
         PingTrigger.poll
           (PingTrigger.Params.mk host triggerMode latencyThreshold PingTrigger.Options.default)
           w sd
         = PingTrigger.poll
             (PingTrigger.Params.mk host triggerMode latencyThreshold
                (PingTrigger.Options.mk (Some 10) (Some 3) (Some 2) (Some false)))
             w sd)
  /\ (forall (p : PingTrigger.Params.t) (w : PingTrigger.World) (t n k : Z),
         PingTrigger.Options.timeout (PingTrigger.Params.options p) = Some t ->
         PingTrigger.Options.numberOfPings (PingTrigger.Params.options p) = Some n ->
         PingTrigger.Options.failureThreshold (PingTrigger.Params.options p) = Some k ->
         PingCycle.responses p w
         = map (PingTrigger.probe w (PingTrigger.Params.host p) t) (seq 0 (Z.to_nat n))
         /\ forall sd sd' o,
             PingTrigger.poll p w sd = JS.Normal (sd', Some o) ->
             PingTrigger.Details.pingsAttempted (PingTrigger.Output.details o) = n
             /\ PingTrigger.Details.pingsSuccessful (PingTrigger.Output.details o)
                = PingLib.aliveCount (PingCycle.responses p w)
             /\ PingTrigger.Details.failureThreshold (PingTrigger.Output.details o) = k)
  /\ (forall (p : PingTrigger.Params.t) (w : PingTrigger.World) (sd : StaticData.t),
         PingCycle.numberOfPings p <= 0 ->
         PingCycle.responses p w = []
         /\ exists out,
             PingTrigger.poll p w sd
             = JS.Normal (StaticData.mk (Some false)
                                        (Some (StaticData.readConsecutiveFailures sd + 1)),
                          out)
             /\ forall o, out = Some o ->
                          PingTrigger.Output.alive o = false
                          /\ PingTrigger.Output.status o = "offline")
  /\ (forall (p : PingTrigger.Params.t) (w : PingTrigger.World) (sd : StaticData.t),
         PingCycle.failureThreshold p <= 0 ->
         0 <= StaticData.readConsecutiveFailures sd ->
         exists counter out,
           PingTrigger.poll p w sd
           = JS.Normal (StaticData.mk (Some false) (Some counter), out)
           /\ forall o, out = Some o ->
                        PingTrigger.Output.status o = "offline"
                        /\ PingTrigger.Output.alive o = PingCycle.reachable p w)
  /\ (forall (p : PingTrigger.Params.t) (w : PingTrigger.World) (sd : StaticData.t),
         Spec.knownTriggerMode (PingTrigger.Params.triggerMode p) = false ->
         PingTrigger.poll p w sd
         = JS.Normal (StaticData.mk (Some (PingCycle.status p w sd))
                                    (Some (PingCycle.counter p w sd)), None))
  /\ (forall (p : ServerCheckTrigger.Params.t) (w : Net.World) (sd : StaticData.t)
             (target : string) (r : ServerCheckTrigger.CheckResult),
         ServerCycle.checked p w target r ->
         Spec.knownTriggerMode (ServerCheckTrigger.Params.triggerMode p) = false ->
         ServerCheckTrigger.poll p w sd
         = JS.Normal (StaticData.mk (Some (ServerCycle.status p r sd))
                                    (Some (ServerCycle.counter r sd)), None))
  /\ (forall (p : ServerCheckTrigger.Params.t) (w : Net.World) (sd : StaticData.t)
             (target : string) (r : ServerCheckTrigger.CheckResult),
         ServerCycle.checked p w target r ->
         ServerCycle.failureThreshold p <= 0 ->
         0 <= StaticData.readConsecutiveFailures sd ->
         exists counter out,
           ServerCheckTrigger.poll p w sd
           = JS.Normal (StaticData.mk (Some false) (Some counter), out)
           /\ forall o, out = Some o ->
                        ServerCheckTrigger.Output.status o = "offline"
                        /\ ServerCheckTrigger.Output.reachable o
                           = ServerCheckTrigger.reachable r)
  /\ (forall (p : ServerCheckTrigger.Params.t) (w : Net.World) (target : string)
             (r : ServerCheckTrigger.CheckResult) (t : Z),
         ServerCheckTrigger.Options.timeout (ServerCheckTrigger.Params.options p) = Some t ->
         ServerCycle.checked p w target r ->
         ServerCheckTrigger.performCheck p w (t * 1000) = JS.Normal (Some (target, r))).
Proof.
  repeat apply conj.
  - intros p w Htype message. unfold ServerCheck.execute.
    cbn [ServerCheck.executeFrom]. rewrite (ServerCheck_unknown_checkType p w Htype).
    split; reflexivity.
  - reflexivity.
  - intros p w t n k Ht Hn Hk.
    assert (Hnum : PingCycle.numberOfPings p = n)
      by (unfold PingCycle.numberOfPings; now rewrite Hn).
    assert (Hthr : PingCycle.failureThreshold p = k)
      by (unfold PingCycle.failureThreshold; now rewrite Hk).
    split.
    + unfold PingCycle.responses, PingCycle.timeout, PingLib.attempts.
      now rewrite Ht, Hnum.
    + intros sd sd' o. rewrite PingTrigger_poll_unfold. intros [= _ Hemit].
      destruct (PingTrigger_emitted_fields p w sd o Hemit) as (_ & _ & _ & Hf).
      rewrite Hf, Hthr, <- PingTrigger_successCount, <- Hnum.
      unfold PingCycle.emitted in Hemit. destruct (fst _); [|discriminate].
      injection Hemit as <-. unfold PingCycle.decision.
      destruct (PingTrigger_trigger_keeps w (PingTrigger.Params.triggerMode p)
                  (PingTrigger.Params.latencyThreshold p) (StaticData.previousStatus sd)
                  (PingCycle.status p w sd) (PingCycle.stats p w) (PingCycle.built p w sd))
        as (_ & _ & _ & _ & _ & _ & _ & Hd).
      rewrite Hd. unfold PingCycle.built, PingTrigger.buildOutput.
      destruct (JS.nullish _ false); cbn; repeat split.
  - intros p w sd Hn. pose proof (PingTrigger_no_ping p w Hn) as Hstats.
    assert (Hdown : PingCycle.reachable p w = false)
      by (unfold PingCycle.reachable; now rewrite Hstats).
    split.
    + unfold PingCycle.responses, PingLib.attempts.
      replace (Z.to_nat (PingCycle.numberOfPings p)) with 0%nat by lia. reflexivity.
    + exists (PingCycle.emitted p w sd). rewrite PingTrigger_poll_unfold.
      unfold PingCycle.status, PingCycle.counter, Spec.debouncedStatus.
      rewrite Hdown, andb_false_r. cbn [Spec.counterAfter]. split; [reflexivity|].
      intros o Ho. destruct (PingTrigger_emitted_fields p w sd o Ho) as (Ha & Hs & _).
      rewrite Ha, Hs, Hdown. unfold PingCycle.status, Spec.debouncedStatus.
      rewrite Hdown, andb_false_r. now split.
  - intros p w sd Hk Hc.
    exists (PingCycle.counter p w sd), (PingCycle.emitted p w sd).
    assert (Hstatus : PingCycle.status p w sd = false)
      by now apply debouncedStatus_threshold_below_one.
    rewrite PingTrigger_poll_unfold, Hstatus. split; [reflexivity|].
    intros o Ho. destruct (PingTrigger_emitted_fields p w sd o Ho) as (Ha & Hs & _).
    rewrite Hs, Hstatus. now split.
  - intros p w sd Hmode. rewrite PingTrigger_poll_unfold.
    unfold PingCycle.emitted, PingCycle.decision.
    now rewrite PingTrigger_trigger_unknown_mode.
  - intros p w sd target r Hr Hmode.
    rewrite (ServerCheckTrigger_poll_unfold p w sd target r Hr).
    unfold ServerCycle.emitted, ServerCycle.decision.
    now rewrite ServerCheckTrigger_trigger_unknown_mode.
  - intros p w sd target r Hr Hk Hc.
    exists (ServerCycle.counter r sd), (ServerCycle.emitted p w target r sd).
    assert (Hstatus : ServerCycle.status p r sd = false)
      by now apply debouncedStatus_threshold_below_one.
    rewrite (ServerCheckTrigger_poll_unfold p w sd target r Hr), Hstatus.
    split; [reflexivity|].
    intros o Ho.
    destruct (ServerCheckTrigger_emitted_fields p w sd target r o Ho) as (Ha & Hs & _).
    rewrite Hs, Hstatus. now split.
  - intros p w target r t Ht. unfold ServerCycle.checked, ServerCycle.timeout.
    now rewrite Ht.
Qed.

(** The amended C7 at work: a 'Server Check' item with the check type
    'ftp'; a 'Ping Trigger' with timeout, number of pings and threshold
    all 0, in a known and in an unknown mode; a 'Server Check Trigger'
    with threshold 0 and an unknown mode on a server that answers. *)
Lemma C7_invalid_options_are_used_as_given_witness :
  ServerCheck.execute false
    [(Scenario.serverCheck "ftp" "https://example.com" None, Scenario.serverUp)]
  = JS.Throw (JS.NodeOperationError "Unknown check type: ftp")
  /\ (exists out,
         PingTrigger.poll (Scenario.pingMonitor "example.com" "everyPoll" Scenario.invalidOptions)
                          Scenario.hostUp Scenario.online
         = JS.Normal (StaticData.mk (Some false) (Some 1), out))
  /\ (exists counter out,
         PingTrigger.poll (Scenario.pingMonitor "example.com" "everyPoll" (Scenario.threshold 0))
                          Scenario.hostUp Scenario.online
         = JS.Normal (StaticData.mk (Some false) (Some counter), out))
  /\ PingTrigger.poll (Scenario.pingMonitor "example.com" "sometimes" (Scenario.threshold 2))
                      Scenario.hostUp StaticData.empty
     = JS.Normal (StaticData.mk (Some true) (Some 0), None)
  /\ ServerCheckTrigger.poll
       (Scenario.serverMonitor "dns" "sometimes" (Scenario.serverThreshold 2))
       Scenario.serverUp StaticData.empty
     = JS.Normal (StaticData.mk (Some true) (Some 0), None)
  /\ (exists counter out,
         ServerCheckTrigger.poll
           (Scenario.serverMonitor "http" "everyPoll" (Scenario.serverThreshold 0))
           Scenario.serverUp Scenario.online
         = JS.Normal (StaticData.mk (Some false) (Some counter), out))
  /\ PingTrigger.Details.failureThreshold
       (PingTrigger.Output.details
          (snd (PingCycle.decision
                  (Scenario.pingMonitor "example.com" "everyPoll" Scenario.invalidOptions)
                  Scenario.hostUp Scenario.online))) = 0.
Proof.
  pose proof C7_invalid_options_are_used_as_given
    as (Hcheck & _ & Hgiven & Hnoping & Hthreshold & Hmode & Hsmode & Hsthreshold & Hstimeout).
  repeat apply conj.
  - exact (proj1 (Hcheck (Scenario.serverCheck "ftp" "https://example.com" None)
                         Scenario.serverUp eq_refl)).
  - destruct (Hnoping (Scenario.pingMonitor "example.com" "everyPoll" Scenario.invalidOptions)
                      Scenario.hostUp Scenario.online ltac:(vm_compute; discriminate))
      as (_ & out & Hpoll & _).
    exists out. exact Hpoll.
  - destruct (Hthreshold (Scenario.pingMonitor "example.com" "everyPoll" (Scenario.threshold 0))
                         Scenario.hostUp Scenario.online
                         ltac:(vm_compute; discriminate) ltac:(vm_compute; discriminate))
      as (counter & out & Hpoll & _).
    exists counter, out. exact Hpoll.
  - exact (Hmode (Scenario.pingMonitor "example.com" "sometimes" (Scenario.threshold 2))
                 Scenario.hostUp StaticData.empty eq_refl).
  - exact (Hsmode (Scenario.serverMonitor "dns" "sometimes" (Scenario.serverThreshold 2))
                  Scenario.serverUp StaticData.empty "example.com"
                  (ServerCheckTrigger.mkResult true 12 None None (Some "93.184.216.34"))
                  eq_refl eq_refl).
  - destruct (Hsthreshold
                (Scenario.serverMonitor "http" "everyPoll" (Scenario.serverThreshold 0))
                Scenario.serverUp Scenario.online "https://example.com" Scenario.httpUp
                eq_refl ltac:(vm_compute; discriminate) ltac:(vm_compute; discriminate))
      as (counter & out & Hpoll & _).
    exists counter, out. exact Hpoll.
  - refine (proj2 (proj2 (proj2 (Hgiven
              (Scenario.pingMonitor "example.com" "everyPoll" Scenario.invalidOptions)
              Scenario.hostUp 0 0 0 eq_refl eq_refl eq_refl)
              Scenario.online _ _ _))).
    rewrite PingTrigger_poll_unfold. reflexivity.
Defined.

(** ** C8: an empty target *)

(** The [execute] nodes reject an empty target before probing. *)
Lemma execute_nodes_require_target :
  (forall (p : Ping.Params.t) (w : Ping.World),
      Ping.Params.host p = "" ->
      Ping.executeItem p w = JS.Throw (JS.NodeOperationError "Host is required"))
  /\ (forall (p : ServerCheck.Params.t) (w : Net.World) (timeout : Z),
         ServerCheck.Params.url p = "" ->
         ServerCheck.executeHttpCheck p w timeout
         = ([], JS.Throw (JS.NodeOperationError "URL is required")))
  /\ (forall (p : ServerCheck.Params.t) (w : Net.World) (timeout : Z),
         ServerCheck.Params.host p = "" ->
         ServerCheck.executeTcpCheck p w timeout
         = JS.Throw (JS.NodeOperationError "Host is required"))
  /\ (forall (p : ServerCheck.Params.t) (w : Net.World) (timeout : Z),
         ServerCheck.Params.domain p = "" ->
         ServerCheck.executeDnsCheck p w timeout
         = JS.Throw (JS.NodeOperationError "Domain is required")).
Proof.
  repeat apply conj; intros p w; [|intros timeout ..]; intros Hempty.
  - unfold Ping.executeItem. now rewrite Hempty.
  - unfold ServerCheck.executeHttpCheck. now rewrite Hempty.
  - unfold ServerCheck.executeTcpCheck. now rewrite Hempty.
  - unfold ServerCheck.executeDnsCheck. now rewrite Hempty.
Qed.

(** C8 on the code.  The [execute] nodes raise 'Host is required', 'URL is
    required', 'Domain is required' on an empty target.  The trigger nodes
    do not look at the target: 'Ping Trigger' with the empty host pings
    it and, no reply coming, emits an ordinary item with [alive = false]
    and status offline and counts a failure; 'Server Check Trigger' does
    the same with an empty TCP host; with an empty DNS domain, for which
    the lookup calls back at once without error, it emits an item with
    [reachable = true] and status online; and with an empty URL it fails
    with the [TypeError] of the URL constructor, not with a configuration
    error of the node. *)
Theorem C8_trigger_nodes_probe_an_empty_target :
  (exists o,
      PingTrigger.poll (Scenario.pingMonitor "" "everyPoll" PingTrigger.Options.default)
                       Scenario.hostDown StaticData.empty
      = JS.Normal (StaticData.mk (Some false) (Some 1), Some o)
      /\ PingTrigger.Output.host o = ""
      /\ PingTrigger.Output.alive o = false
      /\ PingTrigger.Output.status o = "offline")
  /\ (exists o,
         ServerCheckTrigger.poll (Scenario.blankMonitor "tcp") Scenario.serverDown
                                 StaticData.empty
         = JS.Normal (StaticData.mk (Some false) (Some 1), Some o)
         /\ ServerCheckTrigger.Output.target o = ":443"
         /\ ServerCheckTrigger.Output.reachable o = false
         /\ ServerCheckTrigger.Output.error o = Some "Connection timeout")
  /\ (exists o,
         ServerCheckTrigger.poll (Scenario.blankMonitor "dns") Scenario.blankTargets
                                 StaticData.empty
         = JS.Normal (StaticData.mk (Some true) (Some 0), Some o)
         /\ ServerCheckTrigger.Output.target o = ""
         /\ ServerCheckTrigger.Output.reachable o = true
         /\ ServerCheckTrigger.Output.status o = "online"
         /\ ServerCheckTrigger.Output.error o = None)
  /\ ServerCheckTrigger.poll (Scenario.blankMonitor "http") Scenario.serverDown
                             StaticData.empty
     = JS.Throw (JS.TypeError "Invalid URL")
  /\ Ping.executeItem (Scenario.pingItem "" 1) (Scenario.pingItemWorld Scenario.noReply)
     = JS.Throw (JS.NodeOperationError "Host is required")
  /\ ServerCheck.executeItem (Scenario.blankCheck "http") Scenario.serverDown
     = JS.Throw (JS.NodeOperationError "URL is required")
  /\ ServerCheck.executeItem (Scenario.blankCheck "tcp") Scenario.serverDown
     = JS.Throw (JS.NodeOperationError "Host is required")
  /\ ServerCheck.executeItem (Scenario.blankCheck "dns") Scenario.serverDown
     = JS.Throw (JS.NodeOperationError "Domain is required").
Proof.
  repeat apply conj; try reflexivity;
    (eexists; split; [vm_compute; reflexivity|]; repeat split; reflexivity).
Qed.

(** ** C9: the packet-loss percentage *)


Lemma PingTrigger_successCount_bounds (p : PingTrigger.Params.t) (w : PingTrigger.World) :
  0 <= PingTrigger.successCount (PingCycle.stats p w) <= Z.max 0 (PingCycle.numberOfPings p).
Proof.
  rewrite PingTrigger_successCount, <- attempts_length.
  pose proof (aliveCount_bounds (PingCycle.responses p w)) as Hb.
  unfold PingCycle.responses in *. now rewrite length_map in Hb.
Qed.





(** ** C10: the reachability policy of the HTTP check *)

(** C10: an HTTP(S) check that receives a response issues exactly one
    request and judges reachability by the configured policy.  In the
    'Server Check' node: with 'accept any status code' enabled, which is
    the default of the description, every status code counts as
    reachable; with it disabled the result is reachable if and only if
    [200 <= statusCode < 400].  The check of 'Server Check Trigger' has
    no such option and counts every response as reachable.  No check
    issues a second request, whatever the outcome of the first. *)
Theorem C10_http_reachability_policy :
  (forall (p : ServerCheck.Params.t) (w : Net.World) (timeout : Z) (parsedUrl : Net.URL.t)
          (code : option Z) (statusMessage : string) (elapsed : Z),
      ServerCheck.Params.url p <> "" ->
      Net.URL_parse w (ServerCheck.Params.url p) = Some parsedUrl ->
      let request :=
        Net.requestOptions parsedUrl (ServerCheck.Params.httpMethod p) timeout in
      let statusCode := match code with Some n => n | None => 0 end in
      Net.http_request w request = Net.HttpResponse code statusMessage elapsed ->
      exists o,
        ServerCheck.executeHttpCheck p w timeout = ([request], JS.Normal o)
        /\ ServerCheck.Output.statusCode o = Some statusCode
        /\ ServerCheck.Output.status o
           = Debounce.statusName (ServerCheck.Output.reachable o)
        /\ (ServerCheck.Params.acceptAnyStatus p = None ->
            ServerCheck.Output.reachable o = true)
        /\ (ServerCheck.Params.acceptAnyStatus p = Some true ->
            ServerCheck.Output.reachable o = true)
        /\ (ServerCheck.Params.acceptAnyStatus p = Some false ->
            (ServerCheck.Output.reachable o = true <-> Spec.is2xx3xx statusCode)))
  /\ (forall (w : Net.World) (url method : string) (timeout : Z) (parsedUrl : Net.URL.t)
             (code : option Z) (statusMessage : string) (elapsed : Z),
         Net.URL_parse w url = Some parsedUrl ->
         let request := Net.requestOptions parsedUrl method timeout in
         Net.http_request w request = Net.HttpResponse code statusMessage elapsed ->
         exists r,
           ServerCheckTrigger.executeHttpCheck w url method timeout
           = ([request], JS.Normal r)
           /\ ServerCheckTrigger.reachable r = true
           /\ ServerCheckTrigger.statusCode r = code)
  /\ (forall (p : ServerCheck.Params.t) (w : Net.World) (timeout : Z),
         (length (fst (ServerCheck.executeHttpCheck p w timeout)) <= 1)%nat)
  /\ (forall (w : Net.World) (url method : string) (timeout : Z),
         (length (fst (ServerCheckTrigger.executeHttpCheck w url method timeout)) <= 1)%nat).
Proof.
  repeat apply conj.
  - intros p w timeout parsedUrl code statusMessage elapsed Hurl Hparse request statusCode
           Hresponse.
    unfold ServerCheck.executeHttpCheck.
    destruct (String.eqb_spec (ServerCheck.Params.url p) "") as [Hempty|_];
      [contradiction|].
    rewrite Hparse. fold request. rewrite Hresponse. fold statusCode.
    eexists. split; [reflexivity|]. cbn.
    unfold ServerCheck.getAcceptAnyStatus, Spec.is2xx3xx.
    split; [reflexivity|]. split; [reflexivity|].
    split; [|split]; intros ->; cbn; [reflexivity..|].
    now rewrite andb_true_iff, Z.leb_le, Z.ltb_lt.
  - intros w url method timeout parsedUrl code statusMessage elapsed Hparse request
           Hresponse.
    unfold ServerCheckTrigger.executeHttpCheck. rewrite Hparse. fold request.
    rewrite Hresponse. eexists. split; [reflexivity|]. split; reflexivity.
  - intros p w timeout. unfold ServerCheck.executeHttpCheck.
    destruct (String.eqb _ ""); [cbn; lia|].
    destruct (Net.URL_parse w _); cbn; lia.
  - intros w url method timeout. unfold ServerCheckTrigger.executeHttpCheck.
    destruct (Net.URL_parse w url); cbn; lia.
Qed.

(** C10 at work: a response with status 500 is reachable under the
    default policy and for the trigger node, and a response with status
    200 is reachable with 'accept any status code' disabled. *)
Lemma C10_http_reachability_policy_witness :
  (exists o,
      ServerCheck.executeHttpCheck (Scenario.serverCheck "http" "https://example.com" None)
                                   Scenario.serverError 10000
      = ([Net.requestOptions Scenario.exampleURL "GET" 10000], JS.Normal o)
      /\ ServerCheck.Output.statusCode o = Some 500
      /\ ServerCheck.Output.reachable o = true)
  /\ (exists o,
         ServerCheck.executeHttpCheck
           (Scenario.serverCheck "http" "https://example.com" (Some false))
           Scenario.serverUp 10000
         = ([Net.requestOptions Scenario.exampleURL "GET" 10000], JS.Normal o)
         /\ ServerCheck.Output.reachable o = true)
  /\ (exists r,
         ServerCheckTrigger.executeHttpCheck Scenario.serverError "https://example.com"
                                             "GET" 10000
         = ([Net.requestOptions Scenario.exampleURL "GET" 10000], JS.Normal r)
         /\ ServerCheckTrigger.reachable r = true).
Proof.
  split; [|split].
  - destruct (proj1 C10_http_reachability_policy
                (Scenario.serverCheck "http" "https://example.com" None)
                Scenario.serverError 10000 Scenario.exampleURL
                (Some 500) "Internal Server Error" 80
                ltac:(discriminate) eq_refl eq_refl)
      as (o & Hrun & Hcode & _ & Hdefault & _).
    exists o. split; [exact Hrun|]. split; [exact Hcode|]. apply Hdefault. reflexivity.
  - destruct (proj1 C10_http_reachability_policy
                (Scenario.serverCheck "http" "https://example.com" (Some false))
                Scenario.serverUp 10000 Scenario.exampleURL
                (Some 200) "OK" 145
                ltac:(discriminate) eq_refl eq_refl)
      as (o & Hrun & _ & _ & _ & _ & Hstrict).
    exists o. split; [exact Hrun|]. apply Hstrict; [reflexivity|].
    unfold Spec.is2xx3xx. lia.
  - destruct (proj1 (proj2 C10_http_reachability_policy)
                Scenario.serverError "https://example.com" "GET" 10000 Scenario.exampleURL
                (Some 500) "Internal Server Error" 80 eq_refl eq_refl)
      as (r & Hrun & Hreach & _).
    exists r. split; [exact Hrun | exact Hreach].
Defined.

(** * Further properties of the nodes *)

(** ** The remaining trigger modes *)

(** What [trigger] decides in the modes 'everyPoll', 'onlyOffline' and
    'onlyOnline'. *)
Lemma PingTrigger_simple_modes (w : PingTrigger.World) (thr : Q) (previous : option bool)
      (current : bool) (s : PingTrigger.Stats) (o : PingTrigger.Output.t) :
  PingTrigger.trigger w "everyPoll" thr previous current s o
  = (true, PingTrigger.Output.set_triggerReason o "Scheduled poll")
  /\ PingTrigger.trigger w "onlyOffline" thr previous current s o
     = (if current then (false, o)
        else (true, PingTrigger.Output.set_triggerReason o "Host is offline"))
  /\ PingTrigger.trigger w "onlyOnline" thr previous current s o
     = (if current
        then (true, PingTrigger.Output.set_triggerReason o "Host is online")
        else (false, o)).
Proof. destruct current; repeat split. Qed.

Lemma ServerCheckTrigger_simple_modes (w : Net.World) (thr : Q) (previous : option bool)
      (current : bool) (r : ServerCheckTrigger.CheckResult)
      (o : ServerCheckTrigger.Output.t) :
  ServerCheckTrigger.trigger w "everyPoll" thr previous current r o
  = (true, ServerCheckTrigger.Output.set_triggerReason o "Scheduled poll")
  /\ ServerCheckTrigger.trigger w "onlyOffline" thr previous current r o
     = (if current then (false, o)
        else (true, ServerCheckTrigger.Output.set_triggerReason o "Server is offline"))
  /\ ServerCheckTrigger.trigger w "onlyOnline" thr previous current r o
     = (if current
        then (true, ServerCheckTrigger.Output.set_triggerReason o "Server is online")
        else (false, o)).
Proof. destruct current; repeat split. Qed.

(** X1: in 'everyPoll' mode every cycle fires, whatever the stored state
    and the outcome of the probe, with the reason 'Scheduled poll' and the
    status of the cycle (for 'Server Check Trigger': every cycle that
    carries out its check). *)
Theorem X1_everyPoll_always_fires :
  (forall (p : PingTrigger.Params.t) (w : PingTrigger.World) (sd : StaticData.t),
      PingTrigger.Params.triggerMode p = "everyPoll" ->
      exists sd' o,
        PingTrigger.poll p w sd = JS.Normal (sd', Some o)
        /\ PingTrigger.Output.triggerReason o = "Scheduled poll"
        /\ PingTrigger.Output.alive o = PingCycle.reachable p w
        /\ StaticData.previousStatus sd'
           = Some (String.eqb (PingTrigger.Output.status o) "online"))
  /\ (forall (p : ServerCheckTrigger.Params.t) (w : Net.World) (sd : StaticData.t)
             (target : string) (r : ServerCheckTrigger.CheckResult),
         ServerCheckTrigger.Params.triggerMode p = "everyPoll" ->
         ServerCycle.checked p w target r ->
         exists sd' o,
           ServerCheckTrigger.poll p w sd = JS.Normal (sd', Some o)
           /\ ServerCheckTrigger.Output.triggerReason o = "Scheduled poll"
           /\ ServerCheckTrigger.Output.target o = target
           /\ ServerCheckTrigger.Output.reachable o = ServerCheckTrigger.reachable r
           /\ StaticData.previousStatus sd'
              = Some (String.eqb (ServerCheckTrigger.Output.status o) "online")).
Proof.
  split.
  - intros p w sd Hmode. rewrite PingTrigger_poll_unfold.
    unfold PingCycle.emitted, PingCycle.decision. rewrite Hmode.
    destruct (PingTrigger_simple_modes w (PingTrigger.Params.latencyThreshold p)
                (StaticData.previousStatus sd) (PingCycle.status p w sd)
                (PingCycle.stats p w) (PingCycle.built p w sd)) as (-> & _).
    cbn [fst snd]. eexists _, _. split; [reflexivity|].
    unfold PingCycle.built, PingTrigger.buildOutput.
    destruct (JS.nullish _ false); cbn; destruct (PingCycle.status p w sd); repeat split.
  - intros p w sd target r Hmode Hr. rewrite (ServerCheckTrigger_poll_unfold p w sd target r Hr).
    unfold ServerCycle.emitted, ServerCycle.decision. rewrite Hmode.
    destruct (ServerCheckTrigger_simple_modes w (ServerCheckTrigger.Params.latencyThreshold p)
                (StaticData.previousStatus sd) (ServerCycle.status p r sd)
                r (ServerCycle.built p w target r sd)) as (-> & _).
    cbn [fst snd]. eexists _, _. split; [reflexivity|].
    cbn; destruct (ServerCycle.status p r sd); repeat split.
Qed.

Lemma X1_everyPoll_always_fires_witness :
  (exists sd' o,
      PingTrigger.poll (Scenario.pingMonitor "example.com" "everyPoll" (Scenario.threshold 2))
                       Scenario.hostDown Scenario.online
      = JS.Normal (sd', Some o)
      /\ PingTrigger.Output.triggerReason o = "Scheduled poll")
  /\ (exists sd' o,
         ServerCheckTrigger.poll
           (Scenario.serverMonitor "http" "everyPoll" (Scenario.serverThreshold 2))
           Scenario.serverUp Scenario.online
         = JS.Normal (sd', Some o)
         /\ ServerCheckTrigger.Output.triggerReason o = "Scheduled poll").
Proof.
  split.
  - destruct (proj1 X1_everyPoll_always_fires
                (Scenario.pingMonitor "example.com" "everyPoll" (Scenario.threshold 2))
                Scenario.hostDown Scenario.online eq_refl) as (sd' & o & Hpoll & Hreason & _).
    exists sd', o. split; [exact Hpoll | exact Hreason].
  - destruct (proj2 X1_everyPoll_always_fires
                (Scenario.serverMonitor "http" "everyPoll" (Scenario.serverThreshold 2))
                Scenario.serverUp Scenario.online "https://example.com" Scenario.httpUp
                eq_refl eq_refl) as (sd' & o & Hpoll & Hreason & _).
    exists sd', o. split; [exact Hpoll | exact Hreason].
Defined.

(** X2: in 'onlyOffline' mode a cycle fires exactly when its debounced
    status (the one it stores as [previousStatus]) is [false], with the
    reason 'Host is offline' / 'Server is offline' and [status]
    'offline'; in 'onlyOnline' mode exactly when it is [true], with the
    reason '... is online' and [status] 'online'.  The stored state plays
    no part. *)
Theorem X2_onlyOffline_onlyOnline :
  (forall (p : PingTrigger.Params.t) (w : PingTrigger.World) (sd : StaticData.t),
      let observed (o : PingTrigger.Output.t) :=
        (PingTrigger.Output.triggerReason o, PingTrigger.Output.status o) in
      exists current counter out,
        PingTrigger.poll p w sd = JS.Normal (StaticData.mk (Some current) (Some counter), out)
        /\ (PingTrigger.Params.triggerMode p = "onlyOffline" ->
            option_map observed out
            = if current then None else Some ("Host is offline", "offline"))
        /\ (PingTrigger.Params.triggerMode p = "onlyOnline" ->
            option_map observed out
            = if current then Some ("Host is online", "online") else None))
  /\ (forall (p : ServerCheckTrigger.Params.t) (w : Net.World) (sd : StaticData.t)
             (target : string) (r : ServerCheckTrigger.CheckResult),
         ServerCycle.checked p w target r ->
         let observed (o : ServerCheckTrigger.Output.t) :=
           (ServerCheckTrigger.Output.triggerReason o, ServerCheckTrigger.Output.status o) in
         exists current counter out,
           ServerCheckTrigger.poll p w sd
           = JS.Normal (StaticData.mk (Some current) (Some counter), out)
           /\ (ServerCheckTrigger.Params.triggerMode p = "onlyOffline" ->
               option_map observed out
               = if current then None else Some ("Server is offline", "offline"))
           /\ (ServerCheckTrigger.Params.triggerMode p = "onlyOnline" ->
               option_map observed out
               = if current then Some ("Server is online", "online") else None)).
Proof.
  split.
  - intros p w sd observed.
    exists (PingCycle.status p w sd), (PingCycle.counter p w sd), (PingCycle.emitted p w sd).
    split; [apply PingTrigger_poll_unfold|].
    destruct (PingTrigger_simple_modes w (PingTrigger.Params.latencyThreshold p)
                (StaticData.previousStatus sd) (PingCycle.status p w sd)
                (PingCycle.stats p w) (PingCycle.built p w sd)) as (_ & Hoff & Hon).
    unfold PingCycle.emitted, PingCycle.decision.
    split; intros ->; [rewrite Hoff | rewrite Hon];
      unfold PingCycle.built, PingTrigger.buildOutput;
      destruct (PingCycle.status p w sd), (JS.nullish _ false); reflexivity.
  - intros p w sd target r Hr observed.
    exists (ServerCycle.status p r sd), (ServerCycle.counter r sd),
      (ServerCycle.emitted p w target r sd).
    split; [now apply ServerCheckTrigger_poll_unfold|].
    destruct (ServerCheckTrigger_simple_modes w (ServerCheckTrigger.Params.latencyThreshold p)
                (StaticData.previousStatus sd) (ServerCycle.status p r sd)
                r (ServerCycle.built p w target r sd)) as (_ & Hoff & Hon).
    unfold ServerCycle.emitted, ServerCycle.decision.
    split; intros ->; [rewrite Hoff | rewrite Hon];
      unfold ServerCycle.built, ServerCheckTrigger.buildOutput;
      destruct (ServerCycle.status p r sd); reflexivity.
Qed.

Lemma X2_onlyOffline_onlyOnline_witness :
  (exists sd' o,
      PingTrigger.poll (Scenario.pingMonitor "example.com" "onlyOffline" (Scenario.threshold 2))
                       Scenario.hostDown Scenario.online
      = JS.Normal (sd', Some o)
      /\ PingTrigger.Output.triggerReason o = "Host is offline")
  /\ (exists sd',
         ServerCheckTrigger.poll
           (Scenario.serverMonitor "http" "onlyOnline" (Scenario.serverThreshold 2))
           Scenario.serverDown Scenario.online
         = JS.Normal (sd', None)).
Proof.
  split.
  - destruct (proj1 X2_onlyOffline_onlyOnline
                (Scenario.pingMonitor "example.com" "onlyOffline" (Scenario.threshold 2))
                Scenario.hostDown Scenario.online)
      as (current & counter & out & Hpoll & Hoff & _).
    specialize (Hoff eq_refl).
    assert (Hcurrent : current = false) by (vm_compute in Hpoll; congruence).
    rewrite Hcurrent in Hoff. destruct out as [o|]; [|discriminate].
    eexists _, o. split; [exact Hpoll|]. now injection Hoff.
  - destruct (proj2 X2_onlyOffline_onlyOnline
                (Scenario.serverMonitor "http" "onlyOnline" (Scenario.serverThreshold 2))
                Scenario.serverDown Scenario.online "https://example.com" Scenario.httpDown
                eq_refl)
      as (current & counter & out & Hpoll & _ & Hon).
    specialize (Hon eq_refl).
    assert (Hcurrent : current = false) by (vm_compute in Hpoll; congruence).
    rewrite Hcurrent in Hon. destruct out as [o|]; [discriminate|].
    eexists. exact Hpoll.
Defined.

(** ** The shape of an emitted item *)

(** The fields that the [switch] sets, on an [outputData] in which they
    are still as built. *)
Lemma PingTrigger_trigger_shape (w : PingTrigger.World) (mode : string) (thr : Q)
      (previous : option bool) (current : bool) (s : PingTrigger.Stats)
      (o o' : PingTrigger.Output.t) :
  PingTrigger.Output.triggerReason o = "" ->
  PingTrigger.Output.previousStatus o = None ->
  PingTrigger.Output.newStatus o = None ->
  PingTrigger.Output.latencyThreshold o = None ->
  PingTrigger.trigger w mode thr previous current s o = (true, o') ->
  PingTrigger.Output.triggerReason o' <> ""
  /\ (PingTrigger.Output.previousStatus o' = None <-> PingTrigger.Output.newStatus o' = None)
  /\ (PingTrigger.Output.previousStatus o' <> None -> mode = "statusChange")
  /\ (PingTrigger.Output.latencyThreshold o' <> None ->
      mode = "highLatency" /\ PingTrigger.Output.latencyThreshold o' = Some thr).
Proof.
  intros Hreason Hprev Hnew Hthr. unfold PingTrigger.trigger.
  destruct (String.eqb_spec mode "statusChange");
    [|destruct (String.eqb_spec mode "everyPoll");
      [|destruct (String.eqb_spec mode "onlyOffline");
        [|destruct (String.eqb_spec mode "onlyOnline");
          [|destruct (String.eqb_spec mode "highLatency")]]]];
    switch_cases; intros Heq; try discriminate Heq; injection Heq as <-; cbn;
      rewrite ?Hprev, ?Hnew, ?Hthr; repeat split; congruence || discriminate.
Qed.

Lemma ServerCheckTrigger_trigger_shape (w : Net.World) (mode : string) (thr : Q)
      (previous : option bool) (current : bool) (r : ServerCheckTrigger.CheckResult)
      (o o' : ServerCheckTrigger.Output.t) :
  ServerCheckTrigger.Output.triggerReason o = "" ->
  ServerCheckTrigger.Output.previousStatus o = None ->
  ServerCheckTrigger.Output.newStatus o = None ->
  ServerCheckTrigger.Output.latencyThreshold o = None ->
  ServerCheckTrigger.trigger w mode thr previous current r o = (true, o') ->
  ServerCheckTrigger.Output.triggerReason o' <> ""
  /\ (ServerCheckTrigger.Output.previousStatus o' = None
      <-> ServerCheckTrigger.Output.newStatus o' = None)
  /\ (ServerCheckTrigger.Output.previousStatus o' <> None -> mode = "statusChange")
  /\ (ServerCheckTrigger.Output.latencyThreshold o' <> None ->
      mode = "highLatency" /\ ServerCheckTrigger.Output.latencyThreshold o' = Some thr).
Proof.
  intros Hreason Hprev Hnew Hthr. unfold ServerCheckTrigger.trigger.
  destruct (String.eqb_spec mode "statusChange");
    [|destruct (String.eqb_spec mode "everyPoll");
      [|destruct (String.eqb_spec mode "onlyOffline");
        [|destruct (String.eqb_spec mode "onlyOnline");
          [|destruct (String.eqb_spec mode "highLatency")]]]];
    switch_cases; intros Heq; try discriminate Heq; injection Heq as <-; cbn;
      rewrite ?Hprev, ?Hnew, ?Hthr; repeat split; congruence || discriminate.
Qed.

(** An emitted item is the second component of a decision to fire. *)
Lemma PingTrigger_emitted_decision (p : PingTrigger.Params.t) (w : PingTrigger.World)
      (sd : StaticData.t) (o : PingTrigger.Output.t) :
  PingCycle.emitted p w sd = Some o -> PingCycle.decision p w sd = (true, o).
Proof.
  unfold PingCycle.emitted. destruct (PingCycle.decision p w sd) as [[|] o'];
    cbn; [now intros [= <-] | discriminate].
Qed.

Lemma ServerCheckTrigger_emitted_decision (p : ServerCheckTrigger.Params.t) (w : Net.World)
      (sd : StaticData.t) (target : string) (r : ServerCheckTrigger.CheckResult)
      (o : ServerCheckTrigger.Output.t) :
  ServerCycle.emitted p w target r sd = Some o ->
  ServerCycle.decision p w target r sd = (true, o).
Proof.
  unfold ServerCycle.emitted. destruct (ServerCycle.decision p w target r sd) as [[|] o'];
    cbn; [now intros [= <-] | discriminate].
Qed.

(** X3: an item that a trigger node emits never carries the empty
    [triggerReason] with which [outputData] is built; [previousStatus] and
    [newStatus] are set together, and only in 'statusChange' mode;
    [latencyThreshold] is set only in 'highLatency' mode, to the
    configured threshold. *)
Theorem X3_emitted_item_shape :
  (forall (p : PingTrigger.Params.t) (w : PingTrigger.World) (sd sd' : StaticData.t)
          (o : PingTrigger.Output.t),
      PingTrigger.poll p w sd = JS.Normal (sd', Some o) ->
      PingTrigger.Output.triggerReason o <> ""
      /\ (PingTrigger.Output.previousStatus o = None
          <-> PingTrigger.Output.newStatus o = None)
      /\ (PingTrigger.Output.previousStatus o <> None ->
          PingTrigger.Params.triggerMode p = "statusChange")
      /\ (PingTrigger.Output.latencyThreshold o <> None ->
          PingTrigger.Params.triggerMode p = "highLatency"
          /\ PingTrigger.Output.latencyThreshold o
             = Some (PingTrigger.Params.latencyThreshold p)))
  /\ (forall (p : ServerCheckTrigger.Params.t) (w : Net.World) (sd sd' : StaticData.t)
             (o : ServerCheckTrigger.Output.t),
         ServerCheckTrigger.poll p w sd = JS.Normal (sd', Some o) ->
         ServerCheckTrigger.Output.triggerReason o <> ""
         /\ (ServerCheckTrigger.Output.previousStatus o = None
             <-> ServerCheckTrigger.Output.newStatus o = None)
         /\ (ServerCheckTrigger.Output.previousStatus o <> None ->
             ServerCheckTrigger.Params.triggerMode p = "statusChange")
         /\ (ServerCheckTrigger.Output.latencyThreshold o <> None ->
             ServerCheckTrigger.Params.triggerMode p = "highLatency"
             /\ ServerCheckTrigger.Output.latencyThreshold o
                = Some (ServerCheckTrigger.Params.latencyThreshold p))).
Proof.
  split.
  - intros p w sd sd' o. rewrite PingTrigger_poll_unfold. intros [= _ Hemit].
    apply PingTrigger_emitted_decision in Hemit.
    refine (PingTrigger_trigger_shape _ _ _ _ _ _ _ _ _ _ _ _ Hemit);
      unfold PingCycle.built, PingTrigger.buildOutput;
      destruct (JS.nullish _ false); reflexivity.
  - intros p w sd sd' o Hpoll.
    destruct (ServerCheckTrigger_poll_cases p w sd) as [[e He]|[Hnone|(target & r & Hr)]];
      [congruence | congruence |].
    rewrite (ServerCheckTrigger_poll_unfold p w sd target r Hr) in Hpoll.
    injection Hpoll as _ Hemit.
    apply ServerCheckTrigger_emitted_decision in Hemit.
    refine (ServerCheckTrigger_trigger_shape _ _ _ _ _ _ _ _ _ _ _ _ Hemit); reflexivity.
Qed.

Lemma X3_emitted_item_shape_witness :
  exists sd' o,
    PingTrigger.poll (Scenario.pingMonitor "example.com" "highLatency" (Scenario.threshold 2))
                     Scenario.hostSlow Scenario.online
    = JS.Normal (sd', Some o)
    /\ PingTrigger.Output.triggerReason o <> ""
    /\ PingTrigger.Output.previousStatus o = None.
Proof.
  eexists _, _.
  assert (Hpoll : PingTrigger.poll
                    (Scenario.pingMonitor "example.com" "highLatency" (Scenario.threshold 2))
                    Scenario.hostSlow Scenario.online
                  = JS.Normal (?[sd'], Some ?[o])) by (vm_compute; reflexivity).
  split; [exact Hpoll|].
  destruct (proj1 X3_emitted_item_shape _ _ _ _ _ Hpoll) as (Hreason & _).
  split; [exact Hreason | reflexivity].
Defined.

(** ** The counts of an item of 'Ping Trigger' *)

(** The measurements of an emitted item are those of [outputData] as it
    was built. *)
Lemma PingTrigger_emitted_built (p : PingTrigger.Params.t) (w : PingTrigger.World)
      (sd : StaticData.t) (o : PingTrigger.Output.t) :
  PingCycle.emitted p w sd = Some o ->
  PingTrigger.Output.host o = PingTrigger.Output.host (PingCycle.built p w sd)
  /\ PingTrigger.Output.alive o = PingTrigger.Output.alive (PingCycle.built p w sd)
  /\ PingTrigger.Output.status o = PingTrigger.Output.status (PingCycle.built p w sd)
  /\ PingTrigger.Output.responseTime o
     = PingTrigger.Output.responseTime (PingCycle.built p w sd)
  /\ PingTrigger.Output.responseTimeMs o
     = PingTrigger.Output.responseTimeMs (PingCycle.built p w sd)
  /\ PingTrigger.Output.packetLoss o = PingTrigger.Output.packetLoss (PingCycle.built p w sd)
  /\ PingTrigger.Output.packetLossPercent o
     = PingTrigger.Output.packetLossPercent (PingCycle.built p w sd)
  /\ PingTrigger.Output.details o = PingTrigger.Output.details (PingCycle.built p w sd).
Proof.
  intros Hemit. apply PingTrigger_emitted_decision in Hemit.
  pose proof (PingTrigger_trigger_keeps w (PingTrigger.Params.triggerMode p)
                (PingTrigger.Params.latencyThreshold p) (StaticData.previousStatus sd)
                (PingCycle.status p w sd) (PingCycle.stats p w) (PingCycle.built p w sd))
    as Hkeeps.
  unfold PingCycle.decision in Hemit. rewrite Hemit in Hkeeps. exact Hkeeps.
Qed.

(** X4: for a whole number of pings (an integer [numberOfPings], as the
    option's number field is meant to give): in an item of 'Ping Trigger',
    [pingsAttempted] is the configured number of pings, [pingsSuccessful]
    is the number of answered attempts of the cycle,
    [pingsSuccessful + pingsFailed = pingsAttempted], and [alive] says
    whether at least one attempt was answered.  For a whole number of
    pings that is not negative, both counts lie between 0 and that number;
    for a negative one no ping is sent and [pingsFailed] is that negative
    number.  (For a fraction such as 2.5 the loop sends three pings and
    the bounds fail; see the double-precision loop of [Double].) *)
Theorem X4_ping_counts :
  forall (p : PingTrigger.Params.t) (w : PingTrigger.World) (sd sd' : StaticData.t)
         (o : PingTrigger.Output.t),
    PingTrigger.poll p w sd = JS.Normal (sd', Some o) ->
    let d := PingTrigger.Output.details o in
    let n := PingCycle.numberOfPings p in
    PingTrigger.Details.pingsAttempted d = n
    /\ PingTrigger.Details.pingsSuccessful d = PingLib.aliveCount (PingCycle.responses p w)
    /\ PingTrigger.Details.pingsSuccessful d + PingTrigger.Details.pingsFailed d = n
    /\ (PingTrigger.Output.alive o = true <-> 0 < PingTrigger.Details.pingsSuccessful d)
    /\ (0 <= n ->
        0 <= PingTrigger.Details.pingsSuccessful d <= n
        /\ 0 <= PingTrigger.Details.pingsFailed d <= n)
    /\ (n < 0 ->
        PingTrigger.Details.pingsSuccessful d = 0 /\ PingTrigger.Details.pingsFailed d = n).
Proof.
  intros p w sd sd' o. rewrite PingTrigger_poll_unfold. intros [= _ Hemit] d n.
  destruct (PingTrigger_emitted_built p w sd o Hemit) as (_ & Ha & _ & _ & _ & _ & _ & Hd).
  subst d. rewrite Ha, Hd.
  pose proof (PingTrigger_successCount_bounds p w) as Hb.
  pose proof (PingTrigger_successCount p w) as Hcount. fold n in Hb.
  unfold PingCycle.built, PingTrigger.buildOutput.
  destruct (JS.nullish _ false); cbn; fold n; unfold PingTrigger.isAlive;
    rewrite Z.ltb_lt; repeat split; try lia; tauto.
Qed.

Lemma X4_ping_counts_witness :
  exists sd' o,
    PingTrigger.poll (Scenario.pingMonitor "example.com" "everyPoll" (Scenario.threshold 2))
                     Scenario.hostUp StaticData.empty
    = JS.Normal (sd', Some o)
    /\ PingTrigger.Details.pingsSuccessful (PingTrigger.Output.details o)
       + PingTrigger.Details.pingsFailed (PingTrigger.Output.details o) = 3.
Proof.
  eexists _, _.
  assert (Hpoll : PingTrigger.poll
                    (Scenario.pingMonitor "example.com" "everyPoll" (Scenario.threshold 2))
                    Scenario.hostUp StaticData.empty
                  = JS.Normal (?[sd'], Some ?[o])) by (vm_compute; reflexivity).
  split; [exact Hpoll|].
  exact (proj1 (proj2 (proj2 (X4_ping_counts _ _ _ _ _ Hpoll)))).
Defined.

(** ** Minimum, average and maximum *)

Lemma bounded_initial : Aggregate.bounded 0 0%Q JS.PosInfinity 0%Q.
Proof. repeat split; try lia; try reflexivity. discriminate. Qed.

(** One answered attempt with reading [t] keeps the invariant. *)
Lemma bounded_step (count : Z) (total : Q) (lo : JS.number) (hi t : Q) :
  Aggregate.bounded count total lo hi ->
  Aggregate.bounded (count + 1) (total + t)%Q
                    (if JS.lt (JS.Fin t) lo then JS.Fin t else lo)
                    (if JS.Qltb hi t then t else hi).
Proof.
  intros (Hcount & Hhi & Hlo).
  assert (Hc : (0 <= inject_Z count)%Q)
    by (change (inject_Z 0 <= inject_Z count)%Q; rewrite <- Zle_Qle; lia).
  assert (Hnext : (inject_Z (count + 1) == inject_Z count + 1)%Q)
    by (rewrite inject_Z_plus; reflexivity).
  split; [lia|]. split.
  - rewrite Hnext. destruct (JS.Qltb hi t) eqn:Hcmp.
    + apply Qltb_lt in Hcmp. nra.
    + assert (t <= hi)%Q.
      { apply Qnot_lt_le. intros Hlt. apply Qltb_lt in Hlt. congruence. }
      nra.
  - destruct lo as [m| | |]; try contradiction.
    + destruct Hlo as [Hpos Hm]. cbn [JS.lt]. destruct (JS.Qltb t m) eqn:Hcmp.
      * apply Qltb_lt in Hcmp. split; [lia|]. rewrite Hnext. nra.
      * assert (m <= t)%Q.
        { apply Qnot_lt_le. intros Hlt. apply Qltb_lt in Hlt. congruence. }
        split; [lia|]. rewrite Hnext. nra.
    + destruct Hlo as [Hzero Htotal]. cbn [JS.lt]. split; [lia|].
      rewrite Hnext, Htotal. subst count. change (inject_Z 0) with 0%Q. lra.
Qed.

Lemma PingTrigger_fold_bounded (results : list PingLib.PingResponse) :
  forall s,
    Aggregate.bounded (PingTrigger.successCount s) (PingTrigger.totalTime s)
                      (PingTrigger.minTime s) (PingTrigger.maxTime s) ->
    let s' := fold_left PingTrigger.pingStep results s in
    Aggregate.bounded (PingTrigger.successCount s') (PingTrigger.totalTime s')
                      (PingTrigger.minTime s') (PingTrigger.maxTime s').
Proof.
  induction results as [|r results IH]; intros s Hs; cbn [fold_left]; [exact Hs|].
  apply IH. unfold PingTrigger.pingStep. destruct (PingLib.alive r); cbn.
  - now apply bounded_step.
  - exact Hs.
Qed.

Lemma Ping_fold_bounded (results : list PingLib.PingResponse) :
  forall s,
    Aggregate.bounded (Ping.successCount s) (Ping.totalTime s)
                      (Ping.minTime s) (Ping.maxTime s) ->
    let s' := fold_left Ping.pingStep results s in
    Aggregate.bounded (Ping.successCount s') (Ping.totalTime s')
                      (Ping.minTime s') (Ping.maxTime s').
Proof.
  induction results as [|r results IH]; intros s Hs; cbn [fold_left]; [exact Hs|].
  apply IH. unfold Ping.pingStep. destruct (PingLib.alive r); cbn.
  - now apply bounded_step.
  - exact Hs.
Qed.

Lemma PingTrigger_stats_bounded (p : PingTrigger.Params.t) (w : PingTrigger.World) :
  Aggregate.bounded (PingTrigger.successCount (PingCycle.stats p w))
                    (PingTrigger.totalTime (PingCycle.stats p w))
                    (PingTrigger.minTime (PingCycle.stats p w))
                    (PingTrigger.maxTime (PingCycle.stats p w)).
Proof.
  exact (PingTrigger_fold_bounded (PingCycle.responses p w) PingTrigger.initialStats
                                  bounded_initial).
Qed.

Lemma Ping_stats_bounded (p : Ping.Params.t) (w : Ping.World) :
  Aggregate.bounded (Ping.successCount (PingItem.stats p w))
                    (Ping.totalTime (PingItem.stats p w))
                    (Ping.minTime (PingItem.stats p w))
                    (Ping.maxTime (PingItem.stats p w)).
Proof.
  exact (Ping_fold_bounded (PingItem.responses p w) Ping.initialStats bounded_initial).
Qed.

(** With an answered attempt, the average lies between the minimum and
    the maximum. *)
Lemma bounded_average (count : Z) (total : Q) (lo : JS.number) (hi : Q) :
  Aggregate.bounded count total lo hi ->
  0 < count ->
  exists m, lo = JS.Fin m /\ (m <= total / inject_Z count <= hi)%Q.
Proof.
  intros (_ & Hhi & Hlo) Hpos.
  assert (Hc : (0 < inject_Z count)%Q)
    by (change (inject_Z 0 < inject_Z count)%Q; rewrite <- Zlt_Qlt; lia).
  destruct lo as [m| | |]; try contradiction; [|lia].
  exists m. split; [reflexivity|]. destruct Hlo as [_ Hm]. split.
  - now apply Qle_shift_div_l.
  - now apply Qle_shift_div_r.
Qed.

(** *** The smallest and the largest reading *)

Lemma extremes_initial : Aggregate.extremes [] JS.PosInfinity 0%Q.
Proof.
  split; [reflexivity|]. split; [now left|]. split; [apply Qle_refl|]. intros t [].
Qed.

(** One answered attempt with reading [t] keeps the invariant. *)
Lemma extremes_step (times : list Q) (lo : JS.number) (hi t : Q) :
  Aggregate.extremes times lo hi ->
  Aggregate.extremes (times ++ [t])
                     (if JS.lt (JS.Fin t) lo then JS.Fin t else lo)
                     (if JS.Qltb hi t then t else hi).
Proof.
  intros (Hlo & Hhi & Hpos & Hmax).
  assert (Hcases : forall a b, JS.Qltb a b = true /\ (a < b)%Q
                               \/ JS.Qltb a b = false /\ (b <= a)%Q).
  { intros a b. destruct (JS.Qltb a b) eqn:Hcmp.
    - left. split; [reflexivity|]. now apply Qltb_lt.
    - right. split; [reflexivity|]. apply Qnot_lt_le. intros Hlt.
      apply Qltb_lt in Hlt. congruence. }
  split; [|split; [|split]].
  - destruct lo as [m| | |]; try contradiction.
    + destruct Hlo as [Hin Hmin]. cbn [JS.lt].
      destruct (Hcases t m) as [[-> Hlt]|[-> Hge]].
      * split; [apply in_or_app; right; now left|].
        intros u Hu. apply in_app_or in Hu. destruct Hu as [Hu|[<-|[]]].
        -- apply Qle_trans with m; [now apply Qlt_le_weak | now apply Hmin].
        -- apply Qle_refl.
      * split; [apply in_or_app; now left|].
        intros u Hu. apply in_app_or in Hu. destruct Hu as [Hu|[<-|[]]].
        -- now apply Hmin.
        -- exact Hge.
    + subst times. cbn. split; [now left|]. intros u [<-|[]]. apply Qle_refl.
  - destruct (Hcases hi t) as [[-> _]|[-> _]].
    + right. apply in_or_app. right. now left.
    + destruct Hhi as [->|Hin]; [now left|]. right. apply in_or_app. now left.
  - destruct (Hcases hi t) as [[-> Hlt]|[-> _]]; [|exact Hpos].
    apply Qle_trans with hi; [exact Hpos | now apply Qlt_le_weak].
  - intros u Hu. apply in_app_or in Hu.
    destruct (Hcases hi t) as [[-> Hlt]|[-> Hge]]; destruct Hu as [Hu|[<-|[]]].
    + apply Qle_trans with hi; [now apply Hmax | now apply Qlt_le_weak].
    + apply Qle_refl.
    + now apply Hmax.
    + exact Hge.
Qed.

Lemma readings_cons (r : PingLib.PingResponse) (results : list PingLib.PingResponse) :
  Aggregate.readings (r :: results)
  = ((if PingLib.alive r then [PingLib.parsedTime r] else [])
       ++ Aggregate.readings results)%list.
Proof. unfold Aggregate.readings. cbn. now destruct (PingLib.alive r). Qed.

Lemma PingTrigger_fold_extremes (results : list PingLib.PingResponse) :
  forall (times : list Q) (s : PingTrigger.Stats),
    Aggregate.extremes times (PingTrigger.minTime s) (PingTrigger.maxTime s) ->
    let s' := fold_left PingTrigger.pingStep results s in
    Aggregate.extremes (times ++ Aggregate.readings results)
                       (PingTrigger.minTime s') (PingTrigger.maxTime s').
Proof.
  induction results as [|r results IH]; intros times s Hs; cbn [fold_left].
  - unfold Aggregate.readings. cbn. now rewrite app_nil_r.
  - rewrite readings_cons, app_assoc. apply IH.
    unfold PingTrigger.pingStep. destruct (PingLib.alive r); cbn.
    + now apply extremes_step.
    + now rewrite app_nil_r.
Qed.

Lemma Ping_fold_extremes (results : list PingLib.PingResponse) :
  forall (times : list Q) (s : Ping.Stats),
    Aggregate.extremes times (Ping.minTime s) (Ping.maxTime s) ->
    let s' := fold_left Ping.pingStep results s in
    Aggregate.extremes (times ++ Aggregate.readings results)
                       (Ping.minTime s') (Ping.maxTime s').
Proof.
  induction results as [|r results IH]; intros times s Hs; cbn [fold_left].
  - unfold Aggregate.readings. cbn. now rewrite app_nil_r.
  - rewrite readings_cons, app_assoc. apply IH.
    unfold Ping.pingStep. destruct (PingLib.alive r); cbn.
    + now apply extremes_step.
    + now rewrite app_nil_r.
Qed.

(** X5: after the ping loop (a whole number of pings, readings that are
    finite numbers), [minTime] and [maxTime] are what comparisons alone
    make them: without an answered attempt [minTime] is still [Infinity]
    and [maxTime] is 0; with one, [minTime] is a finite number, one of the
    readings of the answered attempts and not above any of them, and
    [maxTime] is 0 or one of those readings and not below any of them, so
    that [minTime <= maxTime].  An item of 'Ping Trigger' with
    [alive = true] reports that minimum, with two decimals, as
    [details.minTime].  (Nothing is said of the average, which the code
    computes with rounding.) *)
Theorem X5_min_and_max_of_the_readings :
  (forall (p : PingTrigger.Params.t) (w : PingTrigger.World),
      Aggregate.extremes (Aggregate.readings (PingCycle.responses p w))
                         (PingTrigger.minTime (PingCycle.stats p w))
                         (PingTrigger.maxTime (PingCycle.stats p w)))
  /\ (forall (p : PingTrigger.Params.t) (w : PingTrigger.World) (sd sd' : StaticData.t)
             (o : PingTrigger.Output.t),
         PingTrigger.poll p w sd = JS.Normal (sd', Some o) ->
         PingTrigger.Output.alive o = true ->
         exists lo,
           PingTrigger.minTime (PingCycle.stats p w) = JS.Fin lo
           /\ PingTrigger.Details.minTime (PingTrigger.Output.details o)
              = JS.toFixed 2 lo ++ " ms"
           /\ In lo (Aggregate.readings (PingCycle.responses p w))
           /\ (lo <= PingTrigger.maxTime (PingCycle.stats p w))%Q
           /\ forall r, In r (PingCycle.responses p w) -> PingLib.alive r = true ->
                        (lo <= PingLib.parsedTime r
                         <= PingTrigger.maxTime (PingCycle.stats p w))%Q)
  /\ (forall (p : Ping.Params.t) (w : Ping.World),
         Aggregate.extremes (Aggregate.readings (PingItem.responses p w))
                            (Ping.minTime (PingItem.stats p w))
                            (Ping.maxTime (PingItem.stats p w)))
  /\ (forall (p : Ping.Params.t) (w : Ping.World),
         0 < Ping.successCount (PingItem.stats p w) ->
         exists lo,
           Ping.minTime (PingItem.stats p w) = JS.Fin lo
           /\ In lo (Aggregate.readings (PingItem.responses p w))
           /\ (lo <= Ping.maxTime (PingItem.stats p w))%Q
           /\ forall r, In r (PingItem.responses p w) -> PingLib.alive r = true ->
                        (lo <= PingLib.parsedTime r
                         <= Ping.maxTime (PingItem.stats p w))%Q).
Proof.
  assert (Htrigger : forall p w,
             Aggregate.extremes (Aggregate.readings (PingCycle.responses p w))
                                (PingTrigger.minTime (PingCycle.stats p w))
                                (PingTrigger.maxTime (PingCycle.stats p w))).
  { intros p w.
    exact (PingTrigger_fold_extremes (PingCycle.responses p w) [] PingTrigger.initialStats
                                     extremes_initial). }
  assert (Hnode : forall p w,
             Aggregate.extremes (Aggregate.readings (PingItem.responses p w))
                                (Ping.minTime (PingItem.stats p w))
                                (Ping.maxTime (PingItem.stats p w))).
  { intros p w.
    exact (Ping_fold_extremes (PingItem.responses p w) [] Ping.initialStats
                              extremes_initial). }
  assert (Hreading : forall results r,
             In r results -> PingLib.alive r = true ->
             In (PingLib.parsedTime r) (Aggregate.readings results)).
  { intros results r Hin Hr. unfold Aggregate.readings. apply in_map.
    apply filter_In. now split. }
  assert (Hnonempty : forall results,
             0 < PingLib.aliveCount results -> Aggregate.readings results <> []).
  { intros results. unfold PingLib.aliveCount, Aggregate.readings.
    destruct (filter PingLib.alive results); cbn; [lia | discriminate]. }
  split; [exact Htrigger|]. split; [|split; [exact Hnode|]].
  - intros p w sd sd' o. rewrite PingTrigger_poll_unfold. intros [= _ Hemit] Halive.
    destruct (PingTrigger_emitted_built p w sd o Hemit) as (_ & Ha & _ & _ & _ & _ & _ & Hd).
    rewrite Ha in Halive. rewrite Hd.
    assert (Hpos : 0 < PingLib.aliveCount (PingCycle.responses p w)).
    { rewrite <- PingTrigger_successCount. revert Halive.
      unfold PingCycle.built, PingTrigger.buildOutput.
      destruct (JS.nullish _ false); cbn; unfold PingTrigger.isAlive; now rewrite Z.ltb_lt. }
    apply Hnonempty in Hpos.
    destruct (Htrigger p w) as (Hlo & _ & _ & Hmax).
    destruct (PingTrigger.minTime (PingCycle.stats p w)) as [lo| | |] eqn:Hmin;
      try contradiction.
    exists lo. destruct Hlo as [Hin Hleast]. split; [reflexivity|].
    split.
    { unfold PingCycle.built, PingTrigger.buildOutput. rewrite Hmin.
      destruct (JS.nullish _ false); reflexivity. }
    split; [exact Hin|]. split; [now apply Hmax|].
    intros r Hr Hanswered. split; [apply Hleast | apply Hmax]; now apply Hreading.
  - intros p w Hpos. rewrite Ping_successCount in Hpos. apply Hnonempty in Hpos.
    destruct (Hnode p w) as (Hlo & _ & _ & Hmax).
    destruct (Ping.minTime (PingItem.stats p w)) as [lo| | |] eqn:Hmin; try contradiction.
    exists lo. destruct Hlo as [Hin Hleast]. split; [reflexivity|].
    split; [exact Hin|]. split; [now apply Hmax|].
    intros r Hr Hanswered. split; [apply Hleast | apply Hmax]; now apply Hreading.
Qed.

Lemma X5_min_and_max_of_the_readings_witness :
  (exists sd' o lo,
      PingTrigger.poll (Scenario.pingMonitor "example.com" "everyPoll" (Scenario.threshold 2))
                       Scenario.hostFlaky StaticData.empty
      = JS.Normal (sd', Some o)
      /\ PingTrigger.Details.minTime (PingTrigger.Output.details o)
         = JS.toFixed 2 lo ++ " ms"
      /\ (lo <= PingTrigger.maxTime
                  (PingCycle.stats
                     (Scenario.pingMonitor "example.com" "everyPoll" (Scenario.threshold 2))
                     Scenario.hostFlaky))%Q)
  /\ (exists lo,
         Ping.minTime (PingItem.stats (Scenario.pingItem "example.com" 3)
                                      Scenario.flakyItemWorld) = JS.Fin lo
         /\ (lo <= Ping.maxTime (PingItem.stats (Scenario.pingItem "example.com" 3)
                                                Scenario.flakyItemWorld))%Q).
Proof.
  split.
  - assert (Hpoll : PingTrigger.poll
                      (Scenario.pingMonitor "example.com" "everyPoll" (Scenario.threshold 2))
                      Scenario.hostFlaky StaticData.empty
                    = JS.Normal (StaticData.mk (Some true) (Some 0),
                                 PingCycle.emitted
                                   (Scenario.pingMonitor "example.com" "everyPoll"
                                                         (Scenario.threshold 2))
                                   Scenario.hostFlaky StaticData.empty))
      by apply PingTrigger_poll_unfold.
    destruct (PingCycle.emitted _ _ _) as [o|] eqn:Hemit;
      [|vm_compute in Hemit; discriminate].
    destruct (proj1 (proj2 X5_min_and_max_of_the_readings) _ _ _ _ o Hpoll)
      as (lo & _ & Hmin & _ & Hle & _).
    + vm_compute in Hemit. injection Hemit as <-. reflexivity.
    + exists (StaticData.mk (Some true) (Some 0)), o, lo.
      split; [exact Hpoll|]. split; [exact Hmin | exact Hle].
  - destruct (proj2 (proj2 (proj2 X5_min_and_max_of_the_readings))
                    (Scenario.pingItem "example.com" 3) Scenario.flakyItemWorld)
      as (lo & Hmin & _ & Hle & _); [reflexivity|].
    exists lo. split; [exact Hmin | exact Hle].
Defined.

(** ** Answered pings without a positive reading *)

Lemma PingTrigger_fold_zero_times (results : list PingLib.PingResponse) :
  Forall (fun r => PingLib.alive r = true -> PingLib.parsedTime r = 0%Q) results ->
  forall s,
    PingTrigger.totalTime s = 0%Q ->
    PingTrigger.maxTime s = 0%Q ->
    PingTrigger.minTime s = JS.PosInfinity \/ PingTrigger.minTime s = JS.Fin 0 ->
    let s' := fold_left PingTrigger.pingStep results s in
    PingTrigger.totalTime s' = 0%Q
    /\ PingTrigger.maxTime s' = 0%Q
    /\ (PingTrigger.minTime s' = JS.PosInfinity \/ PingTrigger.minTime s' = JS.Fin 0).
Proof.
  induction 1 as [|r results Hr _ IH]; intros s Ht Hmax Hmin; cbn [fold_left]; [auto|].
  apply IH; unfold PingTrigger.pingStep; destruct (PingLib.alive r); cbn; trivial.
  - rewrite Ht, Hr by reflexivity. reflexivity.
  - rewrite Hmax, Hr by reflexivity. reflexivity.
  - rewrite Hr by reflexivity. destruct Hmin as [-> | ->]; cbn; auto.
Qed.

(** X6: the sentinel of [responseTime] and [details.maxTime] is chosen by
    the test [> 0], that of [details.minTime] by the test [!== Infinity].
    So when a host answers but no answer carries a reading other than 0
    (a [time] that does not parse counts as 0), the item of 'Ping Trigger'
    says [alive = true] with [responseTime] and [details.maxTime] 'N/A',
    while [details.minTime] is '0.00 ms'. *)
Theorem X6_alive_without_positive_reading :
  forall (p : PingTrigger.Params.t) (w : PingTrigger.World) (sd sd' : StaticData.t)
         (o : PingTrigger.Output.t),
    Forall (fun r => PingLib.alive r = true -> PingLib.parsedTime r = 0%Q)
           (PingCycle.responses p w) ->
    PingTrigger.poll p w sd = JS.Normal (sd', Some o) ->
    PingTrigger.Output.alive o = true ->
    PingTrigger.Output.responseTime o = "N/A"
    /\ PingTrigger.Details.maxTime (PingTrigger.Output.details o) = "N/A"
    /\ PingTrigger.Details.minTime (PingTrigger.Output.details o) = "0.00 ms"
    /\ (PingTrigger.Output.responseTimeMs o == 0)%Q.
Proof.
  intros p w sd sd' o Hzero. rewrite PingTrigger_poll_unfold. intros [= _ Hemit] Halive.
  destruct (PingTrigger_emitted_built p w sd o Hemit) as (_ & Ha & _ & Hrt & Hms & _ & _ & Hd).
  rewrite Ha in Halive. rewrite Hrt, Hms, Hd.
  assert (Hpos : 0 < PingTrigger.successCount (PingCycle.stats p w)).
  { revert Halive. unfold PingCycle.built, PingTrigger.buildOutput.
    destruct (JS.nullish _ false); cbn; unfold PingTrigger.isAlive; now rewrite Z.ltb_lt. }
  destruct (PingTrigger_fold_zero_times _ Hzero PingTrigger.initialStats
                                        eq_refl eq_refl (or_introl eq_refl))
    as (Ht & Hmax & Hmin).
  change (fold_left PingTrigger.pingStep (PingCycle.responses p w) PingTrigger.initialStats)
    with (PingCycle.stats p w) in Ht, Hmax, Hmin.
  destruct (bounded_average _ _ _ _ (PingTrigger_stats_bounded p w) Hpos) as (lo & Hlo & _).
  destruct Hmin as [Hmin|Hmin]; [congruence|].
  assert (Havg : (PingTrigger.avgTime (PingCycle.stats p w) == 0)%Q).
  { unfold PingTrigger.avgTime. apply Z.ltb_lt in Hpos. rewrite Hpos, Ht.
    unfold Qdiv. apply Qmult_0_l. }
  assert (Hna : JS.Qltb 0 (PingTrigger.avgTime (PingCycle.stats p w)) = false).
  { unfold JS.Qltb. apply negb_false_iff, Qle_bool_iff. rewrite Havg. apply Qle_refl. }
  unfold PingCycle.built, PingTrigger.buildOutput.
  rewrite Hna, Hmax, Hmin. destruct (JS.nullish _ false); cbn; repeat split; exact Havg.
Qed.

Lemma X6_alive_without_positive_reading_witness :
  exists sd' o,
    PingTrigger.poll (Scenario.pingMonitor "example.com" "everyPoll" (Scenario.threshold 2))
                     (Scenario.pingWorld Scenario.untimedReply) StaticData.empty
    = JS.Normal (sd', Some o)
    /\ PingTrigger.Output.alive o = true
    /\ PingTrigger.Output.responseTime o = "N/A"
    /\ PingTrigger.Details.minTime (PingTrigger.Output.details o) = "0.00 ms".
Proof.
  eexists _, _.
  assert (Hpoll : PingTrigger.poll
                    (Scenario.pingMonitor "example.com" "everyPoll" (Scenario.threshold 2))
                    (Scenario.pingWorld Scenario.untimedReply) StaticData.empty
                  = JS.Normal (?[sd'], Some ?[o])) by (vm_compute; reflexivity).
  split; [exact Hpoll|]. split; [reflexivity|].
  refine ((fun H => conj (proj1 H) (proj1 (proj2 (proj2 H))))
            (X6_alive_without_positive_reading _ _ _ _ _ _ Hpoll eq_refl)).
  repeat constructor.
Defined.

(** ** The 'Ping' node: which ping is reported *)

Lemma last_attempt {A : Type} (f : nat -> A) (k : nat) :
  last (map Some (map f (seq 0 (S k)))) None = Some (f k).
Proof. rewrite seq_S, !map_app. cbn [map]. apply last_last. Qed.

Lemma Ping_pingResults (p : Ping.Params.t) (w : Ping.World) :
  Ping.pingResults (PingItem.stats p w) = PingItem.responses p w.
Proof.
  unfold PingItem.stats, Ping.pingLoop. rewrite Ping_fold_pingResults. reflexivity.
Qed.

(** X7: for a host that is not empty and at least one ping, the 'Ping'
    node returns an item whose [alive], [status] and [responseTime], and
    whose [details.numericHost] and [details.output], are those of the
    last ping alone, whatever the earlier pings gave; [details] is present
    unless [includeDetails] is switched off, and [pingsSuccessful] still
    counts all answered pings. *)
Theorem X7_ping_node_reports_last_ping :
  forall (p : Ping.Params.t) (w : Ping.World),
    Ping.Params.host p <> "" ->
    1 <= PingItem.numberOfPings p ->
    let lastResult :=
      Ping.probe w (Ping.Params.host p) (PingItem.timeout p)
                 (Z.to_nat (PingItem.numberOfPings p - 1)) in
    exists o,
      Ping.executeItem p w = JS.Normal o
      /\ Ping.Output.host o = Ping.Params.host p
      /\ Ping.Output.alive o = PingLib.alive lastResult
      /\ Ping.Output.status o
         = (if PingLib.alive lastResult then "reachable" else "unreachable")
      /\ Ping.Output.responseTime o = PingLib.time lastResult
      /\ (Ping.Options.includeDetails (Ping.Params.options p) = Some false ->
          Ping.Output.details o = None)
      /\ (Ping.Options.includeDetails (Ping.Params.options p) <> Some false ->
          exists d,
            Ping.Output.details o = Some d
            /\ Ping.Details.numericHost d = PingLib.numeric_host lastResult
            /\ Ping.Details.output d = PingLib.output lastResult
            /\ Ping.Details.pingsAttempted d = PingItem.numberOfPings p
            /\ Ping.Details.pingsSuccessful d
               = PingLib.aliveCount (PingItem.responses p w)).
Proof.
  intros p w Hhost Hn lastResult. unfold Ping.executeItem.
  destruct (String.eqb_spec (Ping.Params.host p) "") as [Hempty|_]; [contradiction|].
  fold (PingItem.timeout p) (PingItem.numberOfPings p). fold (PingItem.stats p w).
  assert (Hlast : last (map Some (Ping.pingResults (PingItem.stats p w))) None
                  = Some lastResult).
  { rewrite Ping_pingResults. unfold PingItem.responses, PingLib.attempts.
    replace (Z.to_nat (PingItem.numberOfPings p))
      with (S (Z.to_nat (PingItem.numberOfPings p - 1))) by lia.
    apply last_attempt. }
  rewrite Hlast. eexists. split; [reflexivity|]. cbn.
  repeat (split; [reflexivity|]). split.
  - intros ->. reflexivity.
  - intros Hdetails. rewrite <- Ping_successCount.
    destruct (Ping.Options.includeDetails (Ping.Params.options p)) as [[|]|];
      [| contradiction |]; cbn; eexists; repeat split.
Qed.

Lemma X7_ping_node_reports_last_ping_witness :
  exists o,
    Ping.executeItem (Scenario.pingItem "example.com" 3)
                     (Ping.mkWorld (fun _ _ i => match i with
                                                 | 2%nat => Scenario.noReply
                                                 | _ => Scenario.reply
                                                 end) "2024-01-15T10:30:00.000Z")
    = JS.Normal o
    /\ Ping.Output.alive o = false
    /\ Ping.Output.status o = "unreachable".
Proof.
  destruct (X7_ping_node_reports_last_ping
              (Scenario.pingItem "example.com" 3)
              (Ping.mkWorld (fun _ _ i => match i with
                                          | 2%nat => Scenario.noReply
                                          | _ => Scenario.reply
                                          end) "2024-01-15T10:30:00.000Z"))
    as (o & Hitem & _ & Halive & Hstatus & _); [discriminate | vm_compute; discriminate |].
  exists o. split; [exact Hitem|]. split; [exact Halive | exact Hstatus].
Defined.

(** X8: for a host that is not empty and a number of pings that is 0 or
    negative ([numberOfPings <= 0]; a fraction between 0 and 1 still sends
    one ping), the 'Ping' node sends no ping and the item fails with a
    [TypeError] on reading [lastResult.alive]: [execute] rejects with it,
    and under [continueOnFail] pushes a record with status 'error' that
    carries the message. *)
Theorem X8_ping_node_without_pings :
  forall (p : Ping.Params.t) (w : Ping.World),
    Ping.Params.host p <> "" ->
    PingItem.numberOfPings p <= 0 ->
    Ping.executeItem p w = JS.Throw Ping.undefinedLastResult
    /\ Ping.execute false [(p, w)] = JS.Throw Ping.undefinedLastResult
    /\ Ping.execute true [(p, w)]
       = JS.Normal [[Ping.mkItem
                       (Ping.Failed
                          (Ping.Failure.mk (Ping.Params.host p) false "error"
                                           (JS.message Ping.undefinedLastResult)
                                           (Ping.now w)))
                       0%nat]].
Proof.
  intros p w Hhost Hn.
  assert (Hitem : Ping.executeItem p w = JS.Throw Ping.undefinedLastResult).
  { unfold Ping.executeItem.
    destruct (String.eqb_spec (Ping.Params.host p) "") as [Hempty|_]; [contradiction|].
    fold (PingItem.timeout p) (PingItem.numberOfPings p). fold (PingItem.stats p w).
    rewrite Ping_pingResults. unfold PingItem.responses, PingLib.attempts.
    replace (Z.to_nat (PingItem.numberOfPings p)) with 0%nat by lia. reflexivity. }
  split; [exact Hitem|].
  unfold Ping.execute. cbn [Ping.executeFrom]. rewrite Hitem. split; reflexivity.
Qed.

Lemma X8_ping_node_without_pings_witness :
  Ping.execute false [(Scenario.pingItem "example.com" 0,
                       Scenario.pingItemWorld Scenario.reply)]
  = JS.Throw (JS.TypeError "Cannot read properties of undefined (reading 'alive')").
Proof.
  exact (proj1 (proj2 (X8_ping_node_without_pings
                         (Scenario.pingItem "example.com" 0)
                         (Scenario.pingItemWorld Scenario.reply)
                         ltac:(discriminate) ltac:(vm_compute; discriminate)))).
Defined.

(** ** [execute] over a list of input items *)

Lemma indexed_length {A B : Type} (f : nat -> A -> B) (l : list A) :
  forall i, length (Batch.indexed f i l) = length l.
Proof. induction l as [|a l IH]; intros i; cbn; [reflexivity | now rewrite IH]. Qed.

Lemma indexed_nth_error {A B : Type} (f : nat -> A -> B) (l : list A) :
  forall i k a,
    nth_error l k = Some a -> nth_error (Batch.indexed f i l) k = Some (f (i + k)%nat a).
Proof.
  induction l as [|b l IH]; intros i [|k] a; cbn; try discriminate.
  - intros [= <-]. now rewrite Nat.add_0_r.
  - intros Hk. rewrite (IH (S i) k a Hk). f_equal. f_equal. lia.
Qed.

Lemma Ping_executeFrom_spec (continueOnFail : bool) (items : list (Ping.Params.t * Ping.World)) :
  forall i,
    Ping.executeFrom continueOnFail i items
    = match (if continueOnFail then None
             else Batch.firstError (fun item => Ping.executeItem (fst item) (snd item)) items)
      with
      | Some e => JS.Throw e
      | None => JS.Normal (Batch.indexed Batch.pingRecord i items)
      end.
Proof.
  induction items as [|[p w] items IH]; intros i; cbn [Ping.executeFrom Batch.firstError
                                                       Batch.indexed fst snd].
  - now destruct continueOnFail.
  - unfold Batch.pingRecord at 1. cbn [fst snd].
    destruct (Ping.executeItem p w) as [o|e]; rewrite ?IH;
      destruct continueOnFail; try reflexivity;
        destruct (Batch.firstError _ items); reflexivity.
Qed.

Lemma ServerCheck_executeFrom_spec (continueOnFail : bool)
      (items : list (ServerCheck.Params.t * Net.World)) :
  forall i,
    ServerCheck.executeFrom continueOnFail i items
    = match (if continueOnFail then None
             else Batch.firstError
                    (fun item => ServerCheck.executeItem (fst item) (snd item)) items)
      with
      | Some e => JS.Throw e
      | None => JS.Normal (Batch.indexed Batch.serverRecord i items)
      end.
Proof.
  induction items as [|[p w] items IH]; intros i;
    cbn [ServerCheck.executeFrom Batch.firstError Batch.indexed fst snd].
  - now destruct continueOnFail.
  - unfold Batch.serverRecord at 1. cbn [fst snd].
    destruct (ServerCheck.executeItem p w) as [o|e]; rewrite ?IH;
      destruct continueOnFail; try reflexivity;
        destruct (Batch.firstError _ items); reflexivity.
Qed.

(** X9: under [continueOnFail] the [execute] of the 'Ping' node and of
    the 'Server Check' node never rejects: it returns one list with
    exactly one item per input item, in order, the item of input [k]
    paired with [k] and holding the result of that input or, if it
    failed, a record with status 'error' and the message. *)
Theorem X9_execute_continueOnFail :
  (forall (items : list (Ping.Params.t * Ping.World)),
      exists returnData,
        Ping.execute true items = JS.Normal [returnData]
        /\ length returnData = length items
        /\ forall k item, nth_error items k = Some item ->
                          nth_error returnData k = Some (Batch.pingRecord k item))
  /\ (forall (items : list (ServerCheck.Params.t * Net.World)),
         exists returnData,
           ServerCheck.execute true items = JS.Normal [returnData]
           /\ length returnData = length items
           /\ forall k item, nth_error items k = Some item ->
                             nth_error returnData k = Some (Batch.serverRecord k item)).
Proof.
  split; intros items.
  - exists (Batch.indexed Batch.pingRecord 0 items).
    unfold Ping.execute. rewrite Ping_executeFrom_spec. cbn [JS.bind].
    split; [reflexivity|]. split; [apply indexed_length|].
    intros k item Hk. apply (indexed_nth_error Batch.pingRecord items 0 k item Hk).
  - exists (Batch.indexed Batch.serverRecord 0 items).
    unfold ServerCheck.execute. rewrite ServerCheck_executeFrom_spec. cbn [JS.bind].
    split; [reflexivity|]. split; [apply indexed_length|].
    intros k item Hk. apply (indexed_nth_error Batch.serverRecord items 0 k item Hk).
Qed.

Lemma X9_execute_continueOnFail_witness :
  exists returnData,
    ServerCheck.execute true
      [(Scenario.serverCheck "http" "https://example.com" None, Scenario.serverUp);
       (Scenario.blankCheck "tcp", Scenario.serverUp)]
    = JS.Normal [returnData]
    /\ nth_error returnData 1
       = Some (ServerCheck.mkItem
                 (ServerCheck.Failed
                    (ServerCheck.Failure.mk false "error" "Host is required"
                                            "2024-01-15T10:30:00.000Z")) 1%nat).
Proof.
  destruct (proj2 X9_execute_continueOnFail
              [(Scenario.serverCheck "http" "https://example.com" None, Scenario.serverUp);
               (Scenario.blankCheck "tcp", Scenario.serverUp)])
    as (returnData & Hrun & _ & Hnth).
  exists returnData. split; [exact Hrun|].
  exact (Hnth 1%nat (Scenario.blankCheck "tcp", Scenario.serverUp) eq_refl).
Defined.

(** X10: without [continueOnFail] the [execute] of either node rejects
    with the error of the first input item that fails, and returns what
    it returns under [continueOnFail] when no item fails. *)
Theorem X10_execute_stops_at_first_error :
  (forall (items : list (Ping.Params.t * Ping.World)),
      Ping.execute false items
      = match Batch.firstError (fun item => Ping.executeItem (fst item) (snd item)) items with
        | Some e => JS.Throw e
        | None => Ping.execute true items
        end)
  /\ (forall (items : list (ServerCheck.Params.t * Net.World)),
         ServerCheck.execute false items
         = match Batch.firstError
                   (fun item => ServerCheck.executeItem (fst item) (snd item)) items with
           | Some e => JS.Throw e
           | None => ServerCheck.execute true items
           end).
Proof.
  split; intros items.
  - unfold Ping.execute. rewrite !Ping_executeFrom_spec.
    now destruct (Batch.firstError _ items).
  - unfold ServerCheck.execute. rewrite !ServerCheck_executeFrom_spec.
    now destruct (Batch.firstError _ items).
Qed.

(** ** The result of a check of the 'Server Check' node *)

(** X11: every result of the 'Server Check' node echoes the configured
    check type and carries the time of the world; its [status] is
    'online' exactly when [reachable] is true; a result with an [error] is
    never reachable; a result that is unreachable without an [error] is
    an HTTP response judged by the strict policy, with a status code
    outside 200..399; only HTTP results carry a [statusCode], and only
    reachable DNS results a [resolvedIp]. *)
Theorem X11_server_check_result_shape :
  forall (p : ServerCheck.Params.t) (w : Net.World) (o : ServerCheck.Output.t),
    ServerCheck.executeItem p w = JS.Normal o ->
    ServerCheck.Output.checkType o = ServerCheck.Params.checkType p
    /\ ServerCheck.Output.timestamp o = Net.now w
    /\ ServerCheck.Output.status o
       = (if ServerCheck.Output.reachable o then "online" else "offline")
    /\ (ServerCheck.Output.error o <> None -> ServerCheck.Output.reachable o = false)
    /\ (ServerCheck.Output.reachable o = false ->
        ServerCheck.Output.error o = None ->
        ServerCheck.Params.checkType p = "http"
        /\ ServerCheck.Params.acceptAnyStatus p = Some false
        /\ exists code,
            ServerCheck.Output.statusCode o = Some code /\ ~ Spec.is2xx3xx code)
    /\ (ServerCheck.Output.statusCode o <> None -> ServerCheck.Params.checkType p = "http")
    /\ (ServerCheck.Output.resolvedIp o <> None ->
        ServerCheck.Params.checkType p = "dns" /\ ServerCheck.Output.reachable o = true).
Proof.
  intros p w o. unfold ServerCheck.executeItem.
  destruct (String.eqb_spec (ServerCheck.Params.checkType p) "http") as [Hhttp|_].
  - unfold ServerCheck.executeHttpCheck.
    destruct (String.eqb (ServerCheck.Params.url p) ""); [discriminate|].
    destruct (Net.URL_parse w _) as [parsedUrl|]; [|discriminate]. cbn [snd].
    destruct (Net.http_request w _) as [code message elapsed| |message elapsed];
      intros [= <-]; cbn; rewrite Hhttp;
        try (repeat split; congruence || discriminate).
    unfold ServerCheck.getAcceptAnyStatus.
    destruct (ServerCheck.Params.acceptAnyStatus p) as [[|]|]; cbn;
      try (repeat split; congruence || discriminate).
    set (statusCode := match code with Some n => n | None => 0 end).
    destruct ((200 <=? statusCode) && (statusCode <? 400)) eqn:Hrange; cbn;
      repeat split; try congruence; try discriminate.
    exists statusCode. split; [reflexivity|]. unfold Spec.is2xx3xx. intros [Hlo Hhi].
    apply andb_false_iff in Hrange. destruct Hrange as [Hr|Hr];
      [apply Z.leb_gt in Hr | apply Z.ltb_ge in Hr]; lia.
  - destruct (String.eqb_spec (ServerCheck.Params.checkType p) "tcp") as [Htcp|_].
    + unfold ServerCheck.executeTcpCheck.
      destruct (String.eqb (ServerCheck.Params.host p) ""); [discriminate|].
      destruct (Net.tcp_connect w _ _ _); intros [= <-]; cbn; rewrite Htcp;
        repeat split; congruence || discriminate.
    + destruct (String.eqb_spec (ServerCheck.Params.checkType p) "dns") as [Hdns|_];
        [|discriminate].
      unfold ServerCheck.executeDnsCheck.
      destruct (String.eqb (ServerCheck.Params.domain p) ""); [discriminate|].
      destruct (Net.dns_lookup w _ _); intros [= <-]; cbn; rewrite Hdns;
        repeat split; congruence || discriminate.
Qed.

Lemma X11_server_check_result_shape_witness :
  exists o,
    ServerCheck.executeItem
      (Scenario.serverCheck "http" "https://example.com" (Some false)) Scenario.serverError
    = JS.Normal o
    /\ ServerCheck.Output.status o = "offline"
    /\ ServerCheck.Output.error o = None.
Proof.
  eexists.
  assert (Hitem : ServerCheck.executeItem
                    (Scenario.serverCheck "http" "https://example.com" (Some false))
                    Scenario.serverError
                  = JS.Normal ?[o]) by (vm_compute; reflexivity).
  split; [exact Hitem|].
  destruct (X11_server_check_result_shape _ _ _ Hitem) as (_ & _ & Hstatus & _).
  split; [exact Hstatus | reflexivity].
Defined.

(** ** The check of 'Server Check Trigger' *)

(** X12: when a cycle of 'Server Check Trigger' obtains a check result,
    the check type is one of 'http', 'tcp', 'dns'; the result is reachable
    exactly when it has no [error]; a [statusCode] comes only with an HTTP
    response and a [resolvedIp] only with a DNS answer, both reachable;
    and the target of the item is the URL, [host:port], or the domain. *)
Theorem X12_trigger_check_result :
  forall (p : ServerCheckTrigger.Params.t) (w : Net.World) (target : string)
         (r : ServerCheckTrigger.CheckResult),
    ServerCycle.checked p w target r ->
    Spec.knownCheckType (ServerCheckTrigger.Params.checkType p) = true
    /\ (ServerCheckTrigger.reachable r = true <-> ServerCheckTrigger.error r = None)
    /\ (ServerCheckTrigger.statusCode r <> None ->
        ServerCheckTrigger.Params.checkType p = "http"
        /\ ServerCheckTrigger.reachable r = true)
    /\ (ServerCheckTrigger.resolvedIp r <> None ->
        ServerCheckTrigger.Params.checkType p = "dns"
        /\ ServerCheckTrigger.reachable r = true)
    /\ target
       = (if String.eqb (ServerCheckTrigger.Params.checkType p) "http"
          then ServerCheckTrigger.Params.url p
          else if String.eqb (ServerCheckTrigger.Params.checkType p) "tcp"
               then ServerCheckTrigger.Params.host p ++ ":"
                      ++ JS.Z_toString (ServerCheckTrigger.Params.port p)
               else ServerCheckTrigger.Params.domain p).
Proof.
  intros p w target r. unfold ServerCycle.checked, ServerCheckTrigger.performCheck,
                         Spec.knownCheckType. cbn [existsb].
  destruct (String.eqb_spec (ServerCheckTrigger.Params.checkType p) "http") as [Hhttp|_].
  - unfold ServerCheckTrigger.executeHttpCheck.
    destruct (Net.URL_parse w _); [|discriminate]. cbn [snd JS.bind].
    destruct (Net.http_request w _); intros [= <- <-]; cbn;
      repeat split; congruence || discriminate.
  - destruct (String.eqb_spec (ServerCheckTrigger.Params.checkType p) "tcp") as [Htcp|_].
    + cbn [ServerCheckTrigger.executeTcpCheck JS.bind].
      destruct (Net.tcp_connect w _ _ _); intros [= <- <-]; cbn;
        repeat split; congruence || discriminate.
    + destruct (String.eqb_spec (ServerCheckTrigger.Params.checkType p) "dns") as [Hdns|_];
        [|discriminate].
      cbn [ServerCheckTrigger.executeDnsCheck JS.bind].
      destruct (Net.dns_lookup w _ _); intros [= <- <-]; cbn;
        repeat split; congruence || discriminate.
Qed.

Lemma X12_trigger_check_result_witness :
  ServerCheckTrigger.reachable
    (ServerCheckTrigger.mkResult false 10000 (Some "Connection timeout") None None) = true
  <-> ServerCheckTrigger.error
        (ServerCheckTrigger.mkResult false 10000 (Some "Connection timeout") None None)
      = None.
Proof.
  exact (proj1 (proj2 (X12_trigger_check_result
                         (Scenario.serverMonitor "tcp" "everyPoll" (Scenario.serverThreshold 2))
                         Scenario.serverDown "vpn.example.com:443"
                         (ServerCheckTrigger.mkResult false 10000 (Some "Connection timeout")
                                                      None None)
                         eq_refl))).
Defined.

(** The three ways of "Perform the check based on type". *)
Lemma ServerCheckTrigger_performCheck_cases (p : ServerCheckTrigger.Params.t)
      (w : Net.World) (sd : StaticData.t) :
  (ServerCheckTrigger.Params.checkType p = "http"
   /\ Net.URL_parse w (ServerCheckTrigger.Params.url p) = None
   /\ ServerCheckTrigger.poll p w sd = JS.Throw Net.invalidURL)
  \/ (Spec.knownCheckType (ServerCheckTrigger.Params.checkType p) = false
      /\ ServerCheckTrigger.poll p w sd = JS.Normal (sd, None))
  \/ (Spec.knownCheckType (ServerCheckTrigger.Params.checkType p) = true
      /\ (ServerCheckTrigger.Params.checkType p = "http" ->
          Net.URL_parse w (ServerCheckTrigger.Params.url p) <> None)
      /\ exists target r, ServerCycle.checked p w target r).
Proof.
  unfold ServerCycle.checked, ServerCycle.timeout, ServerCheckTrigger.poll,
    ServerCheckTrigger.performCheck, Spec.knownCheckType. cbn [existsb].
  destruct (String.eqb_spec (ServerCheckTrigger.Params.checkType p) "http") as [Hhttp|Hhttp].
  - unfold ServerCheckTrigger.executeHttpCheck.
    destruct (Net.URL_parse w _) as [parsedUrl|]; cbn [snd JS.bind].
    + right; right. split; [reflexivity|]. split; [discriminate|]. eauto.
    + left. auto.
  - destruct (String.eqb_spec (ServerCheckTrigger.Params.checkType p) "tcp") as [Htcp|_].
    + right; right. split; [reflexivity|]. split; [contradiction|].
      cbn [ServerCheckTrigger.executeTcpCheck JS.bind]. eauto.
    + destruct (String.eqb_spec (ServerCheckTrigger.Params.checkType p) "dns") as [Hdns|_].
      * right; right. split; [reflexivity|]. split; [contradiction|].
        cbn [ServerCheckTrigger.executeDnsCheck JS.bind]. eauto.
      * right; left. split; reflexivity.
Qed.

(** X13: three outcomes of a cycle of 'Server Check Trigger'.  With a
    check type outside 'http', 'tcp', 'dns' it returns [null] and leaves
    the static data as they were: no failure is counted and no status is
    stored.  With the check type 'http' and a URL that the URL constructor
    refuses it rejects with that [TypeError].  Whenever a cycle with one
    of the three check types completes, it has stored both the status and
    the counter.  (Other rejections exist, such as the [RangeError] of a
    port outside 0..65535; nothing is said of them here.) *)
Theorem X13_trigger_cycle_outcomes :
  forall (p : ServerCheckTrigger.Params.t) (w : Net.World) (sd : StaticData.t),
    (Spec.knownCheckType (ServerCheckTrigger.Params.checkType p) = false ->
     ServerCheckTrigger.poll p w sd = JS.Normal (sd, None))
    /\ (ServerCheckTrigger.Params.checkType p = "http" ->
        Net.URL_parse w (ServerCheckTrigger.Params.url p) = None ->
        ServerCheckTrigger.poll p w sd = JS.Throw Net.invalidURL)
    /\ (forall sd' out,
           ServerCheckTrigger.poll p w sd = JS.Normal (sd', out) ->
           Spec.knownCheckType (ServerCheckTrigger.Params.checkType p) = true ->
           exists status counter, sd' = StaticData.mk (Some status) (Some counter)).
Proof.
  intros p w sd.
  destruct (ServerCheckTrigger_performCheck_cases p w sd)
    as [(Hhttp & Hurl & Hpoll)|[(Hunknown & Hpoll)|(Hknown & Hparses & target & r & Hr)]].
  - rewrite Hpoll. split; [|split].
    + unfold Spec.knownCheckType. rewrite Hhttp. discriminate.
    + reflexivity.
    + discriminate.
  - rewrite Hpoll. split; [|split].
    + reflexivity.
    + intros Hhttp. revert Hunknown. unfold Spec.knownCheckType. rewrite Hhttp. discriminate.
    + congruence.
  - rewrite (ServerCheckTrigger_poll_unfold p w sd target r Hr).
    split; [|split].
    + congruence.
    + intros Hhttp Hurl. now apply Hparses in Hurl.
    + intros sd' out [= <- _] _. eauto.
Qed.

Lemma X13_trigger_cycle_outcomes_witness :
  ServerCheckTrigger.poll (Scenario.serverMonitor "ftp" "everyPoll" (Scenario.serverThreshold 2))
                          Scenario.serverDown Scenario.online
  = JS.Normal (Scenario.online, None)
  /\ ServerCheckTrigger.poll (Scenario.blankMonitor "http") Scenario.serverUp Scenario.online
     = JS.Throw (JS.TypeError "Invalid URL").
Proof.
  split.
  - exact (proj1 (X13_trigger_cycle_outcomes
                    (Scenario.serverMonitor "ftp" "everyPoll" (Scenario.serverThreshold 2))
                    Scenario.serverDown Scenario.online) eq_refl).
  - exact (proj1 (proj2 (X13_trigger_cycle_outcomes
                           (Scenario.blankMonitor "http") Scenario.serverUp Scenario.online))
                 eq_refl eq_refl).
Defined.

(** ** Runs of cycles of 'Ping Trigger' *)

Lemma PingTrigger_cycles_cons (p : PingTrigger.Params.t) (w : PingTrigger.World)
      (ws : list PingTrigger.World) (sd : StaticData.t) :
  PingTrigger.cycles p (w :: ws) sd
  = match PingTrigger.cycles p ws
            (StaticData.mk (Some (PingCycle.status p w sd)) (Some (PingCycle.counter p w sd)))
    with
    | JS.Normal (sd', outs) => JS.Normal (sd', PingCycle.emitted p w sd :: outs)
    | JS.Throw e => JS.Throw e
    end.
Proof.
  cbn [PingTrigger.cycles]. rewrite PingTrigger_poll_unfold. cbn [JS.bind fst snd].
  destruct (PingTrigger.cycles p ws _) as [[sd' outs]|e]; reflexivity.
Qed.

(** X14: over a run of cycles of 'Ping Trigger' in none of which a ping
    is answered, the counter grows by one per cycle, from whatever it was:
    after [n] such cycles it is the old counter plus [n]; every item
    emitted on the way says [alive = false] and status 'offline', and the
    stored status is [false]. *)
Theorem X14_failure_streak :
  forall (p : PingTrigger.Params.t) (ws : list PingTrigger.World)
         (sd sd' : StaticData.t) (outs : list (option PingTrigger.Output.t)),
    Forall (fun w => PingCycle.reachable p w = false) ws ->
    PingTrigger.cycles p ws sd = JS.Normal (sd', outs) ->
    StaticData.readConsecutiveFailures sd'
    = StaticData.readConsecutiveFailures sd + Z.of_nat (length ws)
    /\ length outs = length ws
    /\ (ws <> [] -> StaticData.previousStatus sd' = Some false)
    /\ Forall (fun out => forall o, out = Some o ->
                                    PingTrigger.Output.alive o = false
                                    /\ PingTrigger.Output.status o = "offline") outs.
Proof.
  intros p ws. induction ws as [|w ws IH]; intros sd sd' outs Hdown.
  - cbn. intros [= <- <-]. repeat split; [lia | congruence | constructor].
  - rewrite PingTrigger_cycles_cons. inversion Hdown as [|w' ws' Hw Hws]; subst.
    destruct (PingTrigger.cycles p ws _) as [[sd1 outs1]|e] eqn:Hrest; [|discriminate].
    intros [= <- <-].
    destruct (IH _ _ _ Hws Hrest) as (Hcounter & Hlen & Hprev & Hitems).
    assert (Hstatus : PingCycle.status p w sd = false).
    { unfold PingCycle.status, Spec.debouncedStatus. rewrite Hw. apply andb_false_r. }
    split; [|split; [|split]].
    + rewrite Hcounter. cbn [StaticData.readConsecutiveFailures StaticData.consecutiveFailures
                             length].
      unfold PingCycle.counter. rewrite Hw. cbn [Spec.counterAfter]. lia.
    + cbn [length]. now rewrite Hlen.
    + intros _. destruct ws as [|w2 ws2].
      * cbn in Hrest. injection Hrest as <- _. cbn. now rewrite Hstatus.
      * apply Hprev. discriminate.
    + constructor; [|exact Hitems].
      intros o Ho. destruct (PingTrigger_emitted_fields p w sd o Ho) as (Ha & Hs & _).
      rewrite Ha, Hs, Hw, Hstatus. split; reflexivity.
Qed.

Lemma X14_failure_streak_witness :
  exists sd' outs,
    PingTrigger.cycles (Scenario.pingMonitor "example.com" "everyPoll" (Scenario.threshold 2))
                       [Scenario.hostDown; Scenario.hostDown] Scenario.failedThrice
    = JS.Normal (sd', outs)
    /\ StaticData.readConsecutiveFailures sd' = 5.
Proof.
  eexists _, _.
  assert (Hrun : PingTrigger.cycles
                   (Scenario.pingMonitor "example.com" "everyPoll" (Scenario.threshold 2))
                   [Scenario.hostDown; Scenario.hostDown] Scenario.failedThrice
                 = JS.Normal (?[sd'], ?[outs])) by (vm_compute; reflexivity).
  split; [exact Hrun|].
  refine (proj1 (X14_failure_streak _ _ _ _ _ _ Hrun)).
  repeat constructor.
Defined.

(** A reachable cycle in 'statusChange' mode with a threshold of at
    least 1, after a cycle that stored [true], emits nothing and stores
    [true] again. *)
Lemma PingTrigger_steady_online (p : PingTrigger.Params.t) (ws : list PingTrigger.World) :
  PingTrigger.Params.triggerMode p = "statusChange" ->
  1 <= PingCycle.failureThreshold p ->
  Forall (fun w => PingCycle.reachable p w = true) ws ->
  forall counter,
  exists counter',
    PingTrigger.cycles p ws (StaticData.mk (Some true) (Some counter))
    = JS.Normal (StaticData.mk (Some true) (Some counter'), repeat None (length ws)).
Proof.
  intros Hmode Hk. induction 1 as [|w ws Hw _ IH]; intros counter.
  - exists counter. reflexivity.
  - rewrite PingTrigger_cycles_cons.
    assert (Hstatus : PingCycle.status p w (StaticData.mk (Some true) (Some counter)) = true).
    { unfold PingCycle.status, PingCycle.counter.
      rewrite debouncedStatus_collapses by trivial. exact Hw. }
    pose proof (PingTrigger_statusChange p w (StaticData.mk (Some true) (Some counter)) Hmode)
      as Hout.
    cbn [StaticData.previousStatus Spec.statusChange] in Hout. rewrite Hstatus in Hout.
    cbn [Bool.eqb] in Hout.
    destruct (PingCycle.emitted p w _); [discriminate|].
    rewrite Hstatus.
    destruct (IH (PingCycle.counter p w (StaticData.mk (Some true) (Some counter))))
      as (counter' & ->).
    exists counter'. reflexivity.
Qed.

(** X15: a 'Ping Trigger' in 'statusChange' mode with a failure threshold
    of at least 1, started without stored state on a host that answers in
    every cycle, fires in the first cycle, with the reason 'Initial status
    check' and status 'online', and in no later cycle. *)
Theorem X15_steady_host_fires_once :
  forall (p : PingTrigger.Params.t) (w : PingTrigger.World) (ws : list PingTrigger.World),
    PingTrigger.Params.triggerMode p = "statusChange" ->
    1 <= PingCycle.failureThreshold p ->
    Forall (fun w => PingCycle.reachable p w = true) (w :: ws) ->
    exists counter o,
      PingTrigger.cycles p (w :: ws) StaticData.empty
      = JS.Normal (StaticData.mk (Some true) (Some counter),
                   Some o :: repeat None (length ws))
      /\ PingTrigger.Output.triggerReason o = "Initial status check"
      /\ PingTrigger.Output.status o = "online".
Proof.
  intros p w ws Hmode Hk Hup. inversion Hup as [|w' ws' Hw Hws]; subst.
  rewrite PingTrigger_cycles_cons.
  assert (Hstatus : PingCycle.status p w StaticData.empty = true).
  { unfold PingCycle.status, PingCycle.counter.
    rewrite debouncedStatus_collapses by trivial. exact Hw. }
  pose proof (PingTrigger_statusChange p w StaticData.empty Hmode) as Hout.
  cbn [StaticData.previousStatus StaticData.empty Spec.statusChange] in Hout.
  destruct (PingCycle.emitted p w StaticData.empty) as [o|] eqn:Hemit; [|discriminate].
  rewrite Hstatus.
  destruct (PingTrigger_steady_online p ws Hmode Hk Hws
                                      (PingCycle.counter p w StaticData.empty))
    as (counter & ->).
  exists counter, o. split; [reflexivity|].
  destruct (PingTrigger_emitted_fields p w StaticData.empty o Hemit) as (_ & Hs & _).
  rewrite Hs, Hstatus. injection Hout as Hreason _ _. now split.
Qed.

Lemma X15_steady_host_fires_once_witness :
  exists sd' o,
    PingTrigger.cycles (Scenario.pingMonitor "example.com" "statusChange" (Scenario.threshold 2))
                       [Scenario.hostUp; Scenario.hostSlow; Scenario.hostUp] StaticData.empty
    = JS.Normal (sd', [Some o; None; None])
    /\ PingTrigger.Output.triggerReason o = "Initial status check".
Proof.
  destruct (X15_steady_host_fires_once
              (Scenario.pingMonitor "example.com" "statusChange" (Scenario.threshold 2))
              Scenario.hostUp [Scenario.hostSlow; Scenario.hostUp]
              eq_refl ltac:(vm_compute; discriminate) ltac:(repeat constructor))
    as (counter & o & Hrun & Hreason & _).
  eexists _, o. split; [exact Hrun | exact Hreason].
Defined.

(** ** Raw output and numeric host *)

Lemma PingTrigger_last_ping (p : PingTrigger.Params.t) (w : PingTrigger.World) :
  (1 <= PingCycle.numberOfPings p ->
   let lastResult :=
     PingTrigger.probe w (PingTrigger.Params.host p) (PingCycle.timeout p)
                       (Z.to_nat (PingCycle.numberOfPings p - 1)) in
   PingTrigger.lastOutput (PingCycle.stats p w) = PingLib.output lastResult
   /\ PingTrigger.numericHost (PingCycle.stats p w) = PingLib.numeric_host lastResult)
  /\ (PingCycle.numberOfPings p <= 0 ->
      PingTrigger.lastOutput (PingCycle.stats p w) = ""
      /\ PingTrigger.numericHost (PingCycle.stats p w) = "").
Proof.
  unfold PingCycle.stats, PingTrigger.pingLoop, PingLib.attempts. split; intros Hn.
  - replace (Z.to_nat (PingCycle.numberOfPings p))
      with (S (Z.to_nat (PingCycle.numberOfPings p - 1))) by lia.
    rewrite seq_S, map_app, fold_left_app. cbn [map fold_left Nat.add].
    unfold PingTrigger.pingStep. destruct (PingLib.alive _); split; reflexivity.
  - replace (Z.to_nat (PingCycle.numberOfPings p)) with 0%nat by lia. split; reflexivity.
Qed.

(** X16: the [numericHost] of an item of 'Ping Trigger' is the one
    reported for the last ping of the cycle, answered or not, and
    [details.rawOutput] is present exactly when 'Include Raw Output' is
    switched on, holding the output of that last ping; in a cycle without
    pings both are the empty string. *)
Theorem X16_raw_output_of_last_ping :
  forall (p : PingTrigger.Params.t) (w : PingTrigger.World) (sd sd' : StaticData.t)
         (o : PingTrigger.Output.t),
    PingTrigger.poll p w sd = JS.Normal (sd', Some o) ->
    let d := PingTrigger.Output.details o in
    let includeRawOutput :=
      JS.nullish (PingTrigger.Options.includeRawOutput (PingTrigger.Params.options p))
                 false in
    let lastResult :=
      PingTrigger.probe w (PingTrigger.Params.host p) (PingCycle.timeout p)
                        (Z.to_nat (PingCycle.numberOfPings p - 1)) in
    (1 <= PingCycle.numberOfPings p ->
     PingTrigger.Details.numericHost d = PingLib.numeric_host lastResult
     /\ PingTrigger.Details.rawOutput d
        = if includeRawOutput then Some (PingLib.output lastResult) else None)
    /\ (PingCycle.numberOfPings p <= 0 ->
        PingTrigger.Details.numericHost d = ""
        /\ PingTrigger.Details.rawOutput d = if includeRawOutput then Some "" else None).
Proof.
  intros p w sd sd' o. rewrite PingTrigger_poll_unfold. intros [= _ Hemit] d includeRaw lastR.
  destruct (PingTrigger_emitted_built p w sd o Hemit) as (_ & _ & _ & _ & _ & _ & _ & Hd).
  subst d. rewrite Hd.
  destruct (PingTrigger_last_ping p w) as [Hsome Hnone].
  unfold PingCycle.built, PingTrigger.buildOutput. fold includeRaw.
  split; intros Hn.
  - destruct (Hsome Hn) as [Hout Hhost]. fold lastR in Hout, Hhost.
    destruct includeRaw; cbn; rewrite ?Hout, Hhost; split; reflexivity.
  - destruct (Hnone Hn) as [Hout Hhost].
    destruct includeRaw; cbn; rewrite ?Hout, Hhost; split; reflexivity.
Qed.

Lemma X16_raw_output_of_last_ping_witness :
  exists sd' o,
    PingTrigger.poll
      (Scenario.pingMonitor "example.com" "everyPoll"
                            (PingTrigger.Options.mk None None None (Some true)))
      Scenario.hostDown StaticData.empty
    = JS.Normal (sd', Some o)
    /\ PingTrigger.Details.rawOutput (PingTrigger.Output.details o)
       = Some "Request timed out".
Proof.
  eexists _, _.
  assert (Hpoll : PingTrigger.poll
                    (Scenario.pingMonitor "example.com" "everyPoll"
                                          (PingTrigger.Options.mk None None None (Some true)))
                    Scenario.hostDown StaticData.empty
                  = JS.Normal (?[sd'], Some ?[o])) by (vm_compute; reflexivity).
  split; [exact Hpoll|].
  exact (proj2 (proj1 (X16_raw_output_of_last_ping _ _ _ _ _ Hpoll)
                      ltac:(vm_compute; discriminate))).
Defined.

(** ** Optional fields of an item of 'Server Check Trigger' *)

Lemma ServerCheckTrigger_emitted_built (p : ServerCheckTrigger.Params.t) (w : Net.World)
      (sd : StaticData.t) (target : string) (r : ServerCheckTrigger.CheckResult)
      (o : ServerCheckTrigger.Output.t) :
  ServerCycle.emitted p w target r sd = Some o ->
  ServerCheckTrigger.Output.checkType o = ServerCheckTrigger.Params.checkType p
  /\ ServerCheckTrigger.Output.responseTimeMs o = ServerCheckTrigger.responseTimeMs r
  /\ ServerCheckTrigger.Output.responseTime o
     = JS.Z_toString (ServerCheckTrigger.responseTimeMs r) ++ " ms"
  /\ ServerCheckTrigger.Output.error o
     = ServerCheckTrigger.truthyString (ServerCheckTrigger.error r)
  /\ ServerCheckTrigger.Output.statusCode o
     = ServerCheckTrigger.truthyNumber (ServerCheckTrigger.statusCode r)
  /\ ServerCheckTrigger.Output.resolvedIp o
     = ServerCheckTrigger.truthyString (ServerCheckTrigger.resolvedIp r).
Proof.
  intros Hemit. apply ServerCheckTrigger_emitted_decision in Hemit. revert Hemit.
  unfold ServerCycle.decision, ServerCheckTrigger.trigger.
  switch_cases; intros Heq; try discriminate Heq; injection Heq as <-; cbn; repeat split.
Qed.

(** X17: an item of 'Server Check Trigger' takes over [error],
    [statusCode] and [resolvedIp] from the check result only when they are
    truthy: it never has an empty [error] or [resolvedIp] nor the
    [statusCode] 0.  Hence a check that failed with an empty error message
    yields an item with [reachable = false] and no [error] at all, and an
    HTTP response without status code one without [statusCode]. *)
Theorem X17_trigger_item_optional_fields :
  forall (p : ServerCheckTrigger.Params.t) (w : Net.World) (sd sd' : StaticData.t)
         (target : string) (r : ServerCheckTrigger.CheckResult)
         (o : ServerCheckTrigger.Output.t),
    ServerCycle.checked p w target r ->
    ServerCheckTrigger.poll p w sd = JS.Normal (sd', Some o) ->
    ServerCheckTrigger.Output.error o <> Some ""
    /\ ServerCheckTrigger.Output.statusCode o <> Some 0
    /\ ServerCheckTrigger.Output.resolvedIp o <> Some ""
    /\ (forall message, message <> "" ->
          (ServerCheckTrigger.Output.error o = Some message
           <-> ServerCheckTrigger.error r = Some message))
    /\ (ServerCheckTrigger.error r = Some "" -> ServerCheckTrigger.Output.error o = None)
    /\ (forall code, code <> 0 ->
          (ServerCheckTrigger.Output.statusCode o = Some code
           <-> ServerCheckTrigger.statusCode r = Some code))
    /\ ServerCheckTrigger.Output.responseTime o
       = JS.Z_toString (ServerCheckTrigger.Output.responseTimeMs o) ++ " ms".
Proof.
  intros p w sd sd' target r o Hr.
  rewrite (ServerCheckTrigger_poll_unfold p w sd target r Hr). intros [= _ Hemit].
  destruct (ServerCheckTrigger_emitted_built p w sd target r o Hemit)
    as (_ & Hms & Hrt & He & Hc & Hip).
  rewrite He, Hc, Hip, Hrt, Hms.
  unfold ServerCheckTrigger.truthyString, ServerCheckTrigger.truthyNumber.
  destruct (ServerCheckTrigger.error r) as [e|];
    destruct (ServerCheckTrigger.statusCode r) as [c|];
    destruct (ServerCheckTrigger.resolvedIp r) as [ip|];
    repeat match goal with
           | |- context [String.eqb ?a ""] => destruct (String.eqb_spec a "")
           | |- context [Z.eqb ?a 0] => destruct (Z.eqb_spec a 0)
           end;
    repeat split; try congruence; try discriminate.
Qed.

Lemma X17_trigger_item_optional_fields_witness :
  exists sd' o,
    ServerCheckTrigger.poll
      (Scenario.serverMonitor "tcp" "everyPoll" (Scenario.serverThreshold 2))
      (Scenario.network Net.HttpTimeout (Net.TcpError "" 3) Net.DnsTimer) Scenario.online
    = JS.Normal (sd', Some o)
    /\ ServerCheckTrigger.Output.reachable o = false
    /\ ServerCheckTrigger.Output.error o = None.
Proof.
  eexists _, _.
  assert (Hpoll : ServerCheckTrigger.poll
                    (Scenario.serverMonitor "tcp" "everyPoll" (Scenario.serverThreshold 2))
                    (Scenario.network Net.HttpTimeout (Net.TcpError "" 3) Net.DnsTimer)
                    Scenario.online
                  = JS.Normal (?[sd'], Some ?[o])) by (vm_compute; reflexivity).
  split; [exact Hpoll|]. split; [reflexivity|].
  exact (proj1 (proj2 (proj2 (proj2 (proj2
           (X17_trigger_item_optional_fields
              (Scenario.serverMonitor "tcp" "everyPoll" (Scenario.serverThreshold 2))
              (Scenario.network Net.HttpTimeout (Net.TcpError "" 3) Net.DnsTimer)
              Scenario.online _ "vpn.example.com:443"
              (ServerCheckTrigger.mkResult false 3 (Some "") None None) _
              eq_refl Hpoll)))))
           eq_refl).
Defined.

(** ** A cycle without pings *)

(** X18: a cycle of 'Ping Trigger' whose number of pings is 0 or negative
    ([numberOfPings <= 0]; a fraction between 0 and 1 still sends one
    ping) sends no ping and counts as a failed cycle: the item says
    [alive = false] with one more consecutive failure.  Its packet loss is [NaN], printed
    as 'NaN%', when the number of pings is 0, and 100 when it is
    negative. *)
Theorem X18_cycle_without_pings :
  forall (p : PingTrigger.Params.t) (w : PingTrigger.World) (sd sd' : StaticData.t)
         (o : PingTrigger.Output.t),
    PingCycle.numberOfPings p <= 0 ->
    PingTrigger.poll p w sd = JS.Normal (sd', Some o) ->
    PingTrigger.Output.alive o = false
    /\ PingTrigger.Details.pingsSuccessful (PingTrigger.Output.details o) = 0
    /\ PingTrigger.Details.consecutiveFailures (PingTrigger.Output.details o)
       = StaticData.readConsecutiveFailures sd + 1
    /\ StaticData.consecutiveFailures sd'
       = Some (StaticData.readConsecutiveFailures sd + 1)
    /\ (PingCycle.numberOfPings p = 0 ->
        PingTrigger.Output.packetLossPercent o = JS.NaN
        /\ PingTrigger.Output.packetLoss o = "NaN%")
    /\ (PingCycle.numberOfPings p < 0 ->
        exists q,
          PingTrigger.Output.packetLossPercent o = JS.Fin q
          /\ PingTrigger.Output.packetLoss o = JS.toFixed 1 q ++ "%"
          /\ (q == 100)%Q).
Proof.
  intros p w sd sd' o Hn. rewrite PingTrigger_poll_unfold. intros [= <- Hemit].
  pose proof (PingTrigger_successCount_bounds p w) as Hb.
  assert (H0 : PingTrigger.successCount (PingCycle.stats p w) = 0) by lia.
  assert (Hdown : PingCycle.reachable p w = false).
  { unfold PingCycle.reachable, PingTrigger.isAlive. now rewrite H0. }
  destruct (PingTrigger_emitted_fields p w sd o Hemit) as (Ha & _ & Hc & _).
  destruct (PingTrigger_emitted_built p w sd o Hemit) as (_ & _ & _ & _ & _ & Hpl & Hpct & Hd).
  assert (Hcounter : PingCycle.counter p w sd = StaticData.readConsecutiveFailures sd + 1).
  { unfold PingCycle.counter. now rewrite Hdown. }
  rewrite Ha, Hc, Hpl, Hpct, Hd. cbn [StaticData.consecutiveFailures]. rewrite Hcounter.
  split; [exact Hdown|]. split.
  { unfold PingCycle.built, PingTrigger.buildOutput.
    destruct (JS.nullish _ false); cbn; exact H0. }
  split; [reflexivity|]. split; [reflexivity|].
  unfold PingCycle.built, PingTrigger.buildOutput, PingTrigger.packetLoss. rewrite H0.
  split.
  - intros Hzero. rewrite Hzero. destruct (JS.nullish _ false); cbn; split; reflexivity.
  - intros Hneg.
    assert (Hnz : ~ (inject_Z (PingCycle.numberOfPings p) == 0)%Q).
    { intros Hz. unfold Qeq in Hz. cbn in Hz. lia. }
    exists (inject_Z (PingCycle.numberOfPings p - 0) / inject_Z (PingCycle.numberOfPings p)
            * 100)%Q.
    unfold JS.div.
    destruct (Qeq_bool (inject_Z (PingCycle.numberOfPings p)) 0) eqn:Hz;
      [apply Qeq_bool_eq in Hz; contradiction|].
    split; [|split].
    + destruct (JS.nullish _ false); reflexivity.
    + destruct (JS.nullish _ false); reflexivity.
    + rewrite Z.sub_0_r. field. exact Hnz.
Qed.

Lemma X18_cycle_without_pings_witness :
  exists sd' o,
    PingTrigger.poll
      (Scenario.pingMonitor "example.com" "everyPoll"
                            (PingTrigger.Options.mk None (Some 0) None None))
      Scenario.hostUp Scenario.online
    = JS.Normal (sd', Some o)
    /\ PingTrigger.Output.alive o = false
    /\ PingTrigger.Output.packetLoss o = "NaN%".
Proof.
  eexists _, _.
  assert (Hpoll : PingTrigger.poll
                    (Scenario.pingMonitor "example.com" "everyPoll"
                                          (PingTrigger.Options.mk None (Some 0) None None))
                    Scenario.hostUp Scenario.online
                  = JS.Normal (?[sd'], Some ?[o])) by (vm_compute; reflexivity).
  split; [exact Hpoll|].
  destruct (X18_cycle_without_pings
              (Scenario.pingMonitor "example.com" "everyPoll"
                                    (PingTrigger.Options.mk None (Some 0) None None))
              _ _ _ _ ltac:(vm_compute; discriminate) Hpoll)
    as (Halive & _ & _ & _ & Hzero & _).
  split; [exact Halive|]. exact (proj2 (Hzero eq_refl)).
Defined.

(** ** The HTTP request *)

Lemma requestOptions_shape (parsedUrl : Net.URL.t) (method : string) (timeout : Z) :
  let request := Net.requestOptions parsedUrl method timeout in
  Net.RequestOptions.rejectUnauthorized request = false
  /\ Net.RequestOptions.method request = method
  /\ Net.RequestOptions.timeout request = timeout
  /\ Net.RequestOptions.hostname request = Net.URL.hostname parsedUrl
  /\ Net.RequestOptions.path request = Net.URL.pathname parsedUrl ++ Net.URL.search parsedUrl
  /\ Net.RequestOptions.secure request = String.eqb (Net.URL.protocol parsedUrl) "https:"
  /\ match Net.RequestOptions.port request with
     | Net.PortNumber n =>
         Net.URL.port parsedUrl = ""
         /\ n = (if Net.RequestOptions.secure request then 443 else 80)
     | Net.PortString s => s = Net.URL.port parsedUrl /\ s <> ""
     end.
Proof.
  cbn. repeat (split; [reflexivity|]).
  destruct (String.eqb_spec (Net.URL.port parsedUrl) ""); split; trivial.
Qed.

(** X19: a request is issued only for a URL that is not refused (and, in
    the 'Server Check' node, not empty).  Every request that either HTTP
    check issues has certificate validation switched off, carries the
    configured method and timeout, goes over [https] exactly when the
    protocol of the URL is 'https:', asks for path and query of the URL,
    and goes to the port of the URL if it names one, else to 443 over
    [https] and to 80 otherwise. *)
Theorem X19_http_request_options :
  (forall (p : ServerCheck.Params.t) (w : Net.World) (timeout : Z)
          (request : Net.RequestOptions.t),
      In request (fst (ServerCheck.executeHttpCheck p w timeout)) ->
      ServerCheck.Params.url p <> ""
      /\ exists parsedUrl,
          Net.URL_parse w (ServerCheck.Params.url p) = Some parsedUrl
          /\ request = Net.requestOptions parsedUrl (ServerCheck.Params.httpMethod p) timeout
          /\ Net.RequestOptions.rejectUnauthorized request = false
          /\ Net.RequestOptions.secure request
             = String.eqb (Net.URL.protocol parsedUrl) "https:"
          /\ match Net.RequestOptions.port request with
             | Net.PortNumber n =>
                 Net.URL.port parsedUrl = ""
                 /\ n = (if Net.RequestOptions.secure request then 443 else 80)
             | Net.PortString s => s = Net.URL.port parsedUrl /\ s <> ""
             end)
  /\ (forall (w : Net.World) (url method : string) (timeout : Z)
             (request : Net.RequestOptions.t),
         In request (fst (ServerCheckTrigger.executeHttpCheck w url method timeout)) ->
         exists parsedUrl,
           Net.URL_parse w url = Some parsedUrl
           /\ request = Net.requestOptions parsedUrl method timeout
           /\ Net.RequestOptions.rejectUnauthorized request = false
           /\ Net.RequestOptions.secure request
              = String.eqb (Net.URL.protocol parsedUrl) "https:"
           /\ match Net.RequestOptions.port request with
              | Net.PortNumber n =>
                  Net.URL.port parsedUrl = ""
                  /\ n = (if Net.RequestOptions.secure request then 443 else 80)
              | Net.PortString s => s = Net.URL.port parsedUrl /\ s <> ""
              end).
Proof.
  split.
  - intros p w timeout request. unfold ServerCheck.executeHttpCheck.
    destruct (String.eqb_spec (ServerCheck.Params.url p) "") as [Hempty|Hurl];
      [intros []|].
    destruct (Net.URL_parse w _) as [parsedUrl|]; [|intros []].
    cbn [fst In]. intros [<-|[]]. split; [exact Hurl|]. exists parsedUrl.
    destruct (requestOptions_shape parsedUrl (ServerCheck.Params.httpMethod p) timeout)
      as (Hr & _ & _ & _ & _ & Hs & Hp).
    repeat split; trivial.
  - intros w url method timeout request. unfold ServerCheckTrigger.executeHttpCheck.
    destruct (Net.URL_parse w url) as [parsedUrl|]; [|intros []].
    cbn [fst In]. intros [<-|[]]. exists parsedUrl.
    destruct (requestOptions_shape parsedUrl method timeout)
      as (Hr & _ & _ & _ & _ & Hs & Hp).
    repeat split; trivial.
Qed.

Lemma X19_http_request_options_witness :
  exists parsedUrl,
    Net.URL_parse Scenario.serverUp "https://example.com" = Some parsedUrl
    /\ Net.RequestOptions.port (Net.requestOptions parsedUrl "GET" 10000)
       = Net.PortNumber 443.
Proof.
  destruct (proj2 X19_http_request_options Scenario.serverUp "https://example.com" "GET" 10000
                  (Net.requestOptions Scenario.exampleURL "GET" 10000)
                  (or_introl eq_refl))
    as (parsedUrl & Hparse & Hrequest & _).
  exists parsedUrl. split; [exact Hparse|].
  injection Hparse as <-. reflexivity.
Defined.

(** ** Timeouts of the 'Server Check Trigger' *)

(** X20: when the HTTP request of a cycle times out, or the timer wins
    against the DNS lookup, the item reports [reachable = false], the
    error 'Connection timeout' respectively 'DNS lookup timeout', and as
    response time the configured limit, the [timeout] option in seconds
    times 1000 (10000 without the option), not a measured time; the
    cycle counts as a failure. *)
Theorem X20_trigger_timeout_reports_limit :
  forall (p : ServerCheckTrigger.Params.t) (w : Net.World) (sd sd' : StaticData.t)
         (o : ServerCheckTrigger.Output.t),
    ServerCheckTrigger.poll p w sd = JS.Normal (sd', Some o) ->
    let limit :=
      JS.nullish (ServerCheckTrigger.Options.timeout (ServerCheckTrigger.Params.options p)) 10
      * 1000 in
    let reports (message : string) :=
      ServerCheckTrigger.Output.reachable o = false
      /\ ServerCheckTrigger.Output.status o = "offline"
      /\ ServerCheckTrigger.Output.responseTimeMs o = limit
      /\ ServerCheckTrigger.Output.responseTime o = JS.Z_toString limit ++ " ms"
      /\ ServerCheckTrigger.Output.error o = Some message
      /\ StaticData.consecutiveFailures sd'
         = Some (StaticData.readConsecutiveFailures sd + 1) in
    (ServerCheckTrigger.Params.checkType p = "http" ->
     forall parsedUrl,
       Net.URL_parse w (ServerCheckTrigger.Params.url p) = Some parsedUrl ->
       Net.http_request w
         (Net.requestOptions parsedUrl (ServerCheckTrigger.Params.httpMethod p) limit)
       = Net.HttpTimeout ->
       reports "Connection timeout")
    /\ (ServerCheckTrigger.Params.checkType p = "dns" ->
        Net.dns_lookup w (ServerCheckTrigger.Params.domain p) limit = Net.DnsTimer ->
        reports "DNS lookup timeout").
Proof.
  intros p w sd sd' o Hpoll limit reports.
  assert (Hgen : forall target message,
             ServerCycle.checked p w target
               (ServerCheckTrigger.mkResult false limit (Some message) None None) ->
             message <> "" -> reports message).
  { intros target message Hr Hmessage.
    rewrite (ServerCheckTrigger_poll_unfold p w sd target _ Hr) in Hpoll.
    injection Hpoll as <- Hemit.
    destruct (ServerCheckTrigger_emitted_fields p w sd target _ o Hemit) as (Ha & Hs & _).
    destruct (ServerCheckTrigger_emitted_built p w sd target _ o Hemit)
      as (_ & Hms & Hrt & He & _).
    unfold reports. rewrite Ha, Hs, Hms, Hrt, He. cbn.
    unfold ServerCycle.status, Spec.debouncedStatus. cbn. rewrite andb_false_r.
    destruct (String.eqb_spec message ""); [contradiction|]. repeat split. }
  split.
  - intros Hhttp parsedUrl Hparse Htimeout.
    apply (Hgen (ServerCheckTrigger.Params.url p)); [|discriminate].
    unfold ServerCycle.checked, ServerCycle.timeout, ServerCheckTrigger.performCheck,
      ServerCheckTrigger.executeHttpCheck. fold limit.
    rewrite Hhttp, Hparse. cbn [String.eqb Ascii.eqb Bool.eqb snd JS.bind].
    now rewrite Htimeout.
  - intros Hdns Htimer.
    apply (Hgen (ServerCheckTrigger.Params.domain p)); [|discriminate].
    unfold ServerCycle.checked, ServerCycle.timeout, ServerCheckTrigger.performCheck,
      ServerCheckTrigger.executeDnsCheck. fold limit.
    rewrite Hdns. cbn [String.eqb Ascii.eqb Bool.eqb JS.bind].
    now rewrite Htimer.
Qed.

Lemma X20_trigger_timeout_reports_limit_witness :
  exists sd' o,
    ServerCheckTrigger.poll
      (Scenario.serverMonitor "dns" "everyPoll" ServerCheckTrigger.Options.default)
      Scenario.serverDown Scenario.online
    = JS.Normal (sd', Some o)
    /\ ServerCheckTrigger.Output.responseTimeMs o = 10000
    /\ ServerCheckTrigger.Output.error o = Some "DNS lookup timeout".
Proof.
  eexists _, _.
  assert (Hpoll : ServerCheckTrigger.poll
                    (Scenario.serverMonitor "dns" "everyPoll"
                                            ServerCheckTrigger.Options.default)
                    Scenario.serverDown Scenario.online
                  = JS.Normal (?[sd'], Some ?[o])) by (vm_compute; reflexivity).
  split; [exact Hpoll|].
  destruct (proj2 (X20_trigger_timeout_reports_limit
                     (Scenario.serverMonitor "dns" "everyPoll"
                                             ServerCheckTrigger.Options.default)
                     Scenario.serverDown Scenario.online _ _ Hpoll) eq_refl eq_refl)
    as (_ & _ & Hms & _ & Herror & _).
  split; [exact Hms | exact Herror].
Defined.
